(** * fact_check: the verification round and the feedback ledger

    A shallow embedding of [court_manager.py] and of the fact-checking and
    feedback paths of [fake_news.py], with the properties the specification
    states about them.

    Conventions of the embedding:
    - a Python [str] is the list of its code points ([pystr]); [len] is
      [length], the slice [s[:n]] is [take n s];
    - the process state that the modelled functions share is the feedback
      ledger file, [data/user_feedback_db.txt] for both modules; every call
      that leaves the process (a file operation, the court hearing, an LLM
      request) is appended to a trace;
    - what the outside world answers is the environment [Env]: the Model
      Court hearing, the LLM proxy, the disk and the clock;
    - the platform is POSIX: text files are UTF-8 and a newline is written
      as it is, while reading with [Path.read_text] turns [CR LF] and a lone
      [CR] into [LF] (universal newlines);
    - writing a string that holds a surrogate code point raises
      [UnicodeEncodeError]; any file operation may also raise [OSError], as
      the disk decides;
    - the ledger is written one [f.write] at a time, and what an [f.write]
      has returned from is in the file (the buffer of the file object is not
      modelled); of a log file only the attempt to write it is recorded, of
      the backup file of a feedback also the data handed to [json.dump]; the
      fields of a JSON body are strings;
    - [print] statements, the contents of the debugging log files and the
      prompts of the jurors are not modelled; the library constructors of
      [model_court] are plain record constructions. *)

From Stdlib Require Import NArith String Ascii List Lia DecimalString.
From stdpp Require Import base list gmap.

Set Warnings "-abstract-large-number".

Local Open Scope nat_scope.

(** ** Python strings *)

Module PyStr.

Abbreviation pystr := (list N).

(** An ASCII literal as a Python string. *)
Definition u (s : string) : pystr := map N_of_ascii (list_ascii_of_string s).
Global Arguments u : simpl never.

Definition NL : N := 10%N.
Definition CR : N := 13%N.

(** [str.isspace] for one code point: the characters [str.strip()] removes. *)
Definition py_isspace (c : N) : bool :=
  ((9 <=? c) && (c <=? 13) || (28 <=? c) && (c <=? 32) || (c =? 133) || (c =? 160)
   || (c =? 5760) || (8192 <=? c) && (c <=? 8202) || (c =? 8232) || (c =? 8233)
   || (c =? 8239) || (c =? 8287) || (c =? 12288))%N.

Fixpoint starts_with (p s : pystr) : bool :=
  match p, s with
  | [], _ => true
  | _ :: _, [] => false
  | a :: p', b :: s' => (a =? b)%N && starts_with p' s'
  end.

(** [sub in s] *)
Fixpoint py_in (sub s : pystr) : bool :=
  starts_with sub s || match s with [] => false | _ :: s' => py_in sub s' end.

Fixpoint drop_while (f : N -> bool) (s : pystr) : pystr :=
  match s with
  | [] => []
  | c :: s' => if f c then drop_while f s' else s
  end.

Definition py_lstrip (s : pystr) : pystr := drop_while py_isspace s.
Definition py_rstrip (s : pystr) : pystr := rev (drop_while py_isspace (rev s)).
(** [s.strip()] *)
Definition py_strip (s : pystr) : pystr := py_rstrip (py_lstrip s).

(** [s.split(sep)] for a one-character separator. *)
Fixpoint py_split (sep : N) (s : pystr) : list pystr :=
  match s with
  | [] => [[]]
  | c :: s' =>
      if (c =? sep)%N then [] :: py_split sep s'
      else match py_split sep s' with
           | l :: ls => (c :: l) :: ls
           | [] => [[c]]
           end
  end.

(** [sep.join(ls)] *)
Fixpoint py_join (sep : pystr) (ls : list pystr) : pystr :=
  match ls with
  | [] => []
  | x :: rest =>
      match rest with
      | [] => x
      | _ :: _ => x ++ sep ++ py_join sep rest
      end
  end.

Fixpoint replace_from (old new : pystr) (skip : nat) (s : pystr) : pystr :=
  match s with
  | [] => []
  | c :: s' =>
      match skip with
      | S k => replace_from old new k s'
      | O =>
          if starts_with old s
          then new ++ replace_from old new (pred (length old)) s'
          else c :: replace_from old new 0 s'
      end
  end.

(** [s.replace(old, new)]: every occurrence, left to right, not overlapping. *)
Definition py_replace (old new s : pystr) : pystr :=
  match old with
  | [] => new ++ flat_map (fun c => c :: new) s
  | _ :: _ => replace_from old new 0 s
  end.

(** [s.replace(old, new, 1)]: the first occurrence only. *)
Fixpoint py_replace1 (old new s : pystr) {struct s} : pystr :=
  if starts_with old s then new ++ drop (length old) s
  else match s with
       | [] => []
       | c :: s' => c :: py_replace1 old new s'
       end.

(** [s.split(sep, 1)[1]] when [sep] occurs in [s]. *)
Fixpoint after_first (sep s : pystr) {struct s} : option pystr :=
  if starts_with sep s then Some (drop (length sep) s)
  else match s with
       | [] => None
       | _ :: s' => after_first sep s'
       end.

(** [str(n)] for a non-negative integer. *)
Definition py_str_nat (n : nat) : pystr := u (NilEmpty.string_of_uint (Nat.to_uint n)).

(** [x in l] for a list of strings. *)
Definition py_mem (x : pystr) (l : list pystr) : bool := bool_decide (x ∈ l).

Definition py_eqb (a b : pystr) : bool := bool_decide (a = b).

(** [not s]: the empty string is the only falsy one. *)
Definition py_not (s : pystr) : bool := match s with [] => true | _ :: _ => false end.

(** What reading in text mode does to the line ends (universal newlines):
    [CR LF] and a lone [CR] both become [LF]. [after_cr] tells that the
    character just read was a [CR]. *)
Fixpoint translate_newlines (after_cr : bool) (s : pystr) : pystr :=
  match s with
  | [] => []
  | c :: s' =>
      if (c =? CR)%N then NL :: translate_newlines true s'
      else if (c =? NL)%N && after_cr then translate_newlines false s'
      else c :: translate_newlines false s'
  end.

Definition universal_newlines (s : pystr) : pystr := translate_newlines false s.

(** [s.encode("utf-8")] succeeds: [s] holds no surrogate code point. *)
Definition utf8_encodable (s : pystr) : bool :=
  forallb (fun c => negb ((55296 <=? c) && (c <=? 57343))%N) s.

(** [enumerate(l, 1)] *)
Definition enumerate1 {A} (l : list A) : list (nat * A) := zip (seq 1 (length l)) l.

End PyStr.
Import PyStr.

(** ** What the Model Court library exchanges with this repository *)

(** One juror's vote, as [verify_text] reads it: [vote.jury_name],
    [vote.decision], [vote.reason] (empty when falsy). *)
Record Vote := mkVote {
  jury_name : pystr;
  decision : pystr;
  reason : pystr
}.

(** One entry of [report.claims]: [res.verdict], [res.judge_reasoning]
    (empty when falsy), [res.jury_votes]. *)
Record ClaimResult := mkClaimResult {
  verdict : pystr;
  judge_reasoning : pystr;
  jury_votes : list Vote
}.

Record CourtReport := mkCourtReport { claims : list ClaimResult }.

(** The [reference=] argument of a [Jury]. *)
Inductive Reference :=
| NoReference
| LocalRAGReference (collection_name persist_directory source_folder : pystr) (top_k : nat)
| SimpleTextStorage (text : pystr).

Record Jury := mkJury {
  name : pystr;
  model_name : pystr;
  reference : Reference
}.

(** A value of [verdict_rules]: an operator with its threshold (as a
    fraction [num/den]) or the string ["default"]. *)
Inductive VerdictRule :=
| Rule (operator : pystr) (num den : nat)
| DefaultRule.

Record Court := mkCourt {
  juries : list Jury;
  judge_model : pystr;
  verdict_rules : list (pystr * VerdictRule);
  quorum : nat;
  concurrency_limit : nat
}.

(** The dictionaries [{"confidence": ..., "details": ...}] that
    [verify_text], [convert_court_result_to_user_format] and
    [call_factcheck_service] return. *)
Record Verdict := mkVerdict {
  confidence : pystr;
  details : pystr
}.

(** ** Effects *)

Inductive exn :=
| FileNotFoundError
| OSError
| UnicodeEncodeError
| KeyError (key : pystr)
| OracleError (msg : pystr).

Inductive outcome (A : Type) :=
| Ok (a : A)
| Raise (e : exn).
Arguments Ok {A} a.
Arguments Raise {A} e.

(** What leaves the process, in order: the ledger is read, opened for
    writing, written to ([data] is the argument of one [f.write]); a log file
    is written under [dir]; [json.dump] writes [data] to a new file under
    [dir]; a file operation under [dir] raises. *)
Inductive event :=
| EvReadLedger
| EvOpenLedger
| EvAppendLedger (data : pystr)
| EvWriteFile (dir : pystr)
| EvWriteJson (dir : pystr) (data : list (pystr * pystr))
| EvDiskFault (dir : pystr)
| EvCourtHear (c : Court) (text : pystr)
| EvGenerate (model system query : pystr).

(** [ledger] is the content of [data/user_feedback_db.txt], [None] when the
    file does not exist. *)
Record World := mkWorld {
  ledger : option pystr;
  trace : list event
}.

(** The answers of the outside world. The disk and the clock answer as
    functions of the history so far; the oracles as functions of what they
    are asked. [py_isdigit] and [py_upper] are Python's Unicode tables for
    [str.isdigit] and [str.upper]; the prompts are the constant texts the
    source sends. *)
Record Env := mkEnv {
  court_hear : Court -> pystr -> outcome CourtReport;
  client_generate : pystr -> pystr -> pystr -> outcome (gmap pystr pystr);
  disk_ok : list event -> bool;
  now_iso : list event -> pystr;
  py_isdigit : N -> bool;
  py_upper : pystr -> pystr;
  convert_system_prompt : pystr;
  extract_system_prompt : pystr
}.

Definition M (A : Type) : Type := World -> outcome A * World.

Definition ret {A} (a : A) : M A := fun w => (Ok a, w).

Definition raise {A} (e : exn) : M A := fun w => (Raise e, w).

Definition bind {A B} (m : M A) (k : A -> M B) : M B :=
  fun w => match m w with
           | (Ok a, w') => k a w'
           | (Raise e, w') => (Raise e, w')
           end.

(** [try: m  except Exception as e: h e] *)
Definition try_except {A} (m : M A) (h : exn -> M A) : M A :=
  fun w => match m w with
           | (Ok a, w') => (Ok a, w')
           | (Raise e, w') => h e w'
           end.

Notation "'let*' x ':=' m 'in' k" := (bind m (fun x => k))
  (at level 10, x name, m at level 100, k at level 200).
Notation "m ';;' k" := (bind m (fun _ => k))
  (at level 100, k at level 200, right associativity).

Definition emit (ev : event) : M unit :=
  fun w => (Ok tt, mkWorld (ledger w) (trace w ++ [ev])).

Definition lift {A} (o : outcome A) : M A := fun w => (o, w).

Section Primitives.
Context (env : Env).

(** Creating and writing one file under [dir] ([os.makedirs] and
    [open(..., 'w')]). *)
Definition disk_write (dir : pystr) : M unit :=
  fun w => if disk_ok env (trace w)
           then (Ok tt, mkWorld (ledger w) (trace w ++ [EvWriteFile dir]))
           else (Raise OSError, mkWorld (ledger w) (trace w ++ [EvDiskFault dir])).

(** [datetime.now().isoformat()] *)
Definition clock : M pystr := fun w => (Ok (now_iso env (trace w)), w).

(** Writing a JSON file under [dir]: the [os.makedirs] calls before it,
    [open(..., 'w')] on a new file and [json.dump(data, f,
    ensure_ascii=False)], which writes the strings of [data] as they are. *)
Definition write_json (dir : pystr) (data : list (pystr * pystr)) : M unit :=
  fun w => if disk_ok env (trace w)
           then if forallb (fun kv => utf8_encodable (fst kv) && utf8_encodable (snd kv)) data
                then (Ok tt, mkWorld (ledger w) (trace w ++ [EvWriteJson dir data]))
                else (Raise UnicodeEncodeError,
                      mkWorld (ledger w) (trace w ++ [EvDiskFault dir]))
           else (Raise OSError, mkWorld (ledger w) (trace w ++ [EvDiskFault dir])).

(** [Path.read_text(encoding="utf-8")] on the ledger file. *)
Definition read_ledger : M pystr :=
  fun w => match ledger w with
           | Some txt =>
               (Ok (universal_newlines txt), mkWorld (ledger w) (trace w ++ [EvReadLedger]))
           | None => (Raise FileNotFoundError, mkWorld (ledger w) (trace w ++ [EvReadLedger]))
           end.

(** Opening the ledger file for writing: it is created when missing.
    ([open(path, 'a')]; also [open(path, 'w')] on a file that does not
    exist.) *)
Definition open_ledger : M unit :=
  fun w => if disk_ok env (trace w)
           then (Ok tt, mkWorld (Some (default [] (ledger w))) (trace w ++ [EvOpenLedger]))
           else (Raise OSError, mkWorld (ledger w) (trace w ++ [EvDiskFault (u "data")])).

(** One [f.write(data)] on the open ledger file: the data goes to its end. *)
Definition write_ledger (data : pystr) : M unit :=
  fun w => if utf8_encodable data
           then if disk_ok env (trace w)
                then (Ok tt, mkWorld (Some (default [] (ledger w) ++ data))
                                     (trace w ++ [EvAppendLedger data]))
                else (Raise OSError, mkWorld (ledger w) (trace w ++ [EvDiskFault (u "data")]))
           else (Raise UnicodeEncodeError,
                 mkWorld (ledger w) (trace w ++ [EvDiskFault (u "data")])).

(** [await court.hear(text)] *)
Definition hear (c : Court) (text : pystr) : M CourtReport :=
  emit (EvCourtHear c text);; lift (court_hear env c text).

(** [client.generate(model=..., system=..., query=...)] *)
Definition generate (model system query : pystr) : M (gmap pystr pystr) :=
  emit (EvGenerate model system query);; lift (client_generate env model system query).

End Primitives.

(** ** court_manager.py *)

Module CourtManager.

Definition user_feedback_header : pystr :=
  u "--- Trusted User Feedback Database Initialized ---" ++ [NL].

(** The three icons of the details text, as the source file spells them. *)
Definition icon_clean : pystr := [8218; 250; 236]%N.
Definition icon_fake : pystr := [8218; 250; 243]%N.
Definition icon_warn : pystr := [8218; 246; 8224]%N.

Definition verdict_map : gmap pystr pystr :=
  <[u "supported" := u "CLEAN"]>
    (<[u "suspicious" := u "SUSPICIOUS"]>
       (<[u "refuted" := u "FAKE"]> ∅)).

Definition jury_gpt : Jury := mkJury (u "Logic_GPT") (u "openai/gpt-4o-mini") NoReference.
Definition jury_gemini : Jury :=
  mkJury (u "Logic_Gemini") (u "google/gemini-2.5-flash-lite") NoReference.
Definition jury_web : Jury := mkJury (u "Web_Search_Jury") (u "perplexity/sonar") NoReference.
Definition jury_rag : Jury :=
  mkJury (u "RAG_Jury") (u "openai/gpt-4o-mini")
    (LocalRAGReference (u "fact_check_knowledge") (u "data/rag_vector_db")
       (u "data/rag_documents") 3).
Definition jury_feedback (feedback_content : pystr) : Jury :=
  mkJury (u "User_Feedback_Jury") (u "openai/gpt-4o-mini") (SimpleTextStorage feedback_content).

(** The lines one vote adds to [details_lines]. *)
Definition vote_lines (vote : Vote) : list pystr :=
  let vote_icon := if py_eqb (decision vote) (u "no_objection") then icon_clean else icon_warn in
  (u "  " ++ vote_icon ++ u " " ++ jury_name vote ++ u ": " ++ decision vote)
  :: match reason vote with
     | [] => []
     | _ :: _ => [u "     Reasoning: " ++ take 200 (reason vote) ++ u "..."]
     end.

Definition details_str (mapped_verdict : pystr) (res : ClaimResult) : pystr :=
  let icon :=
    if py_eqb mapped_verdict (u "CLEAN") then icon_clean
    else if py_eqb mapped_verdict (u "FAKE") then icon_fake else icon_warn in
  let details_lines :=
    [icon ++ u " Overall Verdict: " ++ mapped_verdict; []]
    ++ match judge_reasoning res with
       | [] => []
       | _ :: _ => [u "Judge's Reasoning:"; judge_reasoning res; []]
       end
    ++ [u "Jury Votes:"]
    ++ flat_map vote_lines (jury_votes res) in
  match py_join [NL] details_lines with
  | [] => u "Content verified. No logical fallacies or factual errors detected by the jury."
  | d => d
  end.

(** The [Court(...)] that [build_court] assembles around the text it read
    from the ledger. *)
Definition assemble_court (feedback_content : pystr) : Court :=
  mkCourt
    [jury_gpt; jury_gemini; jury_web; jury_rag; jury_feedback feedback_content]
    (u "openai/gpt-4o")
    [(u "supported", Rule (u "eq") 0 1);
     (u "suspicious", Rule (u "lt") 1 2);
     (u "refuted", DefaultRule)]
    3 5.

Section WithEnv.
Context (env : Env).

(** [CourtManager._init_directories], for the ledger file: [write_text]
    opens the file and writes the header. *)
Definition _init_directories : M unit :=
  fun w => match ledger w with
           | Some _ => (Ok tt, w)
           | None => (open_ledger env;; write_ledger env user_feedback_header) w
           end.

(** [CourtManager.build_court] *)
Definition build_court : M Court :=
  let* feedback_content := read_ledger in
  ret (assemble_court feedback_content).

(** [CourtManager.verify_text] *)
Definition verify_text (text : pystr) : M Verdict :=
  let* court := build_court in
  let safe_text := take 12000 text in
  let* report := hear env court safe_text in
  match claims report with
  | [] => ret (mkVerdict (u "N/A") (u "No claims were processed by the court."))
  | res :: _ =>
      let mapped_verdict := default (u "SUSPICIOUS") (verdict_map !! verdict res) in
      ret (mkVerdict mapped_verdict (details_str mapped_verdict res))
  end.

End WithEnv.
End CourtManager.

(** ** fake_news.py *)

Module FakeNews.
Import CourtManager.

Definition QUOTE : N := 34%N.

(** The [user_query] f-string of [convert_court_result_to_user_format]. *)
Definition user_query (confidence court_details : pystr) : pystr :=
  py_join [NL]
    [u "Judge's Initial Verdict: " ++ confidence;
     [];
     u "Detailed Report from Fact-Checking System:";
     court_details;
     [];
     u "TASK:";
     u "1. Review the jury votes (especially User_Feedback_Jury and RAG_Jury)";
     u "2. If User_Feedback_Jury AND RAG_Jury both voted " ++ [QUOTE] ++ u "no_objection"
       ++ [QUOTE] ++ u ", override the verdict to CLEAN";
     u "3. Convert to a user-friendly message (max 3-4 lines)";
     u "4. Return in this format:";
     u "   VERDICT: [CLEAN/SUSPICIOUS/FAKE]";
     u "   MESSAGE: [your user-friendly message]"].

Definition valid_verdicts : list pystr := [u "CLEAN"; u "SUSPICIOUS"; u "FAKE"].

(** The [for i, line in enumerate(lines)] loop that reads the reply: the
    state is [(final_confidence, user_friendly_details)], [lines[i:]] is the
    argument itself. *)
Fixpoint parse_reply (lines : list pystr) (final_confidence user_friendly_details : pystr)
  : pystr * pystr :=
  match lines with
  | [] => (final_confidence, user_friendly_details)
  | line :: rest =>
      if starts_with (u "VERDICT:") line then
        let verdict_value := py_strip (py_replace (u "VERDICT:") [] line) in
        if py_mem verdict_value valid_verdicts
        then parse_reply rest verdict_value user_friendly_details
        else parse_reply rest final_confidence user_friendly_details
      else if starts_with (u "MESSAGE:") line then
        (final_confidence, py_strip (py_replace1 (u "MESSAGE:") [] (py_join [NL] lines)))
      else parse_reply rest final_confidence user_friendly_details
  end.

(** ["=" * 80] *)
Definition bar : pystr := replicate 80 61%N.

Definition type_line (upper : pystr -> pystr) (feedback_type : pystr) : pystr :=
  if py_eqb feedback_type (u "fact") then u "TYPE: " ++ [10003]%N ++ u " VERIFIED AS TRUE" ++ [NL]
  else if py_eqb feedback_type (u "suspicious_fact")
       then u "TYPE: " ++ [9888]%N ++ u " MARKED AS SUSPICIOUS" ++ [NL]
  else if py_eqb feedback_type (u "fake_fact")
       then u "TYPE: " ++ [10007]%N ++ u " REPORTED AS FAKE" ++ [NL]
  else u "TYPE: " ++ upper feedback_type ++ [NL].

(** The text of a whole entry of the ledger: what the [f.write] calls of
    [save_user_feedback] write, one after the other; [now] is
    [datetime.now().isoformat()] at the second of them. *)
Definition ledger_entry (upper : pystr -> pystr)
  (url content_background feedback_content feedback_type feedback_prove now : pystr) : pystr :=
  ([NL] ++ bar ++ [NL])
  ++ (u "[USER FEEDBACK] " ++ now ++ [NL])
  ++ (bar ++ [NL])
  ++ (u "URL: " ++ url ++ [NL; NL])
  ++ type_line upper feedback_type
  ++ ([NL] ++ u "CLAIM:" ++ [NL] ++ feedback_content ++ [NL; NL])
  ++ (u "EVIDENCE/PROOF:" ++ [NL] ++ feedback_prove ++ [NL; NL])
  ++ match content_background with
     | [] => []
     | _ :: _ => u "CONTEXT:" ++ [NL] ++ take 300 content_background ++ u "..." ++ [NL; NL]
     end.

(** [facts_text] of [call_factcheck_service]: the numbered facts, one a line. *)
Definition facts_text (facts_list : list pystr) : pystr :=
  py_join [NL]
    (map (fun '(i, fact) => py_str_nat i ++ u ". " ++ fact) (enumerate1 facts_list)).

(** [feedback_data], the dictionary of the backup file; [stamp] is
    [datetime.now().isoformat()]. *)
Definition feedback_data
  (stamp url content_background feedback_content feedback_type feedback_prove : pystr)
  : list (pystr * pystr) :=
  [(u "timestamp", stamp);
   (u "url", url);
   (u "content_background",
    match content_background with [] => [] | _ :: _ => take 500 content_background end);
   (u "feedback_content", feedback_content);
   (u "feedback_type", feedback_type);
   (u "feedback_prove", feedback_prove)].

(** The details of the fallback report of [call_factcheck_service]. *)
Definition fallback_details (fact_count : nat) : pystr :=
  u "Content verification completed. " ++ py_str_nat fact_count
  ++ u " claims analyzed. (Model Court temporarily unavailable, using fallback mode)".

(** What [extract_facts_claude] returns: a pair on most paths, a triple on
    two of them. *)
Inductive ExtractResult :=
| Pair (facts_count : nat) (fact_check_result : Verdict)
| Triple (facts_count : nat) (flag : bool) (label : pystr).

(** The JSON answer of [/api/feedback] with its status code. *)
Record Response := mkResponse {
  success : bool;
  message : pystr;
  status : nat
}.

Section WithEnv.
Context (env : Env).

(** [save_website_content]: its own [except] swallows every failure. *)
Definition save_website_content (content_type : pystr) : M unit :=
  let log_dir :=
    if py_eqb content_type (u "summary") then u "logs/websites_summary"
    else if py_eqb content_type (u "facts") then u "logs/websites_facts"
    else u "logs/websites_other" in
  try_except (disk_write env log_dir) (fun _ => ret tt).

(** The [try] block of [convert_court_result_to_user_format]. *)
Definition convert_attempt (court_result : Verdict) (fact_count : nat) (url : pystr) : M Verdict :=
  let confidence := confidence court_result in
  let court_details := details court_result in
  let* response :=
    generate env (u "4o-mini") (convert_system_prompt env)
      (user_query confidence court_details) in
  match response !! u "result" with
  | None => raise (KeyError (u "result"))
  | Some r =>
      let result_text := py_strip r in
      let '(final_confidence, user_friendly_details) :=
        parse_reply (py_split NL result_text) confidence result_text in
      let user_friendly_details :=
        if py_eqb final_confidence confidence && negb (py_in (u "VERDICT:") result_text)
        then result_text else user_friendly_details in
      ret (mkVerdict final_confidence user_friendly_details)
  end.

(** [convert_court_result_to_user_format]: the [except] branch hands the
    court's own result back. *)
Definition convert_court_result_to_user_format
  (court_result : Verdict) (fact_count : nat) (url : pystr) : M Verdict :=
  try_except (convert_attempt court_result fact_count url) (fun _ => ret court_result).

(** [save_user_feedback]: the backup file first, then the ledger, one
    [f.write] after the other; its [except] re-raises. *)
Definition save_user_feedback
  (url content_background feedback_content feedback_type feedback_prove : pystr) : M unit :=
  try_except
    (let* stamp := clock env in
     write_json env (u "fact_feedback")
       (feedback_data stamp url content_background feedback_content feedback_type
          feedback_prove);;
     open_ledger env;;
     write_ledger env ([NL] ++ bar ++ [NL]);;
     let* now := clock env in
     write_ledger env (u "[USER FEEDBACK] " ++ now ++ [NL]);;
     write_ledger env (bar ++ [NL]);;
     write_ledger env (u "URL: " ++ url ++ [NL; NL]);;
     write_ledger env (type_line (py_upper env) feedback_type);;
     write_ledger env ([NL] ++ u "CLAIM:" ++ [NL] ++ feedback_content ++ [NL; NL]);;
     write_ledger env (u "EVIDENCE/PROOF:" ++ [NL] ++ feedback_prove ++ [NL; NL]);;
     match content_background with
     | [] => ret tt
     | _ :: _ =>
         write_ledger env
           (u "CONTEXT:" ++ [NL] ++ take 300 content_background ++ u "..." ++ [NL; NL])
     end)
    (fun e => raise e).

(** [call_factcheck_service] *)
Definition call_factcheck_service (facts_list : list pystr) (url : pystr) : M Verdict :=
  try_except
    (disk_write env (u "fact_list");;
     let fact_count := length facts_list in
     match facts_list with
     | [] => ret (mkVerdict (u "N/A") (u "No facts extracted for verification."))
     | _ :: _ =>
         try_except
           (let* court_result := verify_text env (facts_text facts_list) in
            let* user_friendly_result :=
              convert_court_result_to_user_format court_result fact_count url in
            ret user_friendly_result)
           (fun _ =>
              ret (mkVerdict (u "CLEAN") (fallback_details fact_count)))
     end)
    (fun _ => ret (mkVerdict (u "N/A") (u "Analysis incomplete due to technical error."))).

(** The filter of [extract_facts_claude] over the reply's lines. *)
Definition fact_of_line (line0 : pystr) : option pystr :=
  let line := py_strip line0 in
  match line with
  | [] => None
  | c :: _ =>
      if (3 <? length line) && py_isdigit env c && py_in (u ". ") (take 5 line)
      then Some (default line (after_first (u ". ") line))
      else None
  end.

Definition error_result : Verdict := mkVerdict (u "N/A") (u "Analysis incomplete.").

(** The part of [extract_facts_claude] that follows the LLM's reply. *)
Definition facts_from_reply (response : gmap pystr pystr) (url : pystr) : M ExtractResult :=
  match response !! u "error" with
  | Some _ => ret (Triple 0 false (u "N/A"))
  | None =>
      let result_text := py_strip (default [] (response !! u "result")) in
      match result_text with
      | [] => ret (Triple 0 false (u "N/A"))
      | _ :: _ =>
          try_except
            (let lines := py_split NL (py_strip result_text) in
             let facts := omap fact_of_line lines in
             let* fact_check_result := call_factcheck_service facts url in
             ret (Pair (length facts) fact_check_result))
            (fun _ =>
               call_factcheck_service [u "[ERROR] " ++ result_text] url;;
               ret (Pair 0 error_result))
      end
  end.

(** [extract_facts_claude] *)
Definition extract_facts_claude (text url : pystr) : M ExtractResult :=
  try_except
    (let text_facts := take 15000 text in
     save_website_content (u "facts");;
     let* response :=
       generate env (u "us.anthropic.claude-3-haiku-20240307-v1:0")
         (extract_system_prompt env) text_facts in
     facts_from_reply response url)
    (fun _ => ret (Pair 0 error_result)).

(** [submit_feedback]: [data] is the JSON body of the request. *)
Definition submit_feedback (data : gmap pystr pystr) : M Response :=
  try_except
    (let page_url := default [] (data !! u "url") in
     let content_background := default [] (data !! u "content_background") in
     let feedback_content := default [] (data !! u "feedback_content") in
     let feedback_type := default [] (data !! u "feedback_type") in
     let feedback_prove := default [] (data !! u "feedback_prove") in
     if py_not feedback_type
        || negb (py_mem feedback_type [u "fact"; u "suspicious_fact"; u "fake_fact"])
     then ret (mkResponse false (u "Invalid feedback type") 400)
     else if py_not feedback_content || (length feedback_content <? 10)
     then ret (mkResponse false (u "Please provide the fact content (at least 10 characters)") 400)
     else if py_not feedback_prove || (length feedback_prove <? 10)
     then ret (mkResponse false (u "Please provide evidence/proof (at least 10 characters)") 400)
     else
       save_user_feedback page_url content_background feedback_content feedback_type
         feedback_prove;;
       ret (mkResponse true (u "Thank you for your feedback!") 200))
    (fun _ => ret (mkResponse false (u "Failed to save feedback") 500)).

End WithEnv.
End FakeNews.

(** * Vocabulary of the statements *)

Import CourtManager FakeNews.

(** The world after the hearing of [text] by the court built on the ledger
    text [L] as [build_court] reads it. *)
Definition heard (L : pystr) (text : pystr) (w : World) : World :=
  mkWorld (Some L)
    ((trace w ++ [EvReadLedger])
     ++ [EvCourtHear (assemble_court (universal_newlines L)) (take 12000 text)]).

(** The world after [call_factcheck_service] wrote its log file. *)
Definition logged (w : World) : World :=
  mkWorld (ledger w) (trace w ++ [EvWriteFile (u "fact_list")]).

(** The texts handed to an oracle (the court or the LLM proxy), in order. *)
Definition oracle_queries (tr : list event) : list pystr :=
  omap (fun ev => match ev with
                  | EvCourtHear _ text => Some text
                  | EvGenerate _ _ query => Some query
                  | _ => None
                  end) tr.

Definition claude_model : pystr := u "us.anthropic.claude-3-haiku-20240307-v1:0".

(** The tiers of the output labels, most favourable first. *)
Definition tier (label : pystr) : option nat :=
  if py_eqb label (u "CLEAN") then Some 0
  else if py_eqb label (u "SUSPICIOUS") then Some 1
  else if py_eqb label (u "FAKE") then Some 2
  else None.

(** [less_favorable a b]: label [a] sits on a strictly less favourable tier
    than label [b]. *)
Definition less_favorable (a b : pystr) : bool :=
  match tier a, tier b with
  | Some x, Some y => y <? x
  | _, _ => false
  end.

(** The labels the reply of the conversion oracle offers: the value of every
    well-formed [VERDICT:] line. *)
Definition offered_verdicts (lines : list pystr) : list pystr :=
  omap (fun line =>
          if starts_with (u "VERDICT:") line then
            let verdict_value := py_strip (py_replace (u "VERDICT:") [] line) in
            if py_mem verdict_value valid_verdicts then Some verdict_value else None
          else None) lines.

(** ** Concrete environments and inputs *)

Definition ascii_digit (c : N) : bool := ((48 <=? c) && (c <=? 57))%N.

Definition reply (text : pystr) : gmap pystr pystr := <[u "result" := text]> ∅.

Definition sample_vote : Vote := mkVote (u "RAG_Jury") (u "no_objection") (u "matches the archive").

Definition sample_report (v : pystr) : CourtReport :=
  mkCourtReport [mkClaimResult v (u "The claim was weighed.") [sample_vote]].

(** A court that returns one claim with verdict [v], an LLM proxy that
    answers [answer], a disk that works and a clock that stands still. *)
Definition sample_env (v : pystr) (answer : outcome (gmap pystr pystr)) : Env :=
  mkEnv (fun _ _ => Ok (sample_report v)) (fun _ _ _ => answer)
        (fun _ => true) (fun _ => u "2025-01-01T00:00:00")
        ascii_digit (fun s => s) (u "convert") (u "extract").

(** The same with a court whose hearing raises. *)
Definition failing_court_env : Env :=
  mkEnv (fun _ _ => Raise (OracleError (u "court unavailable")))
        (fun _ _ _ => Raise (OracleError (u "proxy unavailable")))
        (fun _ => true) (fun _ => u "2025-01-01T00:00:00")
        ascii_digit (fun s => s) (u "convert") (u "extract").

Definition fresh_world : World := mkWorld (Some user_feedback_header) [].

(** [grows m]: running [m] only adds events to the trace. *)
Definition grows {A} (m : M A) : Prop :=
  ∀ w, ∃ t, trace (snd (m w)) = trace w ++ t.

(** [data.get(key, '')] *)
Definition get_field (data : gmap pystr pystr) (key : string) : pystr :=
  default [] (data !! u key).

Definition feedback_types : list pystr := [u "fact"; u "suspicious_fact"; u "fake_fact"].

(** A submission that passes the three checks of the spec. *)
Definition well_formed_submission (data : gmap pystr pystr) : Prop :=
  get_field data "feedback_type" ∈ feedback_types
  ∧ 10 ≤ length (get_field data "feedback_content")
  ∧ 10 ≤ length (get_field data "feedback_prove").


(** The world after the conversion request for [court_result] was sent. *)
Definition asked (env : Env) (court_result : Verdict) (w : World) : World :=
  mkWorld (ledger w)
    (trace w ++ [EvGenerate (u "4o-mini") (convert_system_prompt env)
                   (user_query (confidence court_result) (details court_result))]).

(** The answer of the conversion oracle to the request for [court_result]. *)
Definition conversion_answer (env : Env) (court_result : Verdict) : outcome (gmap pystr pystr) :=
  client_generate env (u "4o-mini") (convert_system_prompt env)
    (user_query (confidence court_result) (details court_result)).

(** The label [convert_court_result_to_user_format] reads from the reply
    text [r] when the court's label is [baseline]. *)
Definition converted_label (baseline r : pystr) : pystr :=
  fst (parse_reply (py_split NL (py_strip r)) baseline (py_strip r)).

Definition one_fact : list pystr := [u "The moon is a planet."].

(** A conversion oracle that answers with the verdict line [label]. *)
Definition verdict_reply (label : string) : outcome (gmap pystr pystr) :=
  Ok (reply (u "VERDICT: " ++ u label ++ [NL] ++ u "MESSAGE: The claims were reviewed.")).

(** A feedback that passes the checks. *)
Definition honest_feedback : gmap pystr pystr :=
  <[u "url" := u "https://example.org/a"]>
    (<[u "feedback_type" := u "fake_fact"]>
       (<[u "feedback_content" := u "The moon is a planet."]>
          (<[u "feedback_prove" := u "It orbits the Earth, see any atlas."]> ∅))).

(** ** Reading the ledger back *)

(** [N] feedback submissions, one after the other. *)
Fixpoint submit_all (env : Env) (subs : list (gmap pystr pystr)) : M (list Response) :=
  match subs with
  | [] => ret []
  | data :: rest =>
      let* r := submit_feedback env data in
      let* rs := submit_all env rest in
      ret (r :: rs)
  end.

(** The entry that the submission [data] appends when the clock reads [now]. *)
Definition entry_of (env : Env) (data : gmap pystr pystr) (now : pystr) : pystr :=
  ledger_entry (py_upper env) (get_field data "url") (get_field data "content_background")
    (get_field data "feedback_content") (get_field data "feedback_type")
    (get_field data "feedback_prove") now.

(** The middle line of an entry's header. *)
Definition header_title (now : pystr) : pystr := u "[USER FEEDBACK] " ++ now.

(** Modelled from the spec: the repository has no reader of ledger records
    (the only reader, [build_court], takes the whole text); this is the
    reader the spec describes, which recovers the records from the fixed
    header marker alone: a bar of 80 [=], a [[USER FEEDBACK]] line, a bar.
    It returns the title lines of the headers it finds, in order. *)
Fixpoint read_headers (lines : list pystr) : list pystr :=
  match lines with
  | [] => []
  | a :: rest =>
      match rest with
      | b :: c :: _ =>
          if py_eqb a bar && starts_with (u "[USER FEEDBACK] ") b && py_eqb c bar
          then b :: read_headers rest
          else read_headers rest
      | _ => []
      end
  end.

Definition ledger_headers (text : pystr) : list pystr := read_headers (py_split NL text).

(** No line of the text is a bar. *)
Definition bar_free (text : pystr) : Prop := bar ∉ py_split NL text.

(** A submission none of whose texts has a line that is a bar, the lines
    taken as a reader of the ledger sees them: ended by [LF], [CR] or
    [CR LF]. *)
Definition plain_submission (data : gmap pystr pystr) : Prop :=
  bar_free (universal_newlines (get_field data "url"))
  ∧ bar_free (universal_newlines (get_field data "feedback_content"))
  ∧ bar_free (universal_newlines (get_field data "feedback_prove"))
  ∧ bar_free (universal_newlines (take 300 (get_field data "content_background"))).

(** A clock that reads [09:00] during the first submission and [09:05]
    later. *)
Definition two_tick_env : Env :=
  mkEnv (fun _ _ => Ok (sample_report (u "supported"))) (fun _ _ _ => Raise OSError)
        (fun _ => true)
        (fun tr => if length tr <? 4 then u "2025-01-01T09:00:00" else u "2025-01-01T09:05:00")
        ascii_digit (fun s => s) (u "convert") (u "extract").

Definition second_feedback : gmap pystr pystr :=
  <[u "url" := u "https://example.org/b"]>
    (<[u "feedback_type" := u "fact"]>
       (<[u "feedback_content" := u "Water boils at 100 degrees."]>
          (<[u "feedback_prove" := u "At sea level, see any textbook."]> ∅))).

(** One submission whose evidence ends with the text of a whole entry (the
    one [second_feedback] would append at [09:05]) without that entry's two
    final newlines. *)
Definition forged_feedback : gmap pystr pystr :=
  let forged := entry_of two_tick_env second_feedback (u "2025-01-01T09:05:00") in
  <[u "feedback_prove" :=
      get_field honest_feedback "feedback_prove" ++ [NL; NL]
      ++ take (length forged - 2) forged]> honest_feedback.

(** The part of an entry that follows its header. *)
Definition entry_body (upper : pystr → pystr)
  (url content_background feedback_content feedback_type feedback_prove : pystr) : pystr :=
  (u "URL: " ++ url ++ [NL; NL])
  ++ type_line upper feedback_type
  ++ ([NL] ++ u "CLAIM:" ++ [NL] ++ feedback_content ++ [NL; NL])
  ++ (u "EVIDENCE/PROOF:" ++ [NL] ++ feedback_prove ++ [NL; NL])
  ++ match content_background with
     | [] => []
     | _ :: _ => u "CONTEXT:" ++ [NL] ++ take 300 content_background ++ u "..." ++ [NL; NL]
     end.

(** The fixed header of an entry written when the clock reads [now]. *)
Definition entry_header (now : pystr) : pystr :=
  [NL] ++ bar ++ [NL] ++ header_title now ++ [NL] ++ bar ++ [NL].

(** The lines a list of (clock reading, body) pairs contributes. *)
Definition entry_lines (es : list (pystr * pystr)) : list pystr :=
  flat_map (fun e => [bar; header_title (fst e); bar] ++ py_split NL (snd e)) es.

(** The body of the entry of the submission [data]. *)
Definition body_of (env : Env) (data : gmap pystr pystr) : pystr :=
  entry_body (py_upper env) (get_field data "url") (get_field data "content_background")
    (get_field data "feedback_content") (get_field data "feedback_type")
    (get_field data "feedback_prove").

Definition accepted : Response := mkResponse true (u "Thank you for your feedback!") 200.

(** ** Writing the ledger piece by piece *)

(** The text of the ledger file, empty when the file does not exist. *)
Definition ledger_text (w : World) : pystr := default [] (ledger w).

(** The court's report when it returned no claim result. *)
Definition no_claims_result : Verdict :=
  mkVerdict (u "N/A") (u "No claims were processed by the court.").

(** The arguments of the [f.write] calls of [save_user_feedback] that follow
    the first one, when the clock reads [now] at the second. *)
Definition later_pieces (upper : pystr → pystr)
  (url content_background feedback_content feedback_type feedback_prove now : pystr)
  : list pystr :=
  [u "[USER FEEDBACK] " ++ now ++ [NL];
   bar ++ [NL];
   u "URL: " ++ url ++ [NL; NL];
   type_line upper feedback_type;
   [NL] ++ u "CLAIM:" ++ [NL] ++ feedback_content ++ [NL; NL];
   u "EVIDENCE/PROOF:" ++ [NL] ++ feedback_prove ++ [NL; NL]]
  ++ match content_background with
     | [] => []
     | _ :: _ => [u "CONTEXT:" ++ [NL] ++ take 300 content_background ++ u "..." ++ [NL; NL]]
     end.

(** [f.write] of each piece in turn. *)
Fixpoint write_all (env : Env) (pieces : list pystr) : M unit :=
  match pieces with
  | [] => ret tt
  | piece :: rest => write_ledger env piece;; write_all env rest
  end.

(** The state of the newline translation after [s]: whether its last
    character is a [CR]. *)
Definition cr_state (after_cr : bool) (s : pystr) : bool :=
  match last s with
  | Some c => (c =? CR)%N
  | None => after_cr
  end.

(** The [CONTEXT] part of an entry, absent when there is no context. *)
Definition context_block (context : option pystr) : pystr :=
  match context with
  | None => []
  | Some c => u "CONTEXT:" ++ [NL] ++ c ++ u "..." ++ [NL; NL]
  end.

(** The body of an entry with its type line and its context given as they
    stand in the file. *)
Definition body_text (url tyline content prove : pystr) (context : option pystr) : pystr :=
  (u "URL: " ++ url ++ [NL; NL])
  ++ tyline
  ++ ([NL] ++ u "CLAIM:" ++ [NL] ++ content ++ [NL; NL])
  ++ (u "EVIDENCE/PROOF:" ++ [NL] ++ prove ++ [NL; NL])
  ++ context_block context.

(** The context of a submission as it is cut for the ledger. *)
Definition cut_context (content_background : pystr) : option pystr :=
  match content_background with
  | [] => None
  | _ :: _ => Some (take 300 content_background)
  end.

(** A body no line of which is a bar and whose first line is no header
    title. *)
Definition plain_body (body : pystr) : Prop :=
  (bar ∉ py_split NL body)
  ∧ ∃ x rest, py_split NL body = x :: rest ∧ starts_with (u "[USER FEEDBACK] ") x = false.

(** An entry of the ledger as text: the header with the clock reading
    [fst e], then the body [snd e]. *)
Definition framed (e : pystr * pystr) : pystr :=
  NL :: bar ++ NL :: header_title (fst e) ++ NL :: bar ++ NL :: snd e.

(** A feedback whose evidence carries a forged header, its lines ended by
    [CR]. *)
Definition cr_forged_feedback : gmap pystr pystr :=
  <[u "feedback_prove" :=
      u "It orbits the Earth." ++ [CR] ++ bar ++ [CR]
      ++ u "[USER FEEDBACK] 2025-01-01T09:05:00" ++ [CR] ++ bar ++ [CR] ++ u "URL: x"]>
    honest_feedback.

(** * The rest of the two files *)

(** ** More of Python's [str] *)

(** The lowest index at which [sub] occurs in [s]. *)
Fixpoint find_at (sub s : pystr) {struct s} : option nat :=
  if starts_with sub s then Some 0
  else match s with
       | [] => None
       | _ :: s' => S <$> find_at sub s'
       end.

(** [s.find(sub, start)] for a non-empty [sub]; [None] is Python's [-1]. *)
Definition py_find (sub s : pystr) (start : nat) : option nat :=
  (fun i => start + i) <$> find_at sub (drop start s).

(** ** Vocabulary for the reply of the conversion oracle *)

(** The lines the loop of [convert_court_result_to_user_format] visits: those
    before the first line that starts with [MESSAGE:]. *)
Fixpoint before_message (lines : list pystr) : list pystr :=
  match lines with
  | [] => []
  | line :: rest =>
      if starts_with (u "MESSAGE:") line then [] else line :: before_message rest
  end.

(** The lines of the stripped reply text [r]. *)
Definition reply_lines (r : pystr) : list pystr := py_split NL (py_strip r).

(** A reply with two verdict lines before its message and one after. *)
Definition wavering_reply : pystr :=
  py_join [NL]
    [u "VERDICT: FAKE"; u "VERDICT: CLEAN"; u "MESSAGE: Looks fine."; u "VERDICT: FAKE"].

(** A reply that ignores the requested format. *)
Definition free_reply : pystr := u "MESSAGE: all claims check out ".

(** ** fake_news.py: the summary path *)

Module Summary.

(** The JSON that [/api/summary] answers (always with status 200): the keys
    [error] and [url] are there on some paths only. *)
Record SummaryJson := mkSummaryJson {
  json_error : option pystr;
  json_summary : pystr;
  json_confidence : pystr;
  json_fact_details : pystr;
  json_url : option pystr
}.

(** What [analyze_content] returns: a pair, or the triple of its [except]
    branch. *)
Inductive Analysis :=
| Analyzed (summary : pystr) (fact_check_result : Verdict)
| AnalysisFailed (message : pystr) (flag : bool) (label : pystr).

Section WithEnv.
Context (env : Env).

(** [generate_summary_gpt]; [system_prompt] is the constant prompt text. *)
Definition generate_summary_gpt (system_prompt text url : pystr) : M pystr :=
  try_except
    (let text_summary := take 3000 text in
     save_website_content env (u "summary");;
     let* response := generate env (u "4o-mini") system_prompt text_summary in
     match response !! u "result" with
     | None => raise (KeyError (u "result"))
     | Some r => ret (py_strip r)
     end)
    (fun _ => ret (u "Summary generation failed.")).

End WithEnv.

(** [analyze_content] once its two tasks have returned [summary] and
    [facts]: unpacking a triple into [facts_count, fact_check_result] raises,
    and the [except] branch returns the failure triple. *)
Definition analyze_content_results (summary : pystr) (facts : ExtractResult) : Analysis :=
  match facts with
  | Pair _ fact_check_result => Analyzed summary fact_check_result
  | Triple _ _ _ => AnalysisFailed (u "Analysis failed, please try again later.") false (u "N/A")
  end.

(** [get_summary] for the page [page_content]; [analysis] is what
    [analyze_content] returns for it and [unpack_error] the text of the
    exception that unpacking a triple into two names raises. *)
Definition get_summary (unpack_error page_url page_content : pystr) (analysis : Analysis)
  : SummaryJson :=
  if py_not page_content || (length page_content <? 50) then
    mkSummaryJson None (u "Page content insufficient to generate summary.") (u "N/A")
      (u "Insufficient content to analyze.") None
  else
    match analysis with
    | Analyzed summary fact_check_result =>
        mkSummaryJson None summary (confidence fact_check_result) (details fact_check_result)
          (Some page_url)
    | AnalysisFailed _ _ _ =>
        mkSummaryJson (Some unpack_error) (u "Analysis failed") (u "N/A")
          (u "Analysis incomplete.") None
    end.

End Summary.

(** ** fake_news.py: the injected script *)

Module Inject.

Definition BACKSLASH : N := 92%N.
Definition APOSTROPHE : N := 39%N.

(** [safe_url]: the chain of five [replace] calls. *)
Definition safe_url (page_url : pystr) : pystr :=
  py_replace [CR] [BACKSLASH; 114%N]
    (py_replace [NL] [BACKSLASH; 110%N]
       (py_replace [QUOTE] [BACKSLASH; QUOTE]
          (py_replace [APOSTROPHE] [BACKSLASH; APOSTROPHE]
             (py_replace [BACKSLASH] [BACKSLASH; BACKSLASH] page_url)))).

Section WithScript.
(** The three constant pieces of the script text around the two places
    where [safe_url] is put in. *)
Context (script_head script_middle script_tail : pystr).

Definition async_script (page_url : pystr) : pystr :=
  script_head ++ safe_url page_url ++ script_middle ++ safe_url page_url ++ script_tail.

(** The block that both tag searches share: the script goes after the
    first [>] at or after the first occurrence of [tag]. *)
Definition insert_after_tag (tag html_content script : pystr) : option pystr :=
  match py_find tag html_content 0 with
  | None => None
  | Some pos =>
      match py_find (u ">") html_content pos with
      | None => None
      | Some tag_end =>
          Some (take (tag_end + 1) html_content ++ script ++ drop (tag_end + 1) html_content)
      end
  end.

(** [inject_async_summary_script] *)
Definition inject_async_summary_script (html_content page_url : pystr) : pystr :=
  let script := async_script page_url in
  match insert_after_tag (u "<body") html_content script with
  | Some page => page
  | None =>
      match insert_after_tag (u "<html") html_content script with
      | Some page => page
      | None => script ++ html_content
      end
  end.

End WithScript.

(** One character of the URL as [safe_url] writes it. *)
Definition escape_char (c : N) : pystr :=
  if (c =? BACKSLASH)%N then [BACKSLASH; BACKSLASH]
  else if (c =? APOSTROPHE)%N then [BACKSLASH; APOSTROPHE]
  else if (c =? QUOTE)%N then [BACKSLASH; QUOTE]
  else if (c =? NL)%N then [BACKSLASH; 110%N]
  else if (c =? CR)%N then [BACKSLASH; 114%N]
  else [c].

(** Reading a quoted JavaScript string back: a backslash takes the next
    character with it; a quote, a newline or a carriage return that no
    backslash precedes ends the literal ([None]). *)
Fixpoint js_read (s : pystr) : option pystr :=
  match s with
  | [] => Some []
  | c :: rest =>
      if (c =? BACKSLASH)%N then
        match rest with
        | [] => None
        | e :: rest' =>
            let decoded := if (e =? 110)%N then NL else if (e =? 114)%N then CR else e in
            cons decoded <$> js_read rest'
        end
      else if (c =? APOSTROPHE)%N || (c =? QUOTE)%N || (c =? NL)%N || (c =? CR)%N then None
      else cons c <$> js_read rest
  end.

End Inject.

(** ** Concrete inputs for the rest *)

Definition missing_ledger_world : World := mkWorld None [].

(** A disk on which every write fails. *)
Definition broken_disk_env : Env :=
  mkEnv (fun _ _ => Ok (sample_report (u "supported"))) (fun _ _ _ => Raise OSError)
        (fun _ => false) (fun _ => u "2025-01-01T00:00:00")
        ascii_digit (fun s => s) (u "convert") (u "extract").

(** A feedback whose claim holds a lone surrogate, as the JSON escape
    [\ud800] gives one. *)
Definition surrogate_feedback : gmap pystr pystr :=
  <[u "feedback_content" := u "The moon is a planet" ++ [55296%N]]> honest_feedback.

(** [keeps_ledger m]: running [m] leaves the ledger file as it is. *)
Definition keeps_ledger {A} (m : M A) : Prop :=
  ∀ w, ledger (snd (m w)) = ledger w.

(** The environment [env] with another table for [str.upper]. *)
Definition with_upper (env : Env) (upper : pystr → pystr) : Env :=
  mkEnv (court_hear env) (client_generate env) (disk_ok env) (now_iso env)
        (py_isdigit env) upper (convert_system_prompt env) (extract_system_prompt env).

(** The answer of the extraction oracle for the page [text]. *)
Definition extraction_answer (env : Env) (text : pystr) : outcome (gmap pystr pystr) :=
  client_generate env claude_model (extract_system_prompt env) (take 15000 text).

(** A reply of the extraction oracle from which no fact list is read: it
    reports an error, or its result is missing or blank. *)
Definition unusable_reply (response : gmap pystr pystr) : Prop :=
  is_Some (response !! u "error") ∨ py_strip (default [] (response !! u "result")) = [].

(** An extraction oracle that reports an error. *)
Definition erring_extraction_env : Env :=
  mkEnv (fun _ _ => Ok (sample_report (u "supported")))
        (fun _ _ _ => Ok (<[u "error" := u "rate limited"]> ∅))
        (fun _ => true) (fun _ => u "2025-01-01T00:00:00")
        ascii_digit (fun s => s) (u "convert") (u "extract").

Definition long_page : pystr := replicate 60 120%N.

(** One numbered line of [facts_text]. *)
Definition numbered (entry : nat * pystr) : pystr :=
  py_str_nat (fst entry) ++ u ". " ++ snd entry.

(** The text [generate_summary_gpt] returns when it fails. *)
Definition summary_failed : pystr := u "Summary generation failed.".

(** A small page. *)
Definition sample_page : pystr := u "<html><body class='x'>hello</body></html>".

(** * Properties *)

(** ** Running the round step by step *)

Lemma build_court_run (w : World) :
  build_court w =
  match ledger w with
  | Some L =>
      (Ok (assemble_court (universal_newlines L)), mkWorld (Some L) (trace w ++ [EvReadLedger]))
  | None => (Raise FileNotFoundError, mkWorld None (trace w ++ [EvReadLedger]))
  end.
Proof.
  unfold build_court, bind, read_ledger, ret.
  destruct w as [[L|] tr]; reflexivity.
Qed.

Lemma verify_text_run (env : Env) (text : pystr) (w : World) :
  verify_text env text w =
  match ledger w with
  | None => (Raise FileNotFoundError, mkWorld None (trace w ++ [EvReadLedger]))
  | Some L =>
      match court_hear env (assemble_court (universal_newlines L)) (take 12000 text) with
      | Raise e => (Raise e, heard L text w)
      | Ok report =>
          match claims report with
          | [] => (Ok (mkVerdict (u "N/A") (u "No claims were processed by the court.")),
                   heard L text w)
          | res :: _ =>
              let mapped_verdict := default (u "SUSPICIOUS") (verdict_map !! verdict res) in
              (Ok (mkVerdict mapped_verdict (details_str mapped_verdict res)), heard L text w)
          end
      end
  end.
Proof.
  unfold verify_text, bind. rewrite build_court_run.
  destruct (ledger w) as [L|]; [|reflexivity].
  unfold hear, bind, emit, lift, heard; cbn [ledger trace].
  destruct (court_hear env (assemble_court (universal_newlines L)) (take 12000 text))
    as [report|e]; [|reflexivity].
  destruct (claims report); reflexivity.
Qed.



(** ** The verdict map of [verify_text] *)



(** ** Failure of the conversion step *)

(** C10. Whatever exception the conversion attempt raises (the LLM proxy
    fails, its answer has no [result]), [convert_court_result_to_user_format]
    returns the court's result as it received it: same label, same details. *)
Theorem convert_failure_returns_court_result
  (env : Env) (court_result : Verdict) (fact_count : nat) (url : pystr)
  (w w' : World) (e : exn) :
  convert_attempt env court_result fact_count url w = (Raise e, w') →
  convert_court_result_to_user_format env court_result fact_count url w
  = (Ok court_result, w').
Proof.
  intros H. unfold convert_court_result_to_user_format, try_except.
  rewrite H. reflexivity.
Qed.

(** The attempt does raise when the proxy does. *)
Lemma convert_attempt_raises (env : Env) (court_result : Verdict) (fact_count : nat)
  (url : pystr) (w : World) (e : exn) :
  client_generate env (u "4o-mini") (convert_system_prompt env)
    (user_query (confidence court_result) (details court_result)) = Raise e →
  convert_attempt env court_result fact_count url w
  = (Raise e,
     mkWorld (ledger w)
       (trace w ++ [EvGenerate (u "4o-mini") (convert_system_prompt env)
                      (user_query (confidence court_result) (details court_result))])).
Proof.
  intros H. unfold convert_attempt, bind, generate, bind, emit, lift.
  cbn [ledger trace]. rewrite H. reflexivity.
Qed.

Lemma convert_failure_witness :
  convert_court_result_to_user_format failing_court_env
    (mkVerdict (u "FAKE") (u "refuted by the archive")) 1 [] fresh_world
  = (Ok (mkVerdict (u "FAKE") (u "refuted by the archive")),
     mkWorld (Some user_feedback_header)
       [EvGenerate (u "4o-mini") (u "convert")
          (user_query (u "FAKE") (u "refuted by the archive"))]).
Proof.
  apply (convert_failure_returns_court_result failing_court_env
           (mkVerdict (u "FAKE") (u "refuted by the archive")) 1 [] fresh_world _
           (OracleError (u "proxy unavailable"))).
  apply convert_attempt_raises. reflexivity.
Defined.

(** ** The trace only grows *)

Create HintDb trace_grows.

Lemma grows_ret {A} (a : A) : grows (ret a).
Proof. intros w. exists []. cbn. rewrite app_nil_r. reflexivity. Qed.

Lemma grows_raise {A} (e : exn) : grows (@raise A e).
Proof. intros w. exists []. cbn. rewrite app_nil_r. reflexivity. Qed.

Lemma grows_lift {A} (o : outcome A) : grows (lift o).
Proof. intros w. exists []. cbn. rewrite app_nil_r. reflexivity. Qed.

Lemma grows_emit (ev : event) : grows (emit ev).
Proof. intros w. exists [ev]. reflexivity. Qed.

Lemma grows_bind {A B} (m : M A) (k : A → M B) :
  grows m → (∀ a, grows (k a)) → grows (bind m k).
Proof.
  intros Hm Hk w. unfold bind. destruct (Hm w) as [t Ht].
  destruct (m w) as [[a|e] w1]; cbn [snd] in *.
  - destruct (Hk a w1) as [t' Ht']. exists (t ++ t').
    rewrite Ht', Ht, app_assoc. reflexivity.
  - exists t. exact Ht.
Qed.

Lemma grows_try_except {A} (m : M A) (h : exn → M A) :
  grows m → (∀ e, grows (h e)) → grows (try_except m h).
Proof.
  intros Hm Hh w. unfold try_except. destruct (Hm w) as [t Ht].
  destruct (m w) as [[a|e] w1]; cbn [snd] in *.
  - exists t. exact Ht.
  - destruct (Hh e w1) as [t' Ht']. exists (t ++ t').
    rewrite Ht', Ht, app_assoc. reflexivity.
Qed.

Lemma grows_disk_write (env : Env) (dir : pystr) : grows (disk_write env dir).
Proof.
  intros w. unfold disk_write. destruct (disk_ok env (trace w)); eexists; reflexivity.
Qed.

Lemma grows_read_ledger : grows read_ledger.
Proof.
  intros w. unfold read_ledger. destruct (ledger w); eexists; reflexivity.
Qed.

#[export] Hint Resolve grows_ret grows_raise grows_lift grows_emit grows_disk_write
  grows_read_ledger : trace_grows.
#[export] Hint Extern 2 (grows (bind _ _)) => apply grows_bind; [|intro] : trace_grows.
#[export] Hint Extern 2 (grows (try_except _ _)) => apply grows_try_except; [|intro] : trace_grows.

Lemma grows_hear (env : Env) (c : Court) (text : pystr) : grows (hear env c text).
Proof. unfold hear. auto with trace_grows. Qed.

Lemma grows_generate (env : Env) (model system query : pystr) :
  grows (generate env model system query).
Proof. unfold generate. auto with trace_grows. Qed.

#[export] Hint Resolve grows_hear grows_generate : trace_grows.

Lemma grows_verify_text (env : Env) (text : pystr) : grows (verify_text env text).
Proof.
  unfold verify_text, build_court. repeat (apply grows_bind; [auto with trace_grows|intro]).
  destruct (claims _); auto with trace_grows.
Qed.

Lemma grows_convert (env : Env) (cr : Verdict) (n : nat) (url : pystr) :
  grows (convert_court_result_to_user_format env cr n url).
Proof.
  unfold convert_court_result_to_user_format, convert_attempt.
  apply grows_try_except; [|auto with trace_grows].
  apply grows_bind; [auto with trace_grows|intro response].
  destruct (response !! u "result"); [|auto with trace_grows].
  destruct (parse_reply _ _ _). auto with trace_grows.
Qed.

#[export] Hint Resolve grows_verify_text grows_convert : trace_grows.

Lemma grows_call_factcheck_service (env : Env) (facts : list pystr) (url : pystr) :
  grows (call_factcheck_service env facts url).
Proof.
  unfold call_factcheck_service.
  apply grows_try_except; [|auto with trace_grows].
  apply grows_bind; [auto with trace_grows|intros _].
  destruct facts; auto 10 with trace_grows.
Qed.

#[export] Hint Resolve grows_call_factcheck_service : trace_grows.

Lemma grows_facts_from_reply (env : Env) (response : gmap pystr pystr) (url : pystr) :
  grows (facts_from_reply env response url).
Proof.
  unfold facts_from_reply.
  destruct (response !! u "error"); [auto with trace_grows|].
  destruct (py_strip _); auto 10 with trace_grows.
Qed.

Lemma save_website_content_run (env : Env) (content_type : pystr) (w : World) :
  ∃ ev, save_website_content env content_type w = (Ok tt, mkWorld (ledger w) (trace w ++ [ev]))
        ∧ oracle_queries [ev] = [].
Proof.
  unfold save_website_content, try_except, disk_write.
  destruct (disk_ok env (trace w)); eexists; split; reflexivity.
Qed.

(** ** Truncation of the text *)

(** C7. [verify_text] hands the court nothing but the first 12000
    characters of its text: its only call that leaves the process before the
    hearing is the read of the ledger, and the hearing receives
    [text[:12000]]. [extract_facts_claude] hands the extraction oracle the
    first 15000 characters: before that request it only writes a log file,
    and the request carries [text[:15000]]. *)
Theorem text_is_truncated_before_oracle_calls
  (env : Env) (text url : pystr) (w : World) :
  (trace (snd (verify_text env text w))
   = trace w ++ EvReadLedger ::
       match ledger w with
       | Some L => [EvCourtHear (assemble_court (universal_newlines L)) (take 12000 text)]
       | None => []
       end)
  ∧ (∃ ev rest,
        trace (snd (extract_facts_claude env text url w))
        = trace w ++ ev :: EvGenerate claude_model (extract_system_prompt env) (take 15000 text)
                        :: rest
        ∧ oracle_queries [ev] = [])
  ∧ length (take 12000 text) ≤ 12000 ∧ take 12000 text `prefix_of` text
  ∧ length (take 15000 text) ≤ 15000 ∧ take 15000 text `prefix_of` text.
Proof.
  split; [|split].
  - rewrite verify_text_run. destruct (ledger w) as [L|]; [|reflexivity].
    destruct (court_hear env _ _) as [report|e]; [destruct (claims report)|];
      cbn [snd heard trace]; rewrite <- app_assoc; reflexivity.
  - destruct (save_website_content_run env (u "facts") w) as (ev & Hrun & Hev).
    exists ev. unfold extract_facts_claude, try_except.
    unfold bind at 1. rewrite Hrun.
    unfold bind at 1. unfold generate at 1. unfold bind at 1. unfold emit, lift.
    cbn [ledger trace].
    destruct (client_generate env _ _ _) as [response|e].
    + match goal with |- context [facts_from_reply env response url ?w1] =>
        destruct (grows_facts_from_reply env response url w1) as [t Ht];
        destruct (facts_from_reply env response url w1) as [[r|e] w2]
      end; unfold ret; cbn [snd trace] in *; exists t; (split; [|exact Hev]);
        rewrite Ht, <- !app_assoc; reflexivity.
    + exists []. split; [|exact Hev]. cbn [snd ret trace]. rewrite <- app_assoc. reflexivity.
  - rewrite !length_take. repeat split; try lia; apply prefix_take.
Qed.

(** ** Writing the ledger *)

Lemma write_ledger_run (env : Env) (p : pystr) (w : World) :
  write_ledger env p w =
  if utf8_encodable p && disk_ok env (trace w)
  then (Ok tt, mkWorld (Some (ledger_text w ++ p)) (trace w ++ [EvAppendLedger p]))
  else (Raise (if utf8_encodable p then OSError else UnicodeEncodeError),
        mkWorld (ledger w) (trace w ++ [EvDiskFault (u "data")])).
Proof.
  unfold write_ledger, ledger_text. destruct (utf8_encodable p); [|reflexivity].
  destruct (disk_ok env (trace w)); reflexivity.
Qed.

Lemma concat_take_prefix {A} (k : nat) (ps : list (list A)) :
  concat (take k ps) `prefix_of` concat ps.
Proof.
  exists (concat (drop k ps)). rewrite <- concat_app, take_drop. reflexivity.
Qed.

(** Some of the pieces, from the first on, reach the file; all of them when
    no write raises. *)
Lemma write_all_spec (env : Env) (ps : list pystr) :
  ∀ (w : World) (T : pystr),
    ledger w = Some T →
    ∃ k t,
      snd (write_all env ps w) = mkWorld (Some (T ++ concat (take k ps))) (trace w ++ t)
      ∧ oracle_queries t = []
      ∧ (fst (write_all env ps w) = Ok tt → take k ps = ps).
Proof.
  induction ps as [|p ps IH]; intros w T HT.
  - exists 0, []. cbn. rewrite !app_nil_r. destruct w as [L tr]. cbn in HT. subst L. auto.
  - cbn [write_all]. unfold bind. rewrite write_ledger_run.
    destruct (utf8_encodable p && disk_ok env (trace w)).
    + destruct (IH (mkWorld (Some (ledger_text w ++ p)) (trace w ++ [EvAppendLedger p]))
                  (T ++ p)) as (k & t & Hw & Hq & Hok).
      { unfold ledger_text. rewrite HT. reflexivity. }
      exists (S k), (EvAppendLedger p :: t). rewrite Hw. cbn [take concat trace].
      rewrite <- !app_assoc. split; [reflexivity|]. split; [exact Hq|].
      intros H. f_equal. apply Hok, H.
    + exists 0, [EvDiskFault (u "data")]. cbn [snd fst take concat]. rewrite app_nil_r, HT.
      split; [reflexivity|]. split; [reflexivity|]. discriminate.
Qed.

Lemma try_reraise {A} (m : M A) (w : World) : try_except m (fun e => raise e) w = m w.
Proof. unfold try_except, raise. destruct (m w) as [[a|e] w']; reflexivity. Qed.

Lemma clock_bind {A} (env : Env) (k : pystr → M A) (w : World) :
  (let* now := clock env in k now) w = k (now_iso env (trace w)) w.
Proof. reflexivity. Qed.

Lemma write_ledger_bind {A} (env : Env) (p : pystr) (k : M A) (w : World) :
  (write_ledger env p;; k) w =
  if utf8_encodable p && disk_ok env (trace w)
  then k (mkWorld (Some (ledger_text w ++ p)) (trace w ++ [EvAppendLedger p]))
  else (Raise (if utf8_encodable p then OSError else UnicodeEncodeError),
        mkWorld (ledger w) (trace w ++ [EvDiskFault (u "data")])).
Proof.
  unfold bind. rewrite write_ledger_run.
  destruct (utf8_encodable p && disk_ok env (trace w)); reflexivity.
Qed.

Lemma write_ledger_then (env : Env) (p : pystr) (k k' : M unit) :
  (∀ w, k w = k' w) → ∀ w, (write_ledger env p;; k) w = (write_ledger env p;; k') w.
Proof.
  intros H w. unfold bind. destruct (write_ledger env p w) as [[[]|e] w1]; [apply H|reflexivity].
Qed.

Lemma write_ledger_last (env : Env) (p : pystr) (w : World) :
  write_ledger env p w = (write_ledger env p;; ret tt) w.
Proof. unfold bind, ret. destruct (write_ledger env p w) as [[[]|e] w1]; reflexivity. Qed.

Lemma first_piece_encodable : utf8_encodable ([NL] ++ bar ++ [NL]) = true.
Proof. vm_compute. reflexivity. Qed.

(** The [f.write] calls after the first, as a list of pieces. *)
Lemma later_writes (env : Env) (url bg content ty prove now : pystr) (w : World) :
  (write_ledger env (u "[USER FEEDBACK] " ++ now ++ [NL]);;
   write_ledger env (bar ++ [NL]);;
   write_ledger env (u "URL: " ++ url ++ [NL; NL]);;
   write_ledger env (type_line (py_upper env) ty);;
   write_ledger env ([NL] ++ u "CLAIM:" ++ [NL] ++ content ++ [NL; NL]);;
   write_ledger env (u "EVIDENCE/PROOF:" ++ [NL] ++ prove ++ [NL; NL]);;
   match bg with
   | [] => ret tt
   | _ :: _ => write_ledger env (u "CONTEXT:" ++ [NL] ++ take 300 bg ++ u "..." ++ [NL; NL])
   end) w
  = write_all env (later_pieces (py_upper env) url bg content ty prove now) w.
Proof.
  unfold later_pieces. revert w.
  destruct bg as [|c bg]; cbn [app write_all]; [reflexivity|].
  do 6 (apply write_ledger_then; intros ?). apply write_ledger_last.
Qed.

(** The steps of [save_user_feedback]: the backup file, the opening of the
    ledger, the first [f.write], the clock, the other writes. *)
Lemma save_user_feedback_run (env : Env)
  (url bg content ty prove : pystr) (w : World) :
  save_user_feedback env url bg content ty prove w =
  let data := feedback_data (now_iso env (trace w)) url bg content ty prove in
  if disk_ok env (trace w) then
    if forallb (fun kv => utf8_encodable (fst kv) && utf8_encodable (snd kv)) data then
      let tr1 := trace w ++ [EvWriteJson (u "fact_feedback") data] in
      if disk_ok env tr1 then
        let tr2 := tr1 ++ [EvOpenLedger] in
        if disk_ok env tr2 then
          let w3 := mkWorld (Some (ledger_text w ++ [NL] ++ bar ++ [NL]))
                      (tr2 ++ [EvAppendLedger ([NL] ++ bar ++ [NL])]) in
          write_all env
            (later_pieces (py_upper env) url bg content ty prove (now_iso env (trace w3))) w3
        else (Raise OSError,
              mkWorld (Some (ledger_text w)) (tr2 ++ [EvDiskFault (u "data")]))
      else (Raise OSError, mkWorld (ledger w) (tr1 ++ [EvDiskFault (u "data")]))
    else (Raise UnicodeEncodeError,
          mkWorld (ledger w) (trace w ++ [EvDiskFault (u "fact_feedback")]))
  else (Raise OSError, mkWorld (ledger w) (trace w ++ [EvDiskFault (u "fact_feedback")])).
Proof.
  cbv zeta. unfold save_user_feedback. rewrite try_reraise, clock_bind.
  unfold bind at 1. unfold write_json.
  destruct (disk_ok env (trace w)); [|reflexivity].
  destruct (forallb _ _); [|reflexivity].
  unfold bind at 1. unfold open_ledger. cbn [trace ledger].
  destruct (disk_ok env (trace w ++ _)); [|reflexivity].
  rewrite write_ledger_bind, first_piece_encodable. cbn [trace ledger andb].
  destruct (disk_ok env ((trace w ++ _) ++ _)); [|reflexivity].
  rewrite clock_bind. exact (later_writes env url bg content ty prove _ _).
Qed.

Lemma first_and_later_pieces (upper : pystr → pystr) (url bg content ty prove now : pystr) :
  ([NL] ++ bar ++ [NL]) ++ concat (later_pieces upper url bg content ty prove now)
  = ledger_entry upper url bg content ty prove now.
Proof.
  unfold later_pieces, ledger_entry. rewrite concat_app.
  destruct bg as [|c bg]; cbn [concat]; rewrite ?app_nil_r;
    repeat rewrite <- app_assoc; reflexivity.
Qed.

(** What a save leaves behind, whatever its outcome: the trace grew without
    any request to an oracle, and the ledger holds its text of before
    followed by the first part of the entry, the whole entry when the save
    returned. *)
Lemma save_user_feedback_spec (env : Env)
  (url bg content ty prove : pystr) (w : World) :
  ∃ now written t,
    (∃ tr, now = now_iso env tr)
    ∧ written `prefix_of` ledger_entry (py_upper env) url bg content ty prove now
    ∧ trace (snd (save_user_feedback env url bg content ty prove w)) = trace w ++ t
    ∧ oracle_queries t = []
    ∧ (ledger (snd (save_user_feedback env url bg content ty prove w)) = ledger w
       ∧ written = []
       ∨ ledger (snd (save_user_feedback env url bg content ty prove w))
         = Some (ledger_text w ++ written))
    ∧ (fst (save_user_feedback env url bg content ty prove w) = Ok tt →
       written = ledger_entry (py_upper env) url bg content ty prove now
       ∧ ledger (snd (save_user_feedback env url bg content ty prove w))
         = Some (ledger_text w ++ written)).
Proof.
  rewrite save_user_feedback_run. cbv zeta.
  set (data := feedback_data _ _ _ _ _ _).
  destruct (disk_ok env (trace w)).
  2: { exists (now_iso env []), [], [EvDiskFault (u "fact_feedback")].
       cbn [fst snd trace ledger]. split; [eexists; reflexivity|]. split; [apply prefix_nil|].
       split; [reflexivity|]. split; [reflexivity|]. split; [left; auto|discriminate]. }
  destruct (forallb _ data).
  2: { exists (now_iso env []), [], [EvDiskFault (u "fact_feedback")].
       cbn [fst snd trace ledger]. split; [eexists; reflexivity|]. split; [apply prefix_nil|].
       split; [reflexivity|]. split; [reflexivity|]. split; [left; auto|discriminate]. }
  destruct (disk_ok env (trace w ++ _)).
  2: { exists (now_iso env []), [], [EvWriteJson (u "fact_feedback") data; EvDiskFault (u "data")].
       cbn [fst snd trace ledger]. rewrite <- app_assoc.
       split; [eexists; reflexivity|]. split; [apply prefix_nil|].
       split; [reflexivity|]. split; [reflexivity|]. split; [left; auto|discriminate]. }
  destruct (disk_ok env ((trace w ++ _) ++ _)).
  2: { exists (now_iso env []), [],
         [EvWriteJson (u "fact_feedback") data; EvOpenLedger; EvDiskFault (u "data")].
       cbn [fst snd trace ledger]. rewrite <- !app_assoc, app_nil_r.
       split; [eexists; reflexivity|]. split; [apply prefix_nil|].
       split; [reflexivity|]. split; [reflexivity|]. split; [right; reflexivity|discriminate]. }
  match goal with |- context [write_all env ?ps ?w3] =>
    match ps with context [now_iso env ?tr] => exists (now_iso env tr) end;
    set (pieces := ps);
    destruct (write_all_spec env pieces w3 (ledger_text w ++ [NL] ++ bar ++ [NL]) eq_refl)
      as (k & t & Hw & Hq & Hok);
    exists (([NL] ++ bar ++ [NL]) ++ concat (take k pieces)),
           ([EvWriteJson (u "fact_feedback") data; EvOpenLedger;
             EvAppendLedger ([NL] ++ bar ++ [NL])] ++ t)
  end.
  match goal with |- context [ledger_entry ?up _ _ _ _ _ ?now] =>
    assert (Hall : ([NL] ++ bar ++ [NL]) ++ concat pieces
                   = ledger_entry up url bg content ty prove now)
      by apply first_and_later_pieces
  end.
  clearbody pieces. rewrite Hw, <- Hall. cbn [trace ledger].
  split; [eexists; reflexivity|].
  split; [apply prefix_app, concat_take_prefix|].
  split; [rewrite <- !app_assoc; reflexivity|].
  split; [exact Hq|].
  split; [right; rewrite <- !app_assoc; reflexivity|].
  intros H. rewrite (Hok H), <- !app_assoc. split; reflexivity.
Qed.

(** A save that returned appended a whole entry. *)
Lemma save_user_feedback_accepted (env : Env)
  (url bg content ty prove : pystr) (w w' : World) :
  save_user_feedback env url bg content ty prove w = (Ok tt, w') →
  ∃ now,
    (∃ tr, now = now_iso env tr)
    ∧ ledger w'
      = Some (ledger_text w ++ ledger_entry (py_upper env) url bg content ty prove now).
Proof.
  intros Hrun.
  destruct (save_user_feedback_spec env url bg content ty prove w)
    as (now & written & t & Hnow & _ & _ & _ & _ & Hok).
  rewrite Hrun in Hok. destruct (Hok eq_refl) as [-> HL].
  exists now. split; [exact Hnow|exact HL].
Qed.

(** ** Validation of a feedback submission *)

Lemma py_not_short (s : pystr) : py_not s || (length s <? 10) = (length s <? 10).
Proof. destruct s; reflexivity. Qed.

Lemma py_not_mem (s : pystr) (l : list pystr) :
  [] ∉ l → py_not s || negb (py_mem s l) = negb (py_mem s l).
Proof.
  intros Hl. destruct s; [|reflexivity]. cbn. unfold py_mem.
  rewrite bool_decide_eq_false_2; [reflexivity|exact Hl].
Qed.

Lemma empty_not_feedback_type : [] ∉ feedback_types.
Proof. refine (proj1 (bool_decide_eq_false _) _). vm_compute. reflexivity. Qed.

Lemma submit_feedback_run (env : Env) (data : gmap pystr pystr) (w : World) :
  submit_feedback env data w =
  if negb (py_mem (get_field data "feedback_type") feedback_types)
  then (Ok (mkResponse false (u "Invalid feedback type") 400), w)
  else if length (get_field data "feedback_content") <? 10
  then (Ok (mkResponse false (u "Please provide the fact content (at least 10 characters)") 400), w)
  else if length (get_field data "feedback_prove") <? 10
  then (Ok (mkResponse false (u "Please provide evidence/proof (at least 10 characters)") 400), w)
  else match save_user_feedback env (get_field data "url") (get_field data "content_background")
               (get_field data "feedback_content") (get_field data "feedback_type")
               (get_field data "feedback_prove") w with
       | (Ok _, w') => (Ok (mkResponse true (u "Thank you for your feedback!") 200), w')
       | (Raise _, w') => (Ok (mkResponse false (u "Failed to save feedback") 500), w')
       end.
Proof.
  unfold submit_feedback, try_except, get_field.
  fold feedback_types.
  rewrite (py_not_mem _ _ empty_not_feedback_type), !py_not_short.
  destruct (negb (py_mem _ feedback_types)); [reflexivity|].
  destruct (length _ <? 10); [reflexivity|].
  destruct (length _ <? 10); [reflexivity|].
  unfold bind. destruct (save_user_feedback _ _ _ _ _ _ _) as [[[]|e] w']; reflexivity.
Qed.

(** [submit_feedback] always answers: its outermost [except] turns every
    failure into a response. *)
Lemma submit_feedback_returns (env : Env) (data : gmap pystr pystr) (w : World) :
  ∃ r w', submit_feedback env data w = (Ok r, w').
Proof.
  rewrite submit_feedback_run.
  destruct (negb _); [do 2 eexists; reflexivity|].
  destruct (_ <? 10); [do 2 eexists; reflexivity|].
  destruct (_ <? 10); [do 2 eexists; reflexivity|].
  destruct (save_user_feedback _ _ _ _ _ _ _) as [[[]|e] w']; do 2 eexists; reflexivity.
Qed.

(** An accepted submission passed the three checks. *)
Lemma accepted_is_well_formed (env : Env) (data : gmap pystr pystr) (w w' : World)
  (r : Response) :
  submit_feedback env data w = (Ok r, w') → success r = true → well_formed_submission data.
Proof.
  rewrite submit_feedback_run. unfold well_formed_submission, py_mem.
  destruct (bool_decide_reflect (get_field data "feedback_type" ∈ feedback_types)) as [Hty|Hty];
    cbn [negb]; [|intros [= <- <-]; discriminate].
  destruct (Nat.ltb_spec (length (get_field data "feedback_content")) 10) as [Hc|Hc];
    [intros [= <- <-]; discriminate|].
  destruct (Nat.ltb_spec (length (get_field data "feedback_prove")) 10) as [Hp|Hp];
    [intros [= <- <-]; discriminate|].
  auto.
Qed.

(** A failure to save is answered as a failure, and it takes nothing away
    from the ledger. *)
Lemma save_failure_is_visible (env : Env) (data : gmap pystr pystr) (w w' : World) (e : exn) :
  well_formed_submission data →
  save_user_feedback env (get_field data "url") (get_field data "content_background")
    (get_field data "feedback_content") (get_field data "feedback_type")
    (get_field data "feedback_prove") w = (Raise e, w') →
  submit_feedback env data w = (Ok (mkResponse false (u "Failed to save feedback") 500), w')
  ∧ ledger_text w `prefix_of` ledger_text w'.
Proof.
  intros (Hty & Hc & Hp) Hsave. rewrite submit_feedback_run. unfold py_mem.
  rewrite (bool_decide_eq_true_2 _ Hty). cbn [negb].
  destruct (Nat.ltb_spec (length (get_field data "feedback_content")) 10); [lia|].
  destruct (Nat.ltb_spec (length (get_field data "feedback_prove")) 10); [lia|].
  rewrite Hsave. split; [reflexivity|].
  destruct (save_user_feedback_spec env (get_field data "url")
              (get_field data "content_background") (get_field data "feedback_content")
              (get_field data "feedback_type") (get_field data "feedback_prove") w)
    as (now & written & t & _ & _ & _ & _ & Hledger & _).
  rewrite Hsave in Hledger. cbn [snd] in Hledger. unfold ledger_text at 2.
  destruct Hledger as [[-> _]| ->]; [reflexivity|]. cbn [default]. apply prefix_app_r.
  reflexivity.
Qed.



(** ** The conversion step *)

Lemma convert_attempt_run (env : Env) (cr : Verdict) (n : nat) (url : pystr) (w : World) :
  convert_attempt env cr n url w =
  match conversion_answer env cr with
  | Raise e => (Raise e, asked env cr w)
  | Ok response =>
      match response !! u "result" with
      | None => (Raise (KeyError (u "result")), asked env cr w)
      | Some r =>
          let result_text := py_strip r in
          let fd := parse_reply (py_split NL result_text) (confidence cr) result_text in
          (Ok (mkVerdict (fst fd)
                 (if py_eqb (fst fd) (confidence cr) && negb (py_in (u "VERDICT:") result_text)
                  then result_text else snd fd)),
           asked env cr w)
      end
  end.
Proof.
  unfold convert_attempt, conversion_answer, asked, bind, generate, bind, emit, lift.
  cbn [ledger trace].
  destruct (client_generate env _ _ _) as [response|e]; [|reflexivity].
  destruct (response !! u "result") as [r|]; [|reflexivity].
  destruct (parse_reply _ _ _) as [f d]. reflexivity.
Qed.

Lemma convert_run (env : Env) (cr : Verdict) (n : nat) (url : pystr) (w : World) :
  ∃ v, convert_court_result_to_user_format env cr n url w = (Ok v, asked env cr w)
       ∧ match conversion_answer env cr with
         | Raise _ => v = cr
         | Ok response =>
             match response !! u "result" with
             | None => v = cr
             | Some r => confidence v = converted_label (confidence cr) r
             end
         end.
Proof.
  unfold convert_court_result_to_user_format, try_except.
  rewrite convert_attempt_run.
  destruct (conversion_answer env cr) as [response|e]; [|eexists; split; reflexivity].
  destruct (response !! u "result") as [r|]; eexists; split; reflexivity.
Qed.

Lemma offered_verdicts_valid (lines : list pystr) (v : pystr) :
  v ∈ offered_verdicts lines → v ∈ valid_verdicts.
Proof.
  unfold offered_verdicts. intros H.
  apply list_elem_of_omap in H as (line & _ & H).
  destruct (starts_with _ line); [|discriminate].
  unfold py_mem in H.
  destruct (bool_decide_reflect (py_strip (py_replace (u "VERDICT:") [] line) ∈ valid_verdicts))
    as [Hin|]; [|discriminate].
  injection H as <-. exact Hin.
Qed.

(** The label after the loop is the one it started with or one the reply
    offers. *)
Lemma parse_reply_label (lines : list pystr) (final d : pystr) :
  fst (parse_reply lines final d) = final
  ∨ fst (parse_reply lines final d) ∈ offered_verdicts lines.
Proof.
  revert final d. induction lines as [|line rest IH]; intros final d; [left; reflexivity|].
  cbn [parse_reply]. unfold offered_verdicts. cbn [omap list_omap].
  fold (offered_verdicts rest).
  destruct (starts_with (u "VERDICT:") line).
  - destruct (py_mem _ valid_verdicts).
    + destruct (IH (py_strip (py_replace (u "VERDICT:") [] line)) d) as [->|Hin].
      * right. apply elem_of_cons. left. reflexivity.
      * right. apply elem_of_cons. right. exact Hin.
    + destruct (IH final d) as [->|Hin]; [left; reflexivity|right; exact Hin].
  - destruct (starts_with (u "MESSAGE:") line); [left; reflexivity|].
    destruct (IH final d) as [->|Hin]; [left; reflexivity|right; exact Hin].
Qed.

Lemma converted_label_cases (baseline r : pystr) :
  converted_label baseline r = baseline
  ∨ converted_label baseline r ∈ offered_verdicts (py_split NL (py_strip r)).
Proof. apply parse_reply_label. Qed.


(** ** The report of [call_factcheck_service] *)

Lemma call_factcheck_service_run (env : Env) (facts : list pystr) (url : pystr) (w : World) :
  call_factcheck_service env facts url w =
  if disk_ok env (trace w) then
    match facts with
    | [] => (Ok (mkVerdict (u "N/A") (u "No facts extracted for verification.")), logged w)
    | _ :: _ =>
        match verify_text env (facts_text facts) (logged w) with
        | (Ok court_result, w1) =>
            convert_court_result_to_user_format env court_result (length facts) url w1
        | (Raise _, w1) => (Ok (mkVerdict (u "CLEAN") (fallback_details (length facts))), w1)
        end
    end
  else (Ok (mkVerdict (u "N/A") (u "Analysis incomplete due to technical error.")),
        mkWorld (ledger w) (trace w ++ [EvDiskFault (u "fact_list")])).
Proof.
  unfold call_factcheck_service, try_except at 1, bind at 1, disk_write, logged.
  destruct (disk_ok env (trace w)); [|reflexivity].
  destruct facts as [|f fs]; [reflexivity|].
  unfold try_except, bind.
  destruct (verify_text env _ _) as [[cr|e] w1]; [|reflexivity].
  destruct (convert_run env cr (length (f :: fs)) url w1) as (v & -> & _). reflexivity.
Qed.



(** ** The fallback when the Model Court fails *)

(** The claim C1 fails as stated: with a court whose hearing raises, the
    report for one extracted fact carries the label [CLEAN], which is not
    [SUSPICIOUS]. *)
Lemma court_failure_reports_clean :
  fst (verify_text failing_court_env (facts_text one_fact) (logged fresh_world))
  = Raise (OracleError (u "court unavailable"))
  ∧ fst (call_factcheck_service failing_court_env one_fact [] fresh_world)
    = Ok (mkVerdict (u "CLEAN") (fallback_details 1))
  ∧ u "CLEAN" ≠ u "SUSPICIOUS".
Proof.
  split; [|split].
  - vm_compute. reflexivity.
  - vm_compute. reflexivity.
  - discriminate.
Qed.

(** C1, as the code has it. [call_factcheck_service] always returns a report
    and never raises. When facts were extracted, the log file was written and
    the Model Court round raises (the ledger cannot be read, the hearing
    fails), the report is the fallback one: label [CLEAN], with the note that
    the Model Court was unavailable. When the court returns without any
    claim result, the report is the court's [N/A] report as it is when the
    conversion oracle fails; when the oracle answers, the label is the one
    the conversion reads from the reply with [N/A] as the baseline, which is
    [N/A] unless the reply offers one of the three labels. *)
Theorem court_failure_falls_back_to_clean
  (env : Env) (facts : list pystr) (url : pystr) (w : World) :
  (∃ v w', call_factcheck_service env facts url w = (Ok v, w'))
  ∧ (∀ e w1,
        facts ≠ [] →
        disk_ok env (trace w) = true →
        verify_text env (facts_text facts) (logged w) = (Raise e, w1) →
        call_factcheck_service env facts url w
        = (Ok (mkVerdict (u "CLEAN") (fallback_details (length facts))), w1))
  ∧ (∀ L report,
        facts ≠ [] →
        disk_ok env (trace w) = true →
        ledger w = Some L →
        court_hear env (assemble_court (universal_newlines L)) (take 12000 (facts_text facts))
        = Ok report →
        claims report = [] →
        ∃ v w',
          call_factcheck_service env facts url w = (Ok v, w')
          ∧ match conversion_answer env no_claims_result with
            | Raise _ => v = no_claims_result
            | Ok response =>
                match response !! u "result" with
                | None => v = no_claims_result
                | Some r =>
                    confidence v = converted_label (u "N/A") r
                    ∧ (confidence v = u "N/A"
                       ∨ confidence v ∈ offered_verdicts (py_split NL (py_strip r)))
                    ∧ (offered_verdicts (py_split NL (py_strip r)) = [] →
                       confidence v = u "N/A")
                end
            end).
Proof.
  rewrite call_factcheck_service_run. split; [|split].
  - destruct (disk_ok env (trace w)); [|do 2 eexists; reflexivity].
    destruct facts as [|f fs]; [do 2 eexists; reflexivity|].
    destruct (verify_text env _ _) as [[cr|e] w1]; [|do 2 eexists; reflexivity].
    destruct (convert_run env cr (length (f :: fs)) url w1) as (v & -> & _).
    do 2 eexists; reflexivity.
  - intros e w1 Hfacts Hdisk Hraise. rewrite Hdisk, Hraise.
    destruct facts; [congruence|reflexivity].
  - intros L report Hfacts Hdisk HL Hhear Hclaims. rewrite Hdisk.
    destruct facts as [|f fs]; [congruence|].
    rewrite verify_text_run. cbn [logged ledger]. rewrite HL, Hhear, Hclaims.
    fold no_claims_result.
    match goal with |- context [convert_court_result_to_user_format env ?cr ?n url ?w1] =>
      destruct (convert_run env cr n url w1) as (v & -> & Hv)
    end.
    exists v. eexists. split; [reflexivity|].
    destruct (conversion_answer env no_claims_result) as [response|e]; [|exact Hv].
    destruct (response !! u "result") as [r|]; [|exact Hv].
    cbn [no_claims_result confidence] in Hv. split; [exact Hv|].
    assert (Hcases : confidence v = u "N/A"
                     ∨ confidence v ∈ offered_verdicts (py_split NL (py_strip r))).
    { rewrite Hv. apply converted_label_cases. }
    split; [exact Hcases|]. intros Hnone. destruct Hcases as [Hna|Hin]; [exact Hna|].
    rewrite Hnone in Hin. apply elem_of_nil in Hin. destruct Hin.
Qed.

Lemma court_failure_fallback_witness :
  call_factcheck_service failing_court_env one_fact [] fresh_world
  = (Ok (mkVerdict (u "CLEAN") (fallback_details (length one_fact))),
     heard user_feedback_header (facts_text one_fact) (logged fresh_world)).
Proof.
  apply (proj1 (proj2 (court_failure_falls_back_to_clean failing_court_env one_fact []
                         fresh_world))
           (OracleError (u "court unavailable"))).
  - discriminate.
  - reflexivity.
  - reflexivity.
Defined.

(** ** The override *)

Lemma less_favorable_irrefl (a : pystr) : less_favorable a a = false.
Proof.
  unfold less_favorable. destruct (tier a); [apply Nat.ltb_irrefl|reflexivity].
Qed.

(** The claim C2 fails as stated: the court's label is [CLEAN], the
    conversion oracle answers [VERDICT: FAKE], and the label returned is
    [FAKE], a less favourable tier than the baseline. *)
Lemma override_can_tighten :
  fst (convert_court_result_to_user_format (sample_env (u "supported") (verdict_reply "FAKE"))
         (mkVerdict (u "CLEAN") (u "Jury Votes:")) 1 [] fresh_world)
  = Ok (mkVerdict (u "FAKE") (u "The claims were reviewed."))
  ∧ less_favorable (u "FAKE") (u "CLEAN") = true.
Proof.
  split; vm_compute; reflexivity.
Qed.

(** C2, as the code has it. [convert_court_result_to_user_format] always
    returns. When the conversion oracle fails or its answer has no result,
    it returns the court's result; otherwise its label is the court's own
    label or one of the three labels that a [VERDICT:] line of the reply
    offers, in whichever direction that moves. So the label is no less
    favourable than the baseline whenever no label offered by the reply is:
    the direction of the override is the oracle's, the code does not enforce
    it. *)
Theorem override_follows_the_conversion_oracle
  (env : Env) (court_result : Verdict) (fact_count : nat) (url : pystr) (w : World) :
  ∃ v w',
    convert_court_result_to_user_format env court_result fact_count url w = (Ok v, w')
    ∧ match conversion_answer env court_result with
      | Raise _ => v = court_result
      | Ok response =>
          match response !! u "result" with
          | None => v = court_result
          | Some r =>
              confidence v = confidence court_result
              ∨ confidence v ∈ offered_verdicts (py_split NL (py_strip r))
          end
      end
    ∧ (confidence v = confidence court_result ∨ confidence v ∈ valid_verdicts)
    ∧ ((∀ response r o,
           conversion_answer env court_result = Ok response →
           response !! u "result" = Some r →
           o ∈ offered_verdicts (py_split NL (py_strip r)) →
           less_favorable o (confidence court_result) = false) →
       less_favorable (confidence v) (confidence court_result) = false).
Proof.
  destruct (convert_run env court_result fact_count url w) as (v & Hrun & Hv).
  exists v, (asked env court_result w). split; [exact Hrun|].
  destruct (conversion_answer env court_result) as [response|e] eqn:Hans.
  2: { subst v. split; [reflexivity|]. split; [left; reflexivity|].
       intros _. apply less_favorable_irrefl. }
  destruct (response !! u "result") as [r|] eqn:Hr.
  2: { subst v. split; [reflexivity|]. split; [left; reflexivity|].
       intros _. apply less_favorable_irrefl. }
  rewrite Hv.
  destruct (converted_label_cases (confidence court_result) r) as [->|Hin].
  - split; [left; reflexivity|]. split; [left; reflexivity|].
    intros _. apply less_favorable_irrefl.
  - split; [right; exact Hin|]. split; [right; eapply offered_verdicts_valid; exact Hin|].
    intros Hmono. eapply Hmono; eauto.
Qed.

Lemma override_relaxes_witness :
  ∃ v w',
    convert_court_result_to_user_format (sample_env (u "suspicious") (verdict_reply "CLEAN"))
      (mkVerdict (u "SUSPICIOUS") (u "Jury Votes:")) 1 [] fresh_world = (Ok v, w')
    ∧ (confidence v = u "SUSPICIOUS" ∨ confidence v ∈ valid_verdicts)
    ∧ less_favorable (confidence v) (u "SUSPICIOUS") = false.
Proof.
  destruct (override_follows_the_conversion_oracle
              (sample_env (u "suspicious") (verdict_reply "CLEAN"))
              (mkVerdict (u "SUSPICIOUS") (u "Jury Votes:")) 1 [] fresh_world)
    as (v & w' & Hrun & _ & Hrange & Hmono).
  exists v, w'. split; [exact Hrun|]. split; [exact Hrange|]. apply Hmono.
  intros response r o Hans Hr Ho.
  vm_compute in Hans. injection Hans as <-.
  vm_compute in Hr. injection Hr as <-.
  vm_compute in Ho. apply list_elem_of_singleton in Ho as ->.
  vm_compute. reflexivity.
Defined.

(** ** Line ends as the reader of the ledger sees them *)

Lemma cr_state_cons (st : bool) (c : N) (s : pystr) :
  cr_state st (c :: s) = cr_state (c =? CR)%N s.
Proof. unfold cr_state. rewrite last_cons. destruct (last s); reflexivity. Qed.

Lemma translate_newlines_app (st : bool) (a b : pystr) :
  translate_newlines st (a ++ b)
  = translate_newlines st a ++ translate_newlines (cr_state st a) b.
Proof.
  revert st. induction a as [|c a IH]; intros st; [reflexivity|].
  rewrite cr_state_cons. cbn [app translate_newlines].
  destruct (c =? CR)%N; [rewrite IH; reflexivity|].
  destruct ((c =? NL)%N && st); rewrite IH; reflexivity.
Qed.

Lemma translate_newlines_plain (st : bool) (c : N) (s : pystr) :
  c ≠ CR → c ≠ NL → translate_newlines st (c :: s) = c :: translate_newlines false s.
Proof.
  intros Hcr Hnl. cbn [translate_newlines].
  rewrite (proj2 (N.eqb_neq c CR) Hcr), (proj2 (N.eqb_neq c NL) Hnl). reflexivity.
Qed.

Lemma translate_newlines_NL (st : bool) (s : pystr) :
  translate_newlines st (NL :: s)
  = if st then translate_newlines false s else NL :: translate_newlines false s.
Proof. destruct st; reflexivity. Qed.

(** The text read after an append extends the text read before it. *)
Lemma universal_newlines_app (a b : pystr) :
  universal_newlines (a ++ b)
  = universal_newlines a ++ translate_newlines (cr_state false a) b.
Proof. apply translate_newlines_app. Qed.

Lemma ledger_entry_nonempty (upper : pystr → pystr) (url bg content ty prove now : pystr) :
  ledger_entry upper url bg content ty prove now ≠ [].
Proof. unfold ledger_entry. discriminate. Qed.

Lemma ledger_entry_read_nonempty (st : bool) (upper : pystr → pystr)
  (url bg content ty prove now : pystr) :
  translate_newlines st (ledger_entry upper url bg content ty prove now) ≠ [].
Proof.
  unfold ledger_entry. change bar with (61%N :: replicate 79 61%N). cbn [app].
  rewrite translate_newlines_NL.
  destruct st; [rewrite translate_newlines_plain by discriminate|]; discriminate.
Qed.

Lemma assemble_court_inj (L1 L2 : pystr) : assemble_court L1 = assemble_court L2 → L1 = L2.
Proof. unfold assemble_court, jury_feedback. intros H. injection H. auto. Qed.

(** ** The snapshot of the ledger *)

(** C6. [build_court] reads the ledger once and puts the text it read (the
    text of the file with its line ends translated) into the court as the
    reference of [User_Feedback_Jury]; every juror of the court whose
    reference is a stored text holds exactly that text; the hearing of a
    [verify_text] session runs on the court built at its start, after one
    read. A feedback saved after the build changes the ledger, not the court
    already built: the text that court holds is still the old one, and only
    a court built afterwards holds the new entry, after the old text. *)
Theorem ledger_snapshot_is_taken_at_build
  (env : Env) (text : pystr) (w : World) (L : pystr) :
  ledger w = Some L →
  build_court w
  = (Ok (assemble_court (universal_newlines L)), mkWorld (Some L) (trace w ++ [EvReadLedger]))
  ∧ (∀ j t, j ∈ juries (assemble_court (universal_newlines L)) →
            reference j = SimpleTextStorage t → t = universal_newlines L)
  ∧ (∃ j, j ∈ juries (assemble_court (universal_newlines L))
          ∧ name j = u "User_Feedback_Jury"
          ∧ reference j = SimpleTextStorage (universal_newlines L))
  ∧ trace (snd (verify_text env text w))
    = trace w ++ [EvReadLedger;
                  EvCourtHear (assemble_court (universal_newlines L)) (take 12000 text)]
  ∧ (∀ url bg content ty prove w2,
        save_user_feedback env url bg content ty prove
          (mkWorld (Some L) (trace w ++ [EvReadLedger])) = (Ok tt, w2) →
        ∃ entry,
          entry ≠ []
          ∧ ledger w2 = Some (L ++ entry)
          ∧ fst (build_court w2) = Ok (assemble_court (universal_newlines (L ++ entry)))
          ∧ universal_newlines L `prefix_of` universal_newlines (L ++ entry)
          ∧ assemble_court (universal_newlines (L ++ entry))
            ≠ assemble_court (universal_newlines L)).
Proof.
  intros HL. split; [|split; [|split; [|split]]].
  - rewrite build_court_run, HL. reflexivity.
  - intros j t Hj Href. unfold assemble_court in Hj. cbn [juries] in Hj.
    repeat (apply elem_of_cons in Hj as [->|Hj]; [try discriminate Href|]).
    + cbn in Href. injection Href as <-. reflexivity.
    + apply elem_of_nil in Hj. destruct Hj.
  - exists (jury_feedback (universal_newlines L)). split; [|split; reflexivity].
    unfold assemble_court. cbn [juries]. set_solver.
  - rewrite verify_text_run, HL.
    destruct (court_hear env _ _) as [report|e]; [destruct (claims report)|];
      cbn [snd heard trace]; rewrite <- app_assoc; reflexivity.
  - intros url bg content ty prove w2 Hsave.
    apply save_user_feedback_accepted in Hsave as (now & _ & Hw2).
    cbn [ledger_text ledger default] in Hw2.
    exists (ledger_entry (py_upper env) url bg content ty prove now).
    split; [apply ledger_entry_nonempty|]. split; [exact Hw2|]. split.
    + rewrite build_court_run, Hw2. reflexivity.
    + rewrite universal_newlines_app. split; [apply prefix_app_r; reflexivity|].
      intros Heq. apply assemble_court_inj in Heq.
      rewrite <- (app_nil_r (universal_newlines L)) in Heq at 2.
      apply app_inv_head in Heq.
      eapply ledger_entry_read_nonempty. exact Heq.
Qed.

Lemma ledger_snapshot_witness :
  build_court fresh_world
  = (Ok (assemble_court (universal_newlines user_feedback_header)),
     mkWorld (Some user_feedback_header) [EvReadLedger])
  ∧ ∃ entry,
      entry ≠ []
      ∧ fst (build_court
               (snd (submit_feedback (sample_env (u "supported") (Raise OSError)) honest_feedback
                       (mkWorld (Some user_feedback_header) [EvReadLedger]))))
        = Ok (assemble_court (universal_newlines (user_feedback_header ++ entry))).
Proof.
  destruct (ledger_snapshot_is_taken_at_build (sample_env (u "supported") (Raise OSError))
              (u "1. The moon is a planet.") fresh_world user_feedback_header eq_refl)
    as (Hbuild & _ & _ & _ & Hlater).
  split; [exact Hbuild|].
  destruct (Hlater (get_field honest_feedback "url")
              (get_field honest_feedback "content_background")
              (get_field honest_feedback "feedback_content")
              (get_field honest_feedback "feedback_type")
              (get_field honest_feedback "feedback_prove")
              (snd (submit_feedback (sample_env (u "supported") (Raise OSError)) honest_feedback
                      (mkWorld (Some user_feedback_header) [EvReadLedger]))))
    as (entry & Hne & _ & Hnext & _).
  - vm_compute. reflexivity.
  - exists entry. split; [exact Hne|exact Hnext].
Defined.

(** ** Lines of a text *)

Lemma py_split_nonempty (sep : N) (s : pystr) : py_split sep s ≠ [].
Proof.
  destruct s as [|c s]; cbn [py_split]; [discriminate|].
  destruct (c =? sep)%N; [discriminate|]. destruct (py_split sep s); discriminate.
Qed.

Lemma py_split_app_sep (sep : N) (a b : pystr) :
  py_split sep (a ++ sep :: b) = py_split sep a ++ py_split sep b.
Proof.
  induction a as [|c a IH]; cbn [app py_split].
  - rewrite N.eqb_refl. reflexivity.
  - destruct (c =? sep)%N; [rewrite IH; reflexivity|].
    rewrite IH. pose proof (py_split_nonempty sep a) as Hne.
    destruct (py_split sep a); [congruence|reflexivity].
Qed.

Lemma py_split_line (sep : N) (s : pystr) : sep ∉ s → py_split sep s = [s].
Proof.
  induction s as [|c s IH]; intros Hs; [reflexivity|]. cbn [py_split].
  apply not_elem_of_cons in Hs as [Hc Hs].
  destruct (N.eqb_spec c sep) as [->|_]; [congruence|]. rewrite (IH Hs). reflexivity.
Qed.

(** A prefix without separator joins the first line. *)
Lemma py_split_prefix (sep : N) (p s : pystr) :
  sep ∉ p →
  ∃ l ls, py_split sep s = l :: ls ∧ py_split sep (p ++ s) = (p ++ l) :: ls.
Proof.
  induction p as [|c p IH]; intros Hp.
  - pose proof (py_split_nonempty sep s) as Hne.
    destruct (py_split sep s) as [|l ls] eqn:Hs; [congruence|]. exists l, ls. auto.
  - apply not_elem_of_cons in Hp as [Hc Hp].
    destruct (IH Hp) as (l & ls & Hs & Hps). exists l, ls. split; [exact Hs|].
    cbn [app py_split]. destruct (N.eqb_spec c sep) as [->|_]; [congruence|].
    rewrite Hps. reflexivity.
Qed.

(** A suffix without separator joins the last line. *)
Lemma py_split_suffix (sep : N) (s p : pystr) :
  sep ∉ p →
  ∃ init last, py_split sep s = init ++ [last] ∧ py_split sep (s ++ p) = init ++ [last ++ p].
Proof.
  intros Hp. induction s as [|c s (init & last & Hs & Hsp)].
  - exists [], []. split; [reflexivity|]. cbn [app]. apply py_split_line. exact Hp.
  - cbn [app py_split]. rewrite Hs, Hsp. destruct (c =? sep)%N.
    + exists ([] :: init), last. split; reflexivity.
    + destruct init as [|i0 init]; cbn [app].
      * exists [], (c :: last). split; reflexivity.
      * exists ((c :: i0) :: init), last. split; reflexivity.
Qed.

(** ** What a bar is not *)

Lemma bar_only_equals (c : N) : c ∈ bar → c = 61%N.
Proof.
  unfold bar. intros H. apply elem_of_replicate in H as [H _]. exact H.
Qed.

Lemma not_bar_with (c : N) (s : pystr) : c ∈ s → c ≠ 61%N → s ≠ bar.
Proof. intros Hc Hne ->. apply Hne, bar_only_equals, Hc. Qed.

Lemma bar_is_a_line : NL ∉ bar.
Proof. intros H. apply bar_only_equals in H. discriminate. Qed.

Lemma literal_line (s : string) : bool_decide (NL ∉ u s) = true → NL ∉ u s.
Proof. apply bool_decide_eq_true_1. Qed.

Lemma header_title_is_a_line (now : pystr) : NL ∉ now → NL ∉ header_title now.
Proof.
  intros Hnow. unfold header_title. apply not_elem_of_app. split; [|exact Hnow].
  apply literal_line. vm_compute. reflexivity.
Qed.

Lemma header_title_not_bar (now : pystr) : header_title now ≠ bar.
Proof.
  apply (not_bar_with 91%N); [|discriminate].
  unfold header_title. apply elem_of_app. left.
  refine (bool_decide_eq_true_1 _ _). vm_compute. reflexivity.
Qed.

Lemma starts_with_app (p s : pystr) : starts_with p (p ++ s) = true.
Proof.
  induction p as [|c p IH]; [reflexivity|]. cbn [app starts_with].
  rewrite N.eqb_refl. exact IH.
Qed.

Lemma header_title_starts (now : pystr) :
  starts_with (u "[USER FEEDBACK] ") (header_title now) = true.
Proof. apply starts_with_app. Qed.

(** ** The header scan *)

Lemma read_headers_unfold (a b c : pystr) (r : list pystr) :
  read_headers (a :: b :: c :: r)
  = if py_eqb a bar && starts_with (u "[USER FEEDBACK] ") b && py_eqb c bar
    then b :: read_headers (b :: c :: r)
    else read_headers (b :: c :: r).
Proof. reflexivity. Qed.

Lemma read_headers_cons_other (a : pystr) (rest : list pystr) :
  a ≠ bar → read_headers (a :: rest) = read_headers rest.
Proof.
  intros Ha. destruct rest as [|b [|c r]]; [reflexivity..|].
  rewrite read_headers_unfold. unfold py_eqb at 1.
  rewrite (bool_decide_eq_false_2 _ Ha). reflexivity.
Qed.

Lemma read_headers_skip (xs ys : list pystr) :
  bar ∉ xs → read_headers (xs ++ ys) = read_headers ys.
Proof.
  induction xs as [|x xs IH]; intros Hxs; [reflexivity|].
  apply not_elem_of_cons in Hxs as [Hx Hxs]. cbn [app].
  rewrite read_headers_cons_other by congruence. apply IH, Hxs.
Qed.

Lemma read_headers_block (t x : pystr) (rest : list pystr) :
  starts_with (u "[USER FEEDBACK] ") t = true →
  t ≠ bar →
  starts_with (u "[USER FEEDBACK] ") x = false →
  read_headers (bar :: t :: bar :: x :: rest) = t :: read_headers (x :: rest).
Proof.
  intros Ht Hnb Hx. rewrite read_headers_unfold. unfold py_eqb.
  rewrite (bool_decide_eq_true_2 _ (eq_refl bar)), Ht. cbn [andb]. f_equal.
  rewrite read_headers_cons_other by exact Hnb.
  destruct rest as [|y r]; [reflexivity|].
  rewrite read_headers_unfold, Hx, andb_false_r. reflexivity.
Qed.

(** ** The lines of one entry *)

Lemma ledger_entry_parts (upper : pystr → pystr) (url bg content ty prove now : pystr) :
  ledger_entry upper url bg content ty prove now
  = NL :: bar ++ NL :: header_title now ++ NL :: bar ++ NL
       :: entry_body upper url bg content ty prove.
Proof.
  unfold ledger_entry, entry_body, header_title.
  repeat rewrite <- app_assoc. reflexivity.
Qed.

(** Lines that differ from a bar at their first or at their last character. *)
Ltac differs_from_bar :=
  let E := fresh "E" in
  intros E;
  first
    [ discriminate E
    | congruence
    | apply (f_equal (take 1)) in E; vm_compute in E; discriminate E
    | apply (f_equal (@rev N)) in E; rewrite rev_app_distr in E;
      apply (f_equal (take 1)) in E; vm_compute in E; discriminate E ].

Ltac no_bar_among :=
  lazymatch goal with
  | |- _ ∉ _ ++ _ => apply not_elem_of_app; split; no_bar_among
  | |- _ ∉ _ :: _ => apply not_elem_of_cons; split; no_bar_among
  | |- _ ∉ [] => apply not_elem_of_nil
  | |- _ ∉ _ => assumption
  | |- _ => differs_from_bar
  end.

(** The lines of the [CONTEXT] part. *)
Lemma context_lines (ctx : option pystr) :
  (∀ c, ctx = Some c → bar_free c) → bar ∉ py_split NL (context_block ctx).
Proof.
  intros Hctx. destruct ctx as [c|]; [|cbn [context_block py_split]; no_bar_among].
  specialize (Hctx c eq_refl). unfold context_block.
  replace (u "CONTEXT:" ++ [NL] ++ c ++ u "..." ++ [NL; NL])
    with (u "CONTEXT:" ++ NL :: (c ++ u "...") ++ NL :: ([] ++ NL :: []))
    by (repeat rewrite <- app_assoc; reflexivity).
  rewrite !py_split_app_sep.
  rewrite (py_split_line NL (u "CONTEXT:")) by (apply literal_line; vm_compute; reflexivity).
  destruct (py_split_suffix NL c (u "...")) as (init & last & Hs & ->);
    [apply literal_line; vm_compute; reflexivity|].
  unfold bar_free in Hctx. rewrite Hs in Hctx. apply not_elem_of_app in Hctx as [Hinit _].
  cbn [py_split].
  no_bar_among.
Qed.

(** No line of a body is a bar, and its first line is not a header title,
    when that holds of its parts. *)
Lemma body_text_lines (url T content prove : pystr) (ctx : option pystr) :
  NL ∉ T → T ≠ bar →
  bar_free url → bar_free content → bar_free prove → (∀ c, ctx = Some c → bar_free c) →
  (bar ∉ py_split NL (body_text url (T ++ [NL]) content prove ctx))
  ∧ ∃ x rest, py_split NL (body_text url (T ++ [NL]) content prove ctx) = x :: rest
              ∧ starts_with (u "[USER FEEDBACK] ") x = false.
Proof.
  intros HTline HTbar Hurl Hcontent Hprove Hbg.
  pose proof (context_lines ctx Hbg) as Hctx.
  unfold body_text.
  set (block := context_block ctx) in *.
  replace ((u "URL: " ++ url ++ [NL; NL]) ++ (T ++ [NL])
           ++ ([NL] ++ u "CLAIM:" ++ [NL] ++ content ++ [NL; NL])
           ++ (u "EVIDENCE/PROOF:" ++ [NL] ++ prove ++ [NL; NL]) ++ block)
    with ((u "URL: " ++ url) ++ NL :: [] ++ NL :: T ++ NL :: [] ++ NL :: u "CLAIM:" ++ NL
          :: content ++ NL :: [] ++ NL :: u "EVIDENCE/PROOF:" ++ NL :: prove ++ NL :: []
          ++ NL :: block)
    by (repeat rewrite <- app_assoc; reflexivity).
  rewrite !py_split_app_sep.
  rewrite (py_split_line NL T) by exact HTline.
  rewrite (py_split_line NL (u "CLAIM:")) by (apply literal_line; vm_compute; reflexivity).
  rewrite (py_split_line NL (u "EVIDENCE/PROOF:"))
    by (apply literal_line; vm_compute; reflexivity).
  destruct (py_split_prefix NL (u "URL: ") url) as (l & ls & Hl & ->);
    [apply literal_line; vm_compute; reflexivity|].
  unfold bar_free in Hurl, Hcontent, Hprove. rewrite Hl in Hurl.
  apply not_elem_of_cons in Hurl as [_ Hls].
  cbn [py_split]. split.
  - cbn [app]. no_bar_among.
  - cbn [app]. eexists _, _. split; [reflexivity|].
    change (u "URL: ") with (85%N :: u "RL: ").
    change (u "[USER FEEDBACK] ") with (91%N :: u "USER FEEDBACK] ").
    reflexivity.
Qed.

Lemma entry_body_as_text (upper : pystr → pystr) (url bg content ty prove : pystr) :
  entry_body upper url bg content ty prove
  = body_text url (type_line upper ty) content prove (cut_context bg).
Proof. unfold entry_body, body_text. destruct bg; reflexivity. Qed.

(** ** The ledger as it is read back *)

Ltac literal_side :=
  first [ refine (bool_decide_eq_true_1 _ _); vm_compute; reflexivity
        | apply bar_is_a_line
        | assumption ].

Lemma bar_has_no_return : CR ∉ bar.
Proof. intros H. apply bar_only_equals in H. discriminate. Qed.

Lemma bar_nonempty : bar ≠ [].
Proof. discriminate. Qed.

(** A text without line ends is read as it is, whatever precedes it. *)
Lemma translate_newlines_literal (st : bool) (p x : pystr) :
  p ≠ [] → CR ∉ p → NL ∉ p →
  translate_newlines st (p ++ x) = p ++ translate_newlines false x.
Proof.
  intros Hne Hcr Hnl. revert st. induction p as [|c p IH]; [congruence|]. intros st.
  apply not_elem_of_cons in Hcr as [Hc1 Hcr]. apply not_elem_of_cons in Hnl as [Hc2 Hnl].
  cbn [app]. rewrite translate_newlines_plain by congruence. f_equal.
  destruct p as [|d p]; [reflexivity|]. apply IH; [discriminate|assumption..].
Qed.

Lemma translate_newlines_line (s : pystr) :
  translate_newlines false (NL :: s) = NL :: translate_newlines false s.
Proof. reflexivity. Qed.

(** A text followed by a newline: the reader sees the text with its line
    ends translated, less the line break that a final [CR] makes with the
    newline; no line is added. *)
Lemma read_field (f rest : pystr) :
  ∃ f', translate_newlines false (f ++ NL :: rest) = f' ++ NL :: translate_newlines false rest
        ∧ (bar_free (universal_newlines f) → bar_free f').
Proof.
  rewrite translate_newlines_app, translate_newlines_NL. unfold cr_state.
  destruct (last f) as [c|] eqn:Hlast.
  - destruct (N.eqb_spec c CR) as [->|Hc].
    + apply last_Some in Hlast as [g ->]. exists (universal_newlines g).
      unfold bar_free, universal_newlines. rewrite translate_newlines_app.
      cbn [translate_newlines]. rewrite N.eqb_refl. split.
      * rewrite <- app_assoc. reflexivity.
      * rewrite py_split_app_sep. intros Hbar. apply not_elem_of_app in Hbar as [H _].
        exact H.
    + exists (universal_newlines f). split; [reflexivity|auto].
  - exists (universal_newlines f). split; [reflexivity|auto].
Qed.

(** The same for a text at the end of the file. *)
Lemma read_before (f x : pystr) :
  x = [] ∨ (∃ y, x = NL :: y) →
  ∃ f', translate_newlines false (f ++ x) = f' ++ translate_newlines false x
        ∧ (bar_free (universal_newlines f) → bar_free f').
Proof.
  intros [->|[y ->]].
  - exists (universal_newlines f). rewrite !app_nil_r. split; [reflexivity|auto].
  - destruct (read_field f y) as (f' & Hf & Hbar). exists f'. split; [exact Hf|exact Hbar].
Qed.

Lemma read_context_block (ctx : option pystr) (tail : pystr) :
  translate_newlines false (context_block ctx ++ tail)
  = context_block (universal_newlines <$> ctx) ++ translate_newlines false tail.
Proof.
  destruct ctx as [c|]; [|reflexivity]. cbn [fmap option_fmap option_map context_block].
  repeat rewrite <- app_assoc. cbn [app].
  rewrite (translate_newlines_literal false (u "CONTEXT:")) by literal_side.
  rewrite translate_newlines_line, translate_newlines_app.
  rewrite (translate_newlines_literal _ (u "...")) by literal_side.
  rewrite !translate_newlines_line. reflexivity.
Qed.

(** The body of an entry as it is read back: the same body around the
    texts as they are read. *)
Lemma read_body (url T content prove : pystr) (ctx : option pystr) (tail : pystr) :
  T ≠ [] → CR ∉ T → NL ∉ T →
  ∃ url' content' prove',
    translate_newlines false (body_text url (T ++ [NL]) content prove ctx ++ tail)
    = body_text url' (T ++ [NL]) content' prove' (universal_newlines <$> ctx)
      ++ translate_newlines false tail
    ∧ (bar_free (universal_newlines url) → bar_free url')
    ∧ (bar_free (universal_newlines content) → bar_free content')
    ∧ (bar_free (universal_newlines prove) → bar_free prove').
Proof.
  intros HT1 HT2 HT3. unfold body_text.
  set (block := context_block ctx). set (block' := context_block (universal_newlines <$> ctx)).
  assert (Hblock : translate_newlines false (block ++ tail)
                   = block' ++ translate_newlines false tail) by apply read_context_block.
  clearbody block block'.
  destruct (read_field url (NL :: T ++ NL :: NL :: u "CLAIM:" ++ NL :: content ++ NL :: NL
                             :: u "EVIDENCE/PROOF:" ++ NL :: prove ++ NL :: NL
                             :: block ++ tail)) as (url' & Hurl & Hurl').
  destruct (read_field content (NL :: u "EVIDENCE/PROOF:" ++ NL :: prove ++ NL :: NL
                                 :: block ++ tail)) as (content' & Hcontent & Hcontent').
  destruct (read_field prove (NL :: block ++ tail)) as (prove' & Hprove & Hprove').
  exists url', content', prove'. split; [|auto].
  repeat rewrite <- app_assoc. cbn [app].
  rewrite (translate_newlines_literal false (u "URL: ")) by literal_side.
  rewrite Hurl, translate_newlines_line.
  rewrite (translate_newlines_literal false T) by assumption.
  rewrite !translate_newlines_line.
  rewrite (translate_newlines_literal false (u "CLAIM:")) by literal_side.
  rewrite translate_newlines_line, Hcontent, translate_newlines_line.
  rewrite (translate_newlines_literal false (u "EVIDENCE/PROOF:")) by literal_side.
  rewrite translate_newlines_line, Hprove, translate_newlines_line, Hblock.
  reflexivity.
Qed.

Lemma type_line_plain (upper : pystr → pystr) (ty : pystr) :
  ty ∈ feedback_types →
  ∃ T, type_line upper ty = T ++ [NL] ∧ T ≠ [] ∧ (CR ∉ T) ∧ (NL ∉ T) ∧ T ≠ bar.
Proof.
  unfold feedback_types. intros Hty.
  repeat (apply elem_of_cons in Hty; destruct Hty as [->|Hty]);
    [| | |apply elem_of_nil in Hty; destruct Hty].
  - exists (u "TYPE: " ++ [10003%N] ++ u " VERIFIED AS TRUE").
    split; [vm_compute; reflexivity|]. split; [literal_side|]. split; [literal_side|].
    split; [literal_side|].
    apply (not_bar_with 84%N); [|discriminate].
    refine (bool_decide_eq_true_1 _ _). vm_compute. reflexivity.
  - exists (u "TYPE: " ++ [9888%N] ++ u " MARKED AS SUSPICIOUS").
    split; [vm_compute; reflexivity|]. split; [literal_side|]. split; [literal_side|].
    split; [literal_side|].
    apply (not_bar_with 84%N); [|discriminate].
    refine (bool_decide_eq_true_1 _ _). vm_compute. reflexivity.
  - exists (u "TYPE: " ++ [10007%N] ++ u " REPORTED AS FAKE").
    split; [vm_compute; reflexivity|]. split; [literal_side|]. split; [literal_side|].
    split; [literal_side|].
    apply (not_bar_with 84%N); [|discriminate].
    refine (bool_decide_eq_true_1 _ _). vm_compute. reflexivity.
Qed.

(** ** The lines of the whole ledger *)

Lemma ledger_lines (X : pystr) (es : list (pystr * pystr)) :
  Forall (fun e => NL ∉ fst e) es →
  py_split NL
    (X ++ concat (map (fun e => NL :: bar ++ NL :: header_title (fst e) ++ NL :: bar ++ NL
                                   :: snd e) es))
  = py_split NL X ++ entry_lines es.
Proof.
  intros Hes. revert X. induction Hes as [|[now body] es Hnow _ IH]; intros X.
  - cbn. rewrite !app_nil_r. reflexivity.
  - cbn [fst] in Hnow.
    cbn [map concat fst snd]. unfold entry_lines. cbn [flat_map fst snd].
    fold (entry_lines es). cbn [app].
    rewrite py_split_app_sep. f_equal.
    rewrite <- !app_assoc. cbn [app].
    rewrite py_split_app_sep, (py_split_line NL bar bar_is_a_line). cbn [app]. f_equal.
    rewrite <- !app_assoc. cbn [app].
    rewrite py_split_app_sep, (py_split_line NL _ (header_title_is_a_line _ Hnow)).
    cbn [app]. f_equal.
    rewrite <- !app_assoc. cbn [app].
    rewrite py_split_app_sep, (py_split_line NL bar bar_is_a_line). cbn [app]. f_equal.
    apply IH.
Qed.

Lemma read_headers_entries (es : list (pystr * pystr)) :
  Forall (fun e => plain_body (snd e)) es →
  read_headers (entry_lines es) = map (fun e => header_title (fst e)) es.
Proof.
  induction 1 as [|[now body] es (Hbar & x & rest & Hx & Hstart) _ IH]; [reflexivity|].
  unfold entry_lines. cbn [flat_map map fst snd] in *. fold (entry_lines es).
  rewrite Hx in *. cbn [app].
  rewrite read_headers_block;
    [|apply header_title_starts|apply header_title_not_bar|exact Hstart].
  f_equal. change (x :: rest ++ entry_lines es) with ((x :: rest) ++ entry_lines es).
  rewrite read_headers_skip by exact Hbar. exact IH.
Qed.

(** ** N submissions in a row *)

Lemma submit_all_cons (env : Env) (data : gmap pystr pystr) (rest : list (gmap pystr pystr))
  (w : World) :
  submit_all env (data :: rest) w =
  match submit_feedback env data w with
  | (Ok r, w1) =>
      match submit_all env rest w1 with
      | (Ok rs, w2) => (Ok (r :: rs), w2)
      | (Raise e, w2) => (Raise e, w2)
      end
  | (Raise e, w1) => (Raise e, w1)
  end.
Proof.
  cbn [submit_all]. unfold bind, ret.
  destruct (submit_feedback env data w) as [[r|e] w1]; [|reflexivity].
  destruct (submit_all env rest w1) as [[rs|e] w2]; reflexivity.
Qed.

(** An accepted submission passed the checks and appended its whole entry. *)
Lemma submit_feedback_accepted (env : Env) (data : gmap pystr pystr) (w w' : World)
  (r : Response) :
  submit_feedback env data w = (Ok r, w') →
  success r = true →
  well_formed_submission data
  ∧ ∃ now, (∃ tr, now = now_iso env tr)
           ∧ ledger w' = Some (ledger_text w ++ entry_of env data now).
Proof.
  intros Hrun Hs.
  split; [eapply accepted_is_well_formed; eauto|].
  rewrite submit_feedback_run in Hrun.
  destruct (negb _); [injection Hrun as <- <-; discriminate|].
  destruct (_ <? 10); [injection Hrun as <- <-; discriminate|].
  destruct (_ <? 10); [injection Hrun as <- <-; discriminate|].
  destruct (save_user_feedback env _ _ _ _ _ w) as [[[]|e] w1] eqn:Hsave;
    [|injection Hrun as <- <-; discriminate].
  injection Hrun as _ <-. apply save_user_feedback_accepted in Hsave. exact Hsave.
Qed.

Lemma submit_all_accepted (env : Env) (subs : list (gmap pystr pystr)) :
  ∀ (w w' : World) (L : pystr) (responses : list Response),
    ledger w = Some L →
    submit_all env subs w = (Ok responses, w') →
    Forall (fun r => success r = true) responses →
    Forall well_formed_submission subs
    ∧ ∃ nows, length nows = length subs
              ∧ Forall (fun now => ∃ tr, now = now_iso env tr) nows
              ∧ ledger w' = Some (L ++ concat (zip_with (entry_of env) subs nows)).
Proof.
  induction subs as [|data rest IH]; intros w w' L responses HL Hrun Hs.
  - injection Hrun as _ <-. split; [constructor|]. exists []. rewrite app_nil_r. auto.
  - rewrite submit_all_cons in Hrun.
    destruct (submit_feedback env data w) as [[r|e] w1] eqn:Hone; [|discriminate].
    destruct (submit_all env rest w1) as [[rs|e] w2] eqn:Hrest; [|discriminate].
    injection Hrun as <- <-. apply Forall_cons in Hs as [Hr Hrs].
    destruct (submit_feedback_accepted env data w w1 r Hone Hr)
      as (Hwf & now & Hnow & HL1).
    unfold ledger_text in HL1. rewrite HL in HL1. cbn [default] in HL1.
    destruct (IH w1 w2 _ rs HL1 Hrest Hrs) as (Hwfs & nows & Hlen & Hnows & HL2).
    split; [constructor; assumption|].
    exists (now :: nows). split; [cbn; lia|]. split; [constructor; assumption|].
    rewrite HL2. cbn [zip_with concat]. rewrite <- app_assoc. reflexivity.
Qed.

Lemma submit_all_returns (env : Env) (subs : list (gmap pystr pystr)) (w : World) :
  ∃ responses w', submit_all env subs w = (Ok responses, w').
Proof.
  revert w. induction subs as [|data rest IH]; intros w; [do 2 eexists; reflexivity|].
  rewrite submit_all_cons.
  destruct (submit_feedback_returns env data w) as (r & w1 & ->).
  destruct (IH w1) as (rs & w2 & ->). do 2 eexists. reflexivity.
Qed.

Lemma entry_of_parts (env : Env) (data : gmap pystr pystr) (now : pystr) :
  entry_of env data now
  = NL :: bar ++ NL :: header_title now ++ NL :: bar ++ NL :: body_of env data.
Proof. unfold entry_of, body_of. apply ledger_entry_parts. Qed.

Lemma entry_starts_with_header (env : Env) (data : gmap pystr pystr) (now : pystr) :
  entry_header now `prefix_of` entry_of env data now.
Proof.
  exists (body_of env data). rewrite entry_of_parts. unfold entry_header.
  repeat rewrite <- app_assoc. reflexivity.
Qed.

Lemma header_title_plain (now : pystr) :
  CR ∉ now → NL ∉ now →
  header_title now ≠ [] ∧ (CR ∉ header_title now) ∧ (NL ∉ header_title now).
Proof.
  intros Hcr Hnl. unfold header_title. split; [|split].
  - intros H. apply (f_equal length) in H. rewrite length_app in H.
    change (length (u "[USER FEEDBACK] ")) with 16 in H. cbn in H. lia.
  - apply not_elem_of_app. split; [literal_side|exact Hcr].
  - apply not_elem_of_app. split; [literal_side|exact Hnl].
Qed.

(** One entry as it is read back: its header as it was written, then a body
    that holds no bar. *)
Lemma read_entry (env : Env) (data : gmap pystr pystr) (now tail : pystr) :
  well_formed_submission data → plain_submission data → CR ∉ now → NL ∉ now →
  ∃ body,
    translate_newlines false (entry_of env data now ++ tail)
    = framed (now, body) ++ translate_newlines false tail
    ∧ plain_body body.
Proof.
  intros (Hty & _ & _) (Hurl & Hcontent & Hprove & Hbg) Hcr Hnl.
  destruct (type_line_plain (py_upper env) _ Hty) as (T & HT & HT1 & HT2 & HT3 & HT4).
  destruct (header_title_plain now Hcr Hnl) as (Hh1 & Hh2 & Hh3).
  rewrite entry_of_parts. unfold body_of. rewrite entry_body_as_text, HT.
  set (ctx := cut_context (get_field data "content_background")).
  destruct (read_body (get_field data "url") T (get_field data "feedback_content")
              (get_field data "feedback_prove") ctx tail HT1 HT2 HT3)
    as (url' & content' & prove' & Hbody & Hu & Hc & Hp).
  exists (body_text url' (T ++ [NL]) content' prove' (universal_newlines <$> ctx)). split.
  - unfold framed. cbn [fst snd].
    set (body := body_text _ _ _ _ ctx) in *. set (body' := body_text url' _ _ _ _) in *.
    clearbody body body'.
    repeat (rewrite <- app_assoc || rewrite <- app_comm_cons).
    rewrite translate_newlines_line.
    rewrite (translate_newlines_literal false bar)
      by (first [apply bar_nonempty|apply bar_has_no_return|apply bar_is_a_line]).
    rewrite translate_newlines_line.
    rewrite (translate_newlines_literal false (header_title now)) by assumption.
    rewrite translate_newlines_line.
    rewrite (translate_newlines_literal false bar)
      by (first [apply bar_nonempty|apply bar_has_no_return|apply bar_is_a_line]).
    rewrite translate_newlines_line, Hbody. reflexivity.
  - apply body_text_lines; auto.
    intros c Hc'. unfold ctx, cut_context in Hc'.
    destruct (get_field data "content_background"); [discriminate|].
    injection Hc' as <-. exact Hbg.
Qed.

(** The first character of a run of entries is a newline. *)
Lemma entries_start_with_newline (env : Env) (subs : list (gmap pystr pystr))
  (nows : list pystr) :
  concat (zip_with (entry_of env) subs nows) = []
  ∨ ∃ y, concat (zip_with (entry_of env) subs nows) = NL :: y.
Proof.
  destruct subs as [|data rest]; [left; reflexivity|].
  destruct nows as [|now nows]; [left; reflexivity|].
  right. cbn [zip_with concat]. rewrite entry_of_parts. eexists. reflexivity.
Qed.

(** The entries of a run of plain, well-formed submissions as they are read
    back, as pairs of a clock reading and a body. *)
Lemma read_entries (env : Env) (subs : list (gmap pystr pystr)) :
  ∀ nows,
    length nows = length subs →
    Forall well_formed_submission subs →
    Forall plain_submission subs →
    Forall (fun now => (CR ∉ now) ∧ (NL ∉ now)) nows →
    ∃ es,
      translate_newlines false (concat (zip_with (entry_of env) subs nows))
      = concat (map framed es)
      ∧ Forall (fun e => NL ∉ fst e) es
      ∧ Forall (fun e => plain_body (snd e)) es
      ∧ map (fun e => header_title (fst e)) es = map header_title nows.
Proof.
  induction subs as [|data rest IH]; intros nows Hlen Hwf Hplain Hnows.
  - exists []. destruct nows; [|discriminate]. repeat split; constructor.
  - destruct nows as [|now nows]; [discriminate|].
    apply Forall_cons in Hwf as [Hwf1 Hwf].
    apply Forall_cons in Hplain as [Hplain1 Hplain].
    apply Forall_cons in Hnows as [[Hcr Hnl] Hnows].
    destruct (IH nows) as (es & Hread & Hlines & Hbodies & Htitles);
      [cbn in Hlen; lia|assumption..|].
    cbn [zip_with concat].
    destruct (read_entry env data now (concat (zip_with (entry_of env) rest nows))
                Hwf1 Hplain1 Hcr Hnl) as (body & Hentry & Hbody).
    exists ((now, body) :: es). rewrite Hentry, Hread. cbn [map concat fst snd].
    rewrite Htitles. split; [reflexivity|]. split; [constructor; assumption|].
    split; [constructor; assumption|reflexivity].
Qed.

(** ** The ledger after N accepted submissions *)

(** The claim C8 fails as stated: one accepted submission whose evidence
    carries the text of a header leaves the ledger with exactly the text that
    two accepted submissions leave, so what is read back is the same and no
    reader whatever can return one record after the first run and two after
    the second; the header scan reads two records after the single
    submission. So it does when the lines of the forged header end with
    carriage returns. *)
Lemma ledger_boundaries_can_be_forged :
  fst (submit_all two_tick_env [forged_feedback] fresh_world) = Ok [accepted]
  ∧ fst (submit_all two_tick_env [honest_feedback; second_feedback] fresh_world)
    = Ok [accepted; accepted]
  ∧ fst (read_ledger (snd (submit_all two_tick_env [forged_feedback] fresh_world)))
    = fst (read_ledger (snd (submit_all two_tick_env [honest_feedback; second_feedback]
                               fresh_world)))
  ∧ (∃ text,
        fst (read_ledger (snd (submit_all two_tick_env [forged_feedback] fresh_world)))
        = Ok text
        ∧ length (ledger_headers text) = 2)
  ∧ (¬ ∃ count_records : outcome pystr → nat,
         count_records
           (fst (read_ledger (snd (submit_all two_tick_env [forged_feedback] fresh_world))))
         = 1
         ∧ count_records
             (fst (read_ledger (snd (submit_all two_tick_env
                                       [honest_feedback; second_feedback] fresh_world))))
           = 2)
  ∧ fst (submit_all two_tick_env [cr_forged_feedback] fresh_world) = Ok [accepted]
  ∧ (∃ text,
        fst (read_ledger (snd (submit_all two_tick_env [cr_forged_feedback] fresh_world)))
        = Ok text
        ∧ length (ledger_headers text) = 2).
Proof.
  assert (Hsame :
    fst (read_ledger (snd (submit_all two_tick_env [forged_feedback] fresh_world)))
    = fst (read_ledger (snd (submit_all two_tick_env [honest_feedback; second_feedback]
                               fresh_world))))
    by (vm_compute; reflexivity).
  split; [vm_compute; reflexivity|].
  split; [vm_compute; reflexivity|].
  split; [exact Hsame|].
  split; [eexists; split; [vm_compute; reflexivity|vm_compute; reflexivity]|].
  split; [intros (count_records & H1 & H2); rewrite Hsame in H1; congruence|].
  split; [vm_compute; reflexivity|].
  eexists; split; [vm_compute; reflexivity|vm_compute; reflexivity].
Qed.

(** C8, as the code has it. After [N] feedback submissions in a row that
    were all accepted, the ledger is its previous text followed by the [N]
    entries in the order of the submissions, each entry starting with the
    fixed header (a blank line, a bar of 80 [=], the [[USER FEEDBACK]] line
    with the clock reading, a bar); no footer is written and the submitted
    texts are not escaped. What is read back is that text with its line ends
    translated, and it begins with what was read before. When no line of the
    previous text or of a submitted text, as they are read back, is a bar and
    the clock readings hold no line end, the header scan of the text read
    back finds exactly the [N] header titles in write order. *)
Theorem ledger_keeps_entries_in_write_order
  (env : Env) (subs : list (gmap pystr pystr)) (w w' : World) (L : pystr)
  (responses : list Response) :
  ledger w = Some L →
  submit_all env subs w = (Ok responses, w') →
  Forall (fun r => success r = true) responses →
  ∃ nows,
    length nows = length subs
    ∧ Forall (fun now => ∃ tr, now = now_iso env tr) nows
    ∧ ledger w' = Some (L ++ concat (zip_with (entry_of env) subs nows))
    ∧ fst (read_ledger w')
      = Ok (universal_newlines (L ++ concat (zip_with (entry_of env) subs nows)))
    ∧ universal_newlines L
        `prefix_of` universal_newlines (L ++ concat (zip_with (entry_of env) subs nows))
    ∧ Forall2 (fun data now => entry_header now `prefix_of` entry_of env data now) subs nows
    ∧ (bar_free (universal_newlines L) →
       Forall plain_submission subs →
       (∀ tr, (CR ∉ now_iso env tr) ∧ (NL ∉ now_iso env tr)) →
       ledger_headers (universal_newlines (L ++ concat (zip_with (entry_of env) subs nows)))
       = map header_title nows).
Proof.
  intros HL Hrun Hs.
  destruct (submit_all_accepted env subs w w' L responses HL Hrun Hs)
    as (Hwf & nows & Hlen & Hnows & Hledger).
  exists nows. split; [exact Hlen|]. split; [exact Hnows|]. split; [exact Hledger|].
  split; [unfold read_ledger; rewrite Hledger; reflexivity|].
  split; [rewrite universal_newlines_app; apply prefix_app_r; reflexivity|].
  split.
  - apply Forall2_true; [intros; apply entry_starts_with_header|congruence].
  - intros HbarL Hplain Hclock.
    assert (Hlines : Forall (fun now => (CR ∉ now) ∧ (NL ∉ now)) nows).
    { eapply Forall_impl; [exact Hnows|]. intros now [tr ->]. apply Hclock. }
    destruct (read_entries env subs nows Hlen Hwf Hplain Hlines)
      as (es & Hread & Hes & Hbodies & Htitles).
    destruct (read_before L (concat (zip_with (entry_of env) subs nows))
                (entries_start_with_newline env subs nows)) as (L' & HL' & HbarL').
    unfold ledger_headers, universal_newlines. rewrite HL', Hread.
    change (map framed es)
      with (map (fun e => NL :: bar ++ NL :: header_title (fst e) ++ NL :: bar ++ NL :: snd e)
              es).
    rewrite (ledger_lines L' es Hes).
    rewrite read_headers_skip by (apply HbarL', HbarL).
    rewrite (read_headers_entries es Hbodies). exact Htitles.
Qed.

Lemma ledger_write_order_witness :
  ∃ nows,
    length nows = 2
    ∧ ledger (snd (submit_all two_tick_env [honest_feedback; second_feedback] fresh_world))
      = Some (user_feedback_header
              ++ concat (zip_with (entry_of two_tick_env) [honest_feedback; second_feedback]
                           nows))
    ∧ ledger_headers
        (universal_newlines
           (user_feedback_header
            ++ concat (zip_with (entry_of two_tick_env) [honest_feedback; second_feedback]
                         nows)))
      = map header_title nows.
Proof.
  destruct (ledger_keeps_entries_in_write_order two_tick_env
              [honest_feedback; second_feedback] fresh_world
              (snd (submit_all two_tick_env [honest_feedback; second_feedback] fresh_world))
              user_feedback_header [accepted; accepted])
    as (nows & Hlen & _ & Hledger & _ & _ & _ & Hscan).
  - reflexivity.
  - vm_compute. reflexivity.
  - repeat constructor.
  - exists nows. split; [exact Hlen|]. split; [exact Hledger|]. apply Hscan.
    + refine (bool_decide_eq_true_1 _ _). vm_compute. reflexivity.
    + repeat constructor; refine (bool_decide_eq_true_1 _ _); vm_compute; reflexivity.
    + intros tr. cbn [now_iso two_tick_env].
      destruct (length tr <? 4); split; refine (bool_decide_eq_true_1 _ _); vm_compute;
        reflexivity.
Defined.

(** * More properties of the two files *)

(** ** Occurrences and lines *)

Lemma starts_with_split (p s : pystr) : starts_with p s = true → s = p ++ drop (length p) s.
Proof.
  revert s. induction p as [|a p IH]; intros s H; [reflexivity|].
  destruct s as [|b s]; [discriminate|]. cbn [starts_with] in H.
  apply andb_true_iff in H as [Hab Hp]. apply N.eqb_eq in Hab as ->.
  cbn. f_equal. apply IH, Hp.
Qed.

Lemma py_in_infix (sub a b : pystr) : py_in sub (a ++ sub ++ b) = true.
Proof.
  induction a as [|c a IH].
  - destruct (sub ++ b) eqn:E; cbn [app py_in]; rewrite <- E, starts_with_app; reflexivity.
  - cbn [app py_in]. rewrite IH. apply orb_true_r.
Qed.

Lemma py_split_head_prefix (sep : N) (s l : pystr) (ls : list pystr) :
  py_split sep s = l :: ls → ∃ b, s = l ++ b.
Proof.
  revert l ls. induction s as [|c s IH]; intros l ls H.
  - injection H as <- <-. exists []. reflexivity.
  - cbn [py_split] in H. destruct (c =? sep)%N.
    + injection H as <- <-. eexists. reflexivity.
    + destruct (py_split sep s) as [|l0 ls0] eqn:E; injection H as <- <-.
      * exists s. reflexivity.
      * destruct (IH l0 ls0 eq_refl) as [b ->]. exists b. reflexivity.
Qed.

Lemma py_split_elem_infix (sep : N) (s l : pystr) :
  l ∈ py_split sep s → ∃ a b, s = a ++ l ++ b.
Proof.
  revert l. induction s as [|c s IH]; intros l H.
  - apply list_elem_of_singleton in H as ->. exists [], []. reflexivity.
  - cbn [py_split] in H. destruct (c =? sep)%N.
    + apply elem_of_cons in H as [->|H]; [exists [], (c :: s); reflexivity|].
      destruct (IH l H) as (a & b & ->). exists (c :: a), b. reflexivity.
    + destruct (py_split sep s) as [|l0 ls0] eqn:E.
      * apply list_elem_of_singleton in H as ->. exists [], s. reflexivity.
      * apply elem_of_cons in H as [->|H].
        -- destruct (py_split_head_prefix sep s l0 ls0 E) as [b ->].
           exists [], b. reflexivity.
        -- destruct (IH l) as (a & b & ->); [apply elem_of_cons; right; exact H|].
           exists (c :: a), b. reflexivity.
Qed.

(** A text in which [sub] does not occur has no line that starts with it. *)
Lemma no_occurrence_no_line (sub s l : pystr) :
  py_in sub s = false → l ∈ py_split NL s → starts_with sub l = false.
Proof.
  intros Hno Hl. destruct (starts_with sub l) eqn:Hs; [|reflexivity].
  destruct (py_split_elem_infix NL s l Hl) as (a & b & ->).
  rewrite (starts_with_split sub l Hs), <- app_assoc, py_in_infix in Hno. discriminate.
Qed.

Lemma py_join_cons_app (sep a b : pystr) (rest : list pystr) :
  py_join sep ((a ++ b) :: rest) = a ++ py_join sep (b :: rest).
Proof. destruct rest; cbn [py_join]; [reflexivity|]. rewrite <- app_assoc. reflexivity. Qed.

Lemma py_replace1_unfold (old new s : pystr) :
  py_replace1 old new s
  = if starts_with old s then new ++ drop (length old) s
    else match s with
         | [] => []
         | c :: s' => c :: py_replace1 old new s'
         end.
Proof. destruct s; reflexivity. Qed.

Lemma py_replace1_prefix (old x : pystr) : py_replace1 old [] (old ++ x) = x.
Proof.
  rewrite py_replace1_unfold, starts_with_app. cbn [app]. apply drop_app_length.
Qed.

(** ** The loop over the reply *)

Lemma verdict_line_is_no_message_line (line : pystr) :
  starts_with (u "VERDICT:") line = true → starts_with (u "MESSAGE:") line = false.
Proof.
  change (u "VERDICT:") with (86%N :: u "ERDICT:").
  change (u "MESSAGE:") with (77%N :: u "ESSAGE:").
  destruct line as [|c line]; [discriminate|]. cbn [starts_with].
  intros H. apply andb_true_iff in H as [H _]. apply N.eqb_eq in H as <-. reflexivity.
Qed.

Lemma default_last_cons {A} (f v : A) (xs : list A) :
  default f (last (v :: xs)) = default v (last xs).
Proof. rewrite last_cons. destruct (last xs); reflexivity. Qed.

(** The label after the loop: the last label offered before the first
    [MESSAGE:] line, the initial one when none is. *)
Lemma parse_reply_last_offered (lines : list pystr) (final d : pystr) :
  fst (parse_reply lines final d)
  = default final (last (offered_verdicts (before_message lines))).
Proof.
  revert final d. induction lines as [|line rest IH]; intros final d; [reflexivity|].
  cbn [parse_reply before_message].
  destruct (starts_with (u "VERDICT:") line) eqn:Hv.
  - rewrite (verdict_line_is_no_message_line line Hv).
    unfold offered_verdicts. cbn [omap list_omap]. rewrite Hv.
    fold (offered_verdicts (before_message rest)).
    destruct (py_mem _ valid_verdicts).
    + rewrite IH, default_last_cons. reflexivity.
    + apply IH.
  - destruct (starts_with (u "MESSAGE:") line); [reflexivity|].
    unfold offered_verdicts. cbn [omap list_omap]. rewrite Hv.
    fold (offered_verdicts (before_message rest)). apply IH.
Qed.

Lemma parse_reply_no_verdict (lines : list pystr) (final d : pystr) :
  Forall (fun line => starts_with (u "VERDICT:") line = false) lines →
  fst (parse_reply lines final d) = final.
Proof.
  induction 1 as [|line rest Hline _ IH]; [reflexivity|].
  cbn [parse_reply]. rewrite Hline.
  destruct (starts_with (u "MESSAGE:") line); [reflexivity|exact IH].
Qed.

(** The details after the loop, when a [MESSAGE:] line is there: what
    follows [MESSAGE:] up to the end of the reply. *)
Lemma parse_reply_message (pre post : list pystr) (m final d : pystr) :
  Forall (fun line => starts_with (u "MESSAGE:") line = false) pre →
  snd (parse_reply (pre ++ (u "MESSAGE:" ++ m) :: post) final d)
  = py_strip (py_join [NL] (m :: post)).
Proof.
  intros Hpre. revert final. induction Hpre as [|line rest Hline _ IH]; intros final.
  - cbn [app parse_reply].
    assert (Hv : starts_with (u "VERDICT:") (u "MESSAGE:" ++ m) = false) by reflexivity.
    rewrite Hv, starts_with_app. cbn [snd].
    rewrite py_join_cons_app, py_replace1_prefix. reflexivity.
  - cbn [app parse_reply]. rewrite Hline.
    destruct (starts_with (u "VERDICT:") line); [destruct (py_mem _ _)|]; apply IH.
Qed.

(** ** What the conversion step reads from a reply *)

Lemma convert_on_reply (env : Env) (cr : Verdict) (n : nat) (url : pystr) (w : World)
  (response : gmap pystr pystr) (r : pystr) :
  conversion_answer env cr = Ok response →
  response !! u "result" = Some r →
  convert_court_result_to_user_format env cr n url w
  = (Ok (mkVerdict
           (fst (parse_reply (reply_lines r) (confidence cr) (py_strip r)))
           (if py_eqb (fst (parse_reply (reply_lines r) (confidence cr) (py_strip r)))
                 (confidence cr)
               && negb (py_in (u "VERDICT:") (py_strip r))
            then py_strip r
            else snd (parse_reply (reply_lines r) (confidence cr) (py_strip r)))),
     asked env cr w).
Proof.
  intros Hans Hr. unfold convert_court_result_to_user_format, try_except.
  rewrite convert_attempt_run, Hans, Hr. reflexivity.
Qed.

(** X1. When the conversion oracle answers, the label returned is the last
    of the well-formed [VERDICT:] labels that stand before the first
    [MESSAGE:] line of the reply, and the court's own label when there is
    none: earlier verdict lines are overridden by later ones, and a verdict
    line after the message is never read. *)
Theorem convert_label_is_last_offered_before_message
  (env : Env) (court_result : Verdict) (fact_count : nat) (url : pystr) (w : World)
  (response : gmap pystr pystr) (r : pystr) :
  conversion_answer env court_result = Ok response →
  response !! u "result" = Some r →
  ∃ v,
    convert_court_result_to_user_format env court_result fact_count url w
    = (Ok v, asked env court_result w)
    ∧ confidence v
      = default (confidence court_result)
          (last (offered_verdicts (before_message (reply_lines r)))).
Proof.
  intros Hans Hr. eexists. split; [apply (convert_on_reply _ _ _ _ _ _ _ Hans Hr)|].
  cbn [confidence]. apply parse_reply_last_offered.
Qed.

Lemma convert_label_witness :
  ∃ v,
    convert_court_result_to_user_format (sample_env (u "suspicious") (Ok (reply wavering_reply)))
      (mkVerdict (u "SUSPICIOUS") (u "Jury Votes:")) 1 [] fresh_world
    = (Ok v, asked (sample_env (u "suspicious") (Ok (reply wavering_reply)))
               (mkVerdict (u "SUSPICIOUS") (u "Jury Votes:")) fresh_world)
    ∧ confidence v = u "CLEAN".
Proof.
  destruct (convert_label_is_last_offered_before_message
              (sample_env (u "suspicious") (Ok (reply wavering_reply)))
              (mkVerdict (u "SUSPICIOUS") (u "Jury Votes:")) 1 [] fresh_world
              (reply wavering_reply) wavering_reply eq_refl)
    as (v & Hrun & Hv).
  - unfold reply. apply lookup_insert_eq.
  - exists v. split; [exact Hrun|]. rewrite Hv. vm_compute. reflexivity.
Defined.

(** X2. A reply in which the text [VERDICT:] does not occur is handed on
    whole: the label is the court's and the details are the stripped reply,
    a [MESSAGE:] prefix included. *)
Theorem reply_without_verdict_is_passed_through
  (env : Env) (court_result : Verdict) (fact_count : nat) (url : pystr) (w : World)
  (response : gmap pystr pystr) (r : pystr) :
  conversion_answer env court_result = Ok response →
  response !! u "result" = Some r →
  py_in (u "VERDICT:") (py_strip r) = false →
  convert_court_result_to_user_format env court_result fact_count url w
  = (Ok (mkVerdict (confidence court_result) (py_strip r)), asked env court_result w).
Proof.
  intros Hans Hr Hno. rewrite (convert_on_reply _ _ _ _ _ _ _ Hans Hr).
  rewrite parse_reply_no_verdict.
  - unfold py_eqb. rewrite (bool_decide_eq_true_2 _ eq_refl), Hno. reflexivity.
  - apply Forall_forall. intros line Hline.
    eapply no_occurrence_no_line; [exact Hno|exact Hline].
Qed.

Lemma reply_without_verdict_witness :
  convert_court_result_to_user_format (sample_env (u "refuted") (Ok (reply free_reply)))
    (mkVerdict (u "FAKE") (u "Jury Votes:")) 1 [] fresh_world
  = (Ok (mkVerdict (u "FAKE") (u "MESSAGE: all claims check out")),
     asked (sample_env (u "refuted") (Ok (reply free_reply)))
       (mkVerdict (u "FAKE") (u "Jury Votes:")) fresh_world).
Proof.
  assert (Hstrip : py_strip free_reply = u "MESSAGE: all claims check out")
    by (vm_compute; reflexivity).
  rewrite <- Hstrip.
  apply (reply_without_verdict_is_passed_through
           (sample_env (u "refuted") (Ok (reply free_reply)))
           (mkVerdict (u "FAKE") (u "Jury Votes:")) 1 [] fresh_world (reply free_reply)).
  - reflexivity.
  - unfold reply. apply lookup_insert_eq.
  - vm_compute. reflexivity.
Defined.

(** X3. When [VERDICT:] occurs in the reply, the details returned are what
    follows the first line-leading [MESSAGE:] up to the end of the reply,
    stripped of surrounding whitespace. *)
Theorem message_text_becomes_details
  (env : Env) (court_result : Verdict) (fact_count : nat) (url : pystr) (w : World)
  (response : gmap pystr pystr) (r m : pystr) (pre post : list pystr) :
  conversion_answer env court_result = Ok response →
  response !! u "result" = Some r →
  py_in (u "VERDICT:") (py_strip r) = true →
  reply_lines r = pre ++ (u "MESSAGE:" ++ m) :: post →
  Forall (fun line => starts_with (u "MESSAGE:") line = false) pre →
  ∃ v,
    convert_court_result_to_user_format env court_result fact_count url w
    = (Ok v, asked env court_result w)
    ∧ details v = py_strip (py_join [NL] (m :: post)).
Proof.
  intros Hans Hr Hin Hlines Hpre. eexists.
  split; [apply (convert_on_reply _ _ _ _ _ _ _ Hans Hr)|].
  cbn [details]. rewrite Hin, andb_false_r, Hlines. apply parse_reply_message, Hpre.
Qed.

Lemma message_text_witness :
  ∃ v,
    convert_court_result_to_user_format (sample_env (u "suspicious") (Ok (reply wavering_reply)))
      (mkVerdict (u "SUSPICIOUS") (u "Jury Votes:")) 1 [] fresh_world
    = (Ok v, asked (sample_env (u "suspicious") (Ok (reply wavering_reply)))
               (mkVerdict (u "SUSPICIOUS") (u "Jury Votes:")) fresh_world)
    ∧ details v = u "Looks fine." ++ [NL] ++ u "VERDICT: FAKE".
Proof.
  destruct (message_text_becomes_details
              (sample_env (u "suspicious") (Ok (reply wavering_reply)))
              (mkVerdict (u "SUSPICIOUS") (u "Jury Votes:")) 1 [] fresh_world
              (reply wavering_reply) wavering_reply (u " Looks fine.")
              [u "VERDICT: FAKE"; u "VERDICT: CLEAN"] [u "VERDICT: FAKE"] eq_refl)
    as (v & Hrun & Hv).
  - unfold reply. apply lookup_insert_eq.
  - vm_compute. reflexivity.
  - vm_compute. reflexivity.
  - repeat constructor.
  - exists v. split; [exact Hrun|]. rewrite Hv. vm_compute. reflexivity.
Defined.

(** ** The label and the details of [verify_text] *)



Lemma py_join_head (sep x : pystr) (rest : list pystr) :
  ∃ tail, py_join sep (x :: rest) = x ++ tail.
Proof.
  destruct rest; cbn [py_join]; [exists []; rewrite app_nil_r|eexists]; reflexivity.
Qed.

Lemma py_join_first_line (sep x : pystr) (rest : list pystr) :
  x ≠ [] →
  ∃ c tail, py_join sep (x :: rest) = c :: tail ∧ x `prefix_of` (c :: tail).
Proof.
  intros Hx. destruct (py_join_head sep x rest) as [tail Htail]. rewrite Htail.
  destruct x as [|c x]; [congruence|]. exists c, (x ++ tail). split; [reflexivity|].
  exists tail. reflexivity.
Qed.

Lemma py_join_elem_infix (sep l : pystr) (ls : list pystr) :
  l ∈ ls → ∃ pre post, py_join sep ls = pre ++ l ++ post.
Proof.
  induction ls as [|x ls IH]; intros H; [apply elem_of_nil in H; destruct H|].
  apply elem_of_cons in H as [->|H].
  - destruct (py_join_head sep x ls) as [tail ->]. exists [], tail. reflexivity.
  - destruct (IH H) as (pre & post & Hj). destruct ls as [|y ls]; [apply elem_of_nil in H; destruct H|].
    cbn [py_join] in *. rewrite Hj. exists (x ++ sep ++ pre), post.
    rewrite <- !app_assoc. reflexivity.
Qed.

(** X5. The details text of [verify_text] always begins with an icon and
    the overall verdict (so it is never empty and the fixed replacement text
    for empty details is never used), and it names every juror's vote. *)
Theorem details_report_is_complete (mapped_verdict : pystr) (res : ClaimResult) :
  (∃ icon, icon ∈ [icon_clean; icon_fake; icon_warn]
           ∧ (icon ++ u " Overall Verdict: " ++ mapped_verdict)
               `prefix_of` details_str mapped_verdict res)
  ∧ (∀ vote, vote ∈ jury_votes res →
             ∃ pre post,
               details_str mapped_verdict res
               = pre ++ (jury_name vote ++ u ": " ++ decision vote) ++ post).
Proof.
  unfold details_str. cbn [app].
  match goal with |- context [py_join [NL] (?x :: ?rest)] =>
    set (first_line := x); set (others := rest)
  end.
  destruct (py_join_first_line [NL] first_line others) as (c & tail & Hj & Hprefix).
  { unfold first_line. destruct (py_eqb _ _); [discriminate|].
    destruct (py_eqb _ _); discriminate. }
  rewrite Hj. split.
  - eexists. split; [|exact Hprefix].
    destruct (py_eqb _ _); [set_solver|]. destruct (py_eqb _ _); set_solver.
  - intros vote Hvote. rewrite <- Hj.
    set (vote_icon := if py_eqb (decision vote) (u "no_objection")
                      then icon_clean else icon_warn).
    set (indent := u "  "). set (blank := u " ").
    set (named := jury_name vote ++ u ": " ++ decision vote).
    destruct (py_join_elem_infix [NL] (indent ++ vote_icon ++ blank ++ named)
                (first_line :: others))
      as (pre & post & ->).
    + apply elem_of_cons. right. unfold others. apply elem_of_cons. right.
      apply elem_of_app. right. apply elem_of_cons. right.
      apply list_elem_of_In, in_flat_map.
      exists vote. split; [apply list_elem_of_In, Hvote|]. left. reflexivity.
    + exists (pre ++ indent ++ vote_icon ++ blank), post.
      clearbody vote_icon indent blank named. rewrite <- !app_assoc. reflexivity.
Qed.

(** ** When no check takes place *)

(** X6. With the ledger file missing, [build_court] raises before any
    hearing: for a non-empty list of facts [call_factcheck_service] then
    returns the fallback report labelled [CLEAN], and neither the court nor
    the LLM proxy was asked anything. *)
Theorem missing_ledger_reports_clean_without_hearing
  (env : Env) (facts : list pystr) (url : pystr) (w : World) :
  ledger w = None →
  facts ≠ [] →
  disk_ok env (trace w) = true →
  call_factcheck_service env facts url w
  = (Ok (mkVerdict (u "CLEAN") (fallback_details (length facts))),
     mkWorld None (trace w ++ [EvWriteFile (u "fact_list"); EvReadLedger]))
  ∧ oracle_queries [EvWriteFile (u "fact_list"); EvReadLedger] = [].
Proof.
  intros HL Hfacts Hdisk. split; [|reflexivity].
  rewrite call_factcheck_service_run, Hdisk. destruct facts as [|f fs]; [congruence|].
  rewrite verify_text_run. cbn [logged ledger trace]. rewrite HL, <- app_assoc. reflexivity.
Qed.

Lemma missing_ledger_witness :
  call_factcheck_service (sample_env (u "refuted") (verdict_reply "FAKE")) one_fact []
    missing_ledger_world
  = (Ok (mkVerdict (u "CLEAN") (fallback_details 1)),
     mkWorld None [EvWriteFile (u "fact_list"); EvReadLedger])
  ∧ oracle_queries [EvWriteFile (u "fact_list"); EvReadLedger] = [].
Proof.
  apply (missing_ledger_reports_clean_without_hearing
           (sample_env (u "refuted") (verdict_reply "FAKE")) one_fact [] missing_ledger_world).
  - reflexivity.
  - discriminate.
  - reflexivity.
Defined.

(** X7. With no facts, or when the log file of the facts cannot be written,
    [call_factcheck_service] reports [N/A] and asks neither the court nor the
    LLM proxy; the ledger is not even read. *)
Theorem no_facts_or_no_log_means_no_check
  (env : Env) (facts : list pystr) (url : pystr) (w : World) :
  facts = [] ∨ disk_ok env (trace w) = false →
  ∃ v ev,
    call_factcheck_service env facts url w
    = (Ok v, mkWorld (ledger w) (trace w ++ [ev]))
    ∧ confidence v = u "N/A"
    ∧ ev ∈ [EvWriteFile (u "fact_list"); EvDiskFault (u "fact_list")].
Proof.
  intros [Hfacts|Hbroken]; rewrite call_factcheck_service_run.
  - subst facts. destruct (disk_ok env (trace w));
      eexists _, _; (split; [reflexivity|]); (split; [reflexivity|set_solver]).
  - rewrite Hbroken. eexists _, _. split; [reflexivity|]. split; [reflexivity|set_solver].
Qed.

Lemma no_log_witness :
  ∃ v ev,
    call_factcheck_service broken_disk_env one_fact [] fresh_world
    = (Ok v, mkWorld (Some user_feedback_header) [ev])
    ∧ confidence v = u "N/A"
    ∧ ev ∈ [EvWriteFile (u "fact_list"); EvDiskFault (u "fact_list")].
Proof.
  apply (no_facts_or_no_log_means_no_check broken_disk_env one_fact [] fresh_world).
  right. reflexivity.
Defined.

(** ** Who writes the ledger and who asks the oracles *)

Create HintDb ledger_kept.

Lemma keeps_ret {A} (a : A) : keeps_ledger (ret a).
Proof. intros w. reflexivity. Qed.

Lemma keeps_raise {A} (e : exn) : keeps_ledger (@raise A e).
Proof. intros w. reflexivity. Qed.

Lemma keeps_lift {A} (o : outcome A) : keeps_ledger (lift o).
Proof. intros w. reflexivity. Qed.

Lemma keeps_emit (ev : event) : keeps_ledger (emit ev).
Proof. intros w. reflexivity. Qed.

Lemma keeps_bind {A B} (m : M A) (k : A → M B) :
  keeps_ledger m → (∀ a, keeps_ledger (k a)) → keeps_ledger (bind m k).
Proof.
  intros Hm Hk w. unfold bind. specialize (Hm w).
  destruct (m w) as [[a|e] w1]; cbn [snd] in *; [rewrite Hk|]; exact Hm.
Qed.

Lemma keeps_try_except {A} (m : M A) (h : exn → M A) :
  keeps_ledger m → (∀ e, keeps_ledger (h e)) → keeps_ledger (try_except m h).
Proof.
  intros Hm Hh w. unfold try_except. specialize (Hm w).
  destruct (m w) as [[a|e] w1]; cbn [snd] in *; [|rewrite Hh]; exact Hm.
Qed.

Lemma keeps_disk_write (env : Env) (dir : pystr) : keeps_ledger (disk_write env dir).
Proof. intros w. unfold disk_write. destruct (disk_ok env (trace w)); reflexivity. Qed.

Lemma keeps_read_ledger : keeps_ledger read_ledger.
Proof. intros w. unfold read_ledger. destruct (ledger w); reflexivity. Qed.

#[export] Hint Resolve keeps_ret keeps_raise keeps_lift keeps_emit keeps_disk_write
  keeps_read_ledger : ledger_kept.
#[export] Hint Extern 2 (keeps_ledger (bind _ _)) => apply keeps_bind; [|intro] : ledger_kept.
#[export] Hint Extern 2 (keeps_ledger (try_except _ _)) =>
  apply keeps_try_except; [|intro] : ledger_kept.

Lemma keeps_hear (env : Env) (c : Court) (text : pystr) : keeps_ledger (hear env c text).
Proof. unfold hear. auto with ledger_kept. Qed.

Lemma keeps_generate (env : Env) (model system query : pystr) :
  keeps_ledger (generate env model system query).
Proof. unfold generate. auto with ledger_kept. Qed.

Lemma keeps_save_website_content (env : Env) (content_type : pystr) :
  keeps_ledger (save_website_content env content_type).
Proof. unfold save_website_content. auto with ledger_kept. Qed.

#[export] Hint Resolve keeps_hear keeps_generate keeps_save_website_content : ledger_kept.

Lemma keeps_verify_text (env : Env) (text : pystr) : keeps_ledger (verify_text env text).
Proof.
  unfold verify_text, build_court. repeat (apply keeps_bind; [auto with ledger_kept|intro]).
  destruct (claims _); auto with ledger_kept.
Qed.

Lemma keeps_convert (env : Env) (cr : Verdict) (n : nat) (url : pystr) :
  keeps_ledger (convert_court_result_to_user_format env cr n url).
Proof.
  unfold convert_court_result_to_user_format, convert_attempt.
  apply keeps_try_except; [|auto with ledger_kept].
  apply keeps_bind; [auto with ledger_kept|intro response].
  destruct (response !! u "result"); [|auto with ledger_kept].
  destruct (parse_reply _ _ _). auto with ledger_kept.
Qed.

#[export] Hint Resolve keeps_verify_text keeps_convert : ledger_kept.

Lemma keeps_call_factcheck_service (env : Env) (facts : list pystr) (url : pystr) :
  keeps_ledger (call_factcheck_service env facts url).
Proof.
  unfold call_factcheck_service.
  apply keeps_try_except; [|auto with ledger_kept].
  apply keeps_bind; [auto with ledger_kept|intros _].
  destruct facts; auto 10 with ledger_kept.
Qed.

#[export] Hint Resolve keeps_call_factcheck_service : ledger_kept.

Lemma keeps_facts_from_reply (env : Env) (response : gmap pystr pystr) (url : pystr) :
  keeps_ledger (facts_from_reply env response url).
Proof.
  unfold facts_from_reply.
  destruct (response !! u "error"); [auto with ledger_kept|].
  destruct (py_strip _); auto 10 with ledger_kept.
Qed.

#[export] Hint Resolve keeps_facts_from_reply : ledger_kept.

(** X8. Checking facts never writes the feedback ledger: [verify_text],
    [convert_court_result_to_user_format], [call_factcheck_service],
    [extract_facts_claude] and [generate_summary_gpt] all leave the ledger
    file as they found it, on every path (success, fallback or failure). *)
Theorem fact_checking_keeps_the_ledger (env : Env) :
  (∀ text, keeps_ledger (verify_text env text))
  ∧ (∀ court_result fact_count url,
        keeps_ledger (convert_court_result_to_user_format env court_result fact_count url))
  ∧ (∀ facts url, keeps_ledger (call_factcheck_service env facts url))
  ∧ (∀ text url, keeps_ledger (extract_facts_claude env text url))
  ∧ (∀ system_prompt text url,
        keeps_ledger (Summary.generate_summary_gpt env system_prompt text url)).
Proof.
  split; [auto with ledger_kept|]. split; [auto with ledger_kept|].
  split; [auto with ledger_kept|]. split.
  - intros text url. unfold extract_facts_claude. auto 10 with ledger_kept.
  - intros system_prompt text url. unfold Summary.generate_summary_gpt.
    apply keeps_try_except; [|auto with ledger_kept].
    apply keeps_bind; [auto with ledger_kept|intros _].
    apply keeps_bind; [auto with ledger_kept|intros response].
    destruct (response !! u "result"); auto with ledger_kept.
Qed.

(** X9. A feedback submission asks neither the court nor the LLM proxy, and
    it takes nothing away from the ledger: afterwards the ledger holds its
    text of before followed by a first part of the entry of this submission,
    which is the whole entry when the submission was accepted; a submission
    answered with status 400 leaves everything as it was. *)
Theorem feedback_submission_asks_nobody (env : Env) (data : gmap pystr pystr) (w : World) :
  ∃ r w' t now written,
    submit_feedback env data w = (Ok r, w')
    ∧ trace w' = trace w ++ t
    ∧ oracle_queries t = []
    ∧ written `prefix_of` entry_of env data now
    ∧ ledger_text w' = ledger_text w ++ written
    ∧ (success r = true → written = entry_of env data now)
    ∧ (status r = 400 → w' = w).
Proof.
  assert (Hrejected : ∀ msg,
    ∃ r w' t now written,
      (Ok (mkResponse false msg 400), w) = (Ok r, w')
      ∧ trace w' = trace w ++ t
      ∧ oracle_queries t = []
      ∧ written `prefix_of` entry_of env data now
      ∧ ledger_text w' = ledger_text w ++ written
      ∧ (success r = true → written = entry_of env data now)
      ∧ (status r = 400 → w' = w)).
  { intros msg. exists (mkResponse false msg 400), w, [], [], [].
    rewrite !app_nil_r. split; [reflexivity|]. split; [reflexivity|]. split; [reflexivity|].
    split; [apply prefix_nil|]. split; [reflexivity|]. split; [discriminate|reflexivity]. }
  rewrite submit_feedback_run.
  destruct (negb _); [apply Hrejected|].
  destruct (_ <? 10); [apply Hrejected|].
  destruct (_ <? 10); [apply Hrejected|].
  clear Hrejected.
  destruct (save_user_feedback_spec env (get_field data "url")
              (get_field data "content_background") (get_field data "feedback_content")
              (get_field data "feedback_type") (get_field data "feedback_prove") w)
    as (now & written & t & _ & Hprefix & Htrace & Hq & Hledger & Hok).
  fold (entry_of env data now) in Hprefix, Hok.
  destruct (save_user_feedback env _ _ _ _ _ w) as [[[]|e] w1]; cbn [fst snd] in *.
  - destruct (Hok eq_refl) as [Hwhole Hw1].
    eexists _, w1, t, now, written. split; [reflexivity|]. split; [exact Htrace|].
    split; [exact Hq|]. split; [exact Hprefix|].
    split; [unfold ledger_text at 1; rewrite Hw1; reflexivity|].
    split; [intros _; exact Hwhole|discriminate].
  - eexists _, w1, t, now, written. split; [reflexivity|]. split; [exact Htrace|].
    split; [exact Hq|]. split; [exact Hprefix|]. split; [|split; discriminate].
    unfold ledger_text at 1.
    destruct Hledger as [[-> ->]| ->]; [rewrite app_nil_r|]; reflexivity.
Qed.

(** X10. When the backup file of a well-formed submission cannot be
    written, the submission is answered with status 500 and nothing is
    appended to the ledger: the append is not even attempted, since the
    backup comes first. *)
Theorem failed_backup_prevents_the_append
  (env : Env) (data : gmap pystr pystr) (w : World) :
  well_formed_submission data →
  disk_ok env (trace w) = false →
  submit_feedback env data w
  = (Ok (mkResponse false (u "Failed to save feedback") 500),
     mkWorld (ledger w) (trace w ++ [EvDiskFault (u "fact_feedback")])).
Proof.
  intros (Hty & Hc & Hp) Hdisk. rewrite submit_feedback_run. unfold py_mem.
  rewrite (bool_decide_eq_true_2 _ Hty). cbn [negb].
  destruct (Nat.ltb_spec (length (get_field data "feedback_content")) 10); [lia|].
  destruct (Nat.ltb_spec (length (get_field data "feedback_prove")) 10); [lia|].
  rewrite save_user_feedback_run. cbv zeta. rewrite Hdisk. reflexivity.
Qed.

Lemma failed_backup_witness :
  submit_feedback broken_disk_env honest_feedback fresh_world
  = (Ok (mkResponse false (u "Failed to save feedback") 500),
     mkWorld (Some user_feedback_header) [EvDiskFault (u "fact_feedback")]).
Proof.
  apply (failed_backup_prevents_the_append broken_disk_env honest_feedback fresh_world).
  - split; [|split].
    + refine (bool_decide_eq_true_1 _ _). vm_compute. reflexivity.
    + vm_compute. lia.
    + vm_compute. lia.
  - reflexivity.
Defined.

(** X11. When the ledger file does not exist, an accepted submission creates
    it with its own entry only: the initial header line that
    [_init_directories] writes is not put there. *)
Theorem first_feedback_creates_headerless_ledger
  (env : Env) (data : gmap pystr pystr) (w w' : World) (r : Response) :
  ledger w = None →
  submit_feedback env data w = (Ok r, w') →
  success r = true →
  ∃ now, ledger w' = Some (entry_of env data now)
         ∧ ¬ user_feedback_header `prefix_of` entry_of env data now.
Proof.
  intros HL Hrun Hs.
  destruct (submit_feedback_accepted env data w w' r Hrun Hs) as (_ & now & _ & Hw').
  unfold ledger_text in Hw'. rewrite HL in Hw'. cbn [default app] in Hw'.
  exists now. split; [exact Hw'|].
  intros [k Hk]. rewrite entry_of_parts in Hk.
  assert (Hhead : ∃ t, user_feedback_header = 45%N :: t) by (eexists; reflexivity).
  destruct Hhead as [t Ht]. rewrite Ht in Hk. discriminate Hk.
Qed.

Lemma first_feedback_witness :
  ∃ now, ledger (snd (submit_feedback (sample_env (u "supported") (Raise OSError))
                        honest_feedback missing_ledger_world))
         = Some (entry_of (sample_env (u "supported") (Raise OSError)) honest_feedback now)
         ∧ ¬ user_feedback_header
             `prefix_of` entry_of (sample_env (u "supported") (Raise OSError))
                           honest_feedback now.
Proof.
  apply (first_feedback_creates_headerless_ledger (sample_env (u "supported") (Raise OSError))
           honest_feedback missing_ledger_world _ accepted).
  - reflexivity.
  - vm_compute. reflexivity.
  - reflexivity.
Defined.

(** ** What of a submission reaches the ledger *)

Lemma ledger_entry_context (upper : pystr → pystr) (url bg content ty prove now : pystr) :
  ledger_entry upper url bg content ty prove now
  = ledger_entry upper url (take 300 bg) content ty prove now.
Proof.
  unfold ledger_entry. do 7 f_equal.
  destruct bg as [|c bg]; [reflexivity|].
  change (take 300 (c :: bg)) with (c :: take 299 bg).
  change (c :: take 299 bg) with (take 300 (c :: bg)).
  rewrite take_take. reflexivity.
Qed.

Lemma feedback_data_context (stamp url bg content ty prove : pystr) :
  feedback_data stamp url (take 500 bg) content ty prove
  = feedback_data stamp url bg content ty prove.
Proof.
  unfold feedback_data. do 3 f_equal.
  destruct bg as [|c bg]; [reflexivity|].
  change (take 500 (c :: bg)) with (c :: take 499 bg).
  change (c :: take 499 bg) with (take 500 (c :: bg)).
  rewrite take_take. reflexivity.
Qed.

Lemma later_pieces_context (upper : pystr → pystr) (url bg content ty prove now : pystr) :
  later_pieces upper url (take 500 bg) content ty prove now
  = later_pieces upper url bg content ty prove now.
Proof.
  unfold later_pieces. f_equal.
  destruct bg as [|c bg]; [reflexivity|].
  change (take 500 (c :: bg)) with (c :: take 499 bg).
  change (c :: take 499 bg) with (take 500 (c :: bg)).
  rewrite take_take. reflexivity.
Qed.

(** X12. Of the page context only the beginning is saved: the backup file
    holds its first 500 characters and the entry of the ledger its first
    300. So [save_user_feedback] does the same with a context and with its
    first 500 characters, and the entry is the one of the first 300
    characters; but the backup of a context of more than 300 characters is
    not the backup of its first 300 characters. *)
Theorem only_the_start_of_the_context_is_saved
  (env : Env) (url bg content ty prove : pystr) (w : World) :
  save_user_feedback env url bg content ty prove w
  = save_user_feedback env url (take 500 bg) content ty prove w
  ∧ (∀ now, ledger_entry (py_upper env) url bg content ty prove now
            = ledger_entry (py_upper env) url (take 300 bg) content ty prove now)
  ∧ (∀ stamp, 300 < length bg →
              feedback_data stamp url bg content ty prove
              ≠ feedback_data stamp url (take 300 bg) content ty prove).
Proof.
  split; [|split].
  - rewrite !save_user_feedback_run. cbv zeta.
    rewrite !feedback_data_context, !later_pieces_context. reflexivity.
  - intros now. apply ledger_entry_context.
  - intros stamp Hlong Heq. unfold feedback_data in Heq.
    destruct bg as [|c bg]; [cbn in Hlong; lia|].
    change (take 300 (c :: bg)) with (c :: take 299 bg) in Heq.
    injection Heq as Heq. apply (f_equal length) in Heq.
    rewrite !length_take in Heq. cbn [length] in Hlong, Heq. lia.
Qed.

Lemma context_start_witness :
  feedback_data [] [] (replicate 400 120%N) [] [] []
  ≠ feedback_data [] [] (take 300 (replicate 400 120%N)) [] [] [].
Proof.
  apply (proj2 (proj2 (only_the_start_of_the_context_is_saved
                         (sample_env (u "supported") (Raise OSError)) []
                         (replicate 400 120%N) [] [] [] fresh_world)) []).
  vm_compute. lia.
Defined.

Lemma type_line_ignores_upper (upper1 upper2 : pystr → pystr) (ty : pystr) :
  ty ∈ feedback_types → type_line upper1 ty = type_line upper2 ty.
Proof.
  unfold feedback_types. intros Hty.
  repeat (apply elem_of_cons in Hty; destruct Hty as [->|Hty]);
    [reflexivity..|apply elem_of_nil in Hty; destruct Hty].
Qed.

Lemma write_all_with_upper (env : Env) (upper : pystr → pystr) (ps : list pystr) (w : World) :
  write_all (with_upper env upper) ps w = write_all env ps w.
Proof.
  revert w. induction ps as [|p ps IH]; intros w; [reflexivity|].
  cbn [write_all]. unfold bind.
  change (write_ledger (with_upper env upper) p w) with (write_ledger env p w).
  destruct (write_ledger env p w) as [[[]|e] w1]; [apply IH|reflexivity].
Qed.

(** X13. What [submit_feedback] does never depends on [str.upper]: the
    upper-cased [TYPE] line of [save_user_feedback] is written for none of
    the feedback types that the endpoint lets through. *)
Theorem submit_feedback_never_uppercases
  (env : Env) (upper : pystr → pystr) (data : gmap pystr pystr) (w : World) :
  submit_feedback (with_upper env upper) data w = submit_feedback env data w.
Proof.
  rewrite !submit_feedback_run. unfold py_mem.
  destruct (bool_decide_reflect (get_field data "feedback_type" ∈ feedback_types)) as [Hty|Hty];
    cbn [negb]; [|reflexivity].
  destruct (_ <? 10); [reflexivity|]. destruct (_ <? 10); [reflexivity|].
  rewrite !save_user_feedback_run. cbv zeta. cbn [with_upper disk_ok now_iso py_upper].
  rewrite write_all_with_upper. unfold later_pieces.
  rewrite (type_line_ignores_upper upper (py_upper env) _ Hty).
  reflexivity.
Qed.

(** X25. A well-formed submission one of whose texts (the URL, the first
    500 characters of the context, the claim, the evidence) holds a surrogate
    code point is answered with status 500: [json.dump] cannot encode the
    backup file, and the ledger is not even opened. *)
Theorem unencodable_feedback_is_not_saved
  (env : Env) (data : gmap pystr pystr) (w : World) :
  well_formed_submission data →
  disk_ok env (trace w) = true →
  utf8_encodable (get_field data "url" ++ take 500 (get_field data "content_background")
                  ++ get_field data "feedback_content" ++ get_field data "feedback_prove")
  = false →
  submit_feedback env data w
  = (Ok (mkResponse false (u "Failed to save feedback") 500),
     mkWorld (ledger w) (trace w ++ [EvDiskFault (u "fact_feedback")])).
Proof.
  intros (Hty & Hc & Hp) Hdisk Hbad. rewrite submit_feedback_run. unfold py_mem.
  rewrite (bool_decide_eq_true_2 _ Hty). cbn [negb].
  destruct (Nat.ltb_spec (length (get_field data "feedback_content")) 10); [lia|].
  destruct (Nat.ltb_spec (length (get_field data "feedback_prove")) 10); [lia|].
  rewrite save_user_feedback_run. cbv zeta. rewrite Hdisk.
  rewrite <- feedback_data_context.
  assert (Hcut : ∀ bg : pystr, match take 500 bg with
                               | [] => []
                               | _ :: _ => take 500 (take 500 bg)
                               end = take 500 bg).
  { intros bg. rewrite take_take, Nat.min_id. destruct (take 500 bg); reflexivity. }
  unfold feedback_data. rewrite Hcut. cbn [forallb fst snd].
  unfold utf8_encodable in *. rewrite !forallb_app in Hbad.
  repeat match goal with
         | |- context [forallb ?f ?l] =>
             lazymatch l with
             | get_field _ _ => idtac
             | take 500 _ => idtac
             end;
             destruct (forallb f l); [|rewrite ?andb_false_r; cbn [andb]; reflexivity]
         end.
  discriminate Hbad.
Qed.

Lemma unencodable_feedback_witness :
  submit_feedback (sample_env (u "supported") (Raise OSError)) surrogate_feedback fresh_world
  = (Ok (mkResponse false (u "Failed to save feedback") 500),
     mkWorld (Some user_feedback_header) [EvDiskFault (u "fact_feedback")]).
Proof.
  apply (unencodable_feedback_is_not_saved (sample_env (u "supported") (Raise OSError))
           surrogate_feedback fresh_world).
  - split; [|split].
    + refine (bool_decide_eq_true_1 _ _). vm_compute. reflexivity.
    + vm_compute. lia.
    + vm_compute. lia.
  - reflexivity.
  - vm_compute. reflexivity.
Defined.

(** ** The start of [court_manager.py] *)

(** X14. [_init_directories] never touches a ledger that exists; when it
    returns, the ledger exists (with the initial header if it had to be
    created), [build_court] can read it, and a second run changes nothing. *)
Theorem init_directories_makes_ledger_readable (env : Env) (w w1 : World) :
  _init_directories env w = (Ok tt, w1) →
  ∃ L,
    ledger w1 = Some L
    ∧ (∀ L0, ledger w = Some L0 → L = L0 ∧ w1 = w)
    ∧ (ledger w = None → L = user_feedback_header)
    ∧ fst (build_court w1) = Ok (assemble_court (universal_newlines L))
    ∧ _init_directories env w1 = (Ok tt, w1).
Proof.
  unfold _init_directories. destruct (ledger w) as [L0|] eqn:HL.
  - intros [= <-]. exists L0. rewrite build_court_run, HL.
    split; [reflexivity|]. split; [intros ? [= <-]; auto|]. split; [discriminate|].
    split; reflexivity.
  - unfold bind at 1. unfold open_ledger. rewrite HL.
    destruct (disk_ok env (trace w)); [|discriminate].
    rewrite write_ledger_run. destruct (_ && _); [|discriminate]. intros [= <-].
    exists user_feedback_header. rewrite build_court_run. cbn [ledger].
    split; [reflexivity|]. split; [discriminate|]. split; [reflexivity|].
    split; reflexivity.
Qed.

Lemma init_directories_witness :
  ∃ L,
    ledger (snd (_init_directories (sample_env (u "supported") (Raise OSError))
                   missing_ledger_world)) = Some L
    ∧ L = user_feedback_header
    ∧ fst (build_court (snd (_init_directories (sample_env (u "supported") (Raise OSError))
                               missing_ledger_world)))
      = Ok (assemble_court (universal_newlines L)).
Proof.
  destruct (init_directories_makes_ledger_readable (sample_env (u "supported") (Raise OSError))
              missing_ledger_world
              (snd (_init_directories (sample_env (u "supported") (Raise OSError))
                      missing_ledger_world)) eq_refl)
    as (L & HL & _ & Hnew & Hbuild & _).
  exists L. split; [exact HL|]. split; [apply Hnew; reflexivity|exact Hbuild].
Defined.

(** ** The lines that become facts *)

Lemma py_in_unfold (sub s : pystr) :
  py_in sub s = starts_with sub s || match s with [] => false | _ :: s' => py_in sub s' end.
Proof. destruct s; reflexivity. Qed.

Lemma after_first_unfold (sep s : pystr) :
  after_first sep s
  = if starts_with sep s then Some (drop (length sep) s)
    else match s with [] => None | _ :: s' => after_first sep s' end.
Proof. destruct s; reflexivity. Qed.

Lemma starts_with_length (p s : pystr) : starts_with p s = true → length p ≤ length s.
Proof.
  revert s. induction p as [|a p IH]; intros s H; [cbn; lia|].
  destruct s as [|b s]; [discriminate|]. cbn [starts_with] in H.
  apply andb_true_iff in H as [_ H]. specialize (IH s H). cbn. lia.
Qed.

Lemma py_in_length (sub s : pystr) : py_in sub s = true → length sub ≤ length s.
Proof.
  induction s as [|c s IH]; rewrite py_in_unfold; intros H;
    apply orb_true_iff in H as [H|H]; try discriminate;
    try (apply starts_with_length in H; exact H).
  specialize (IH H). cbn. lia.
Qed.

Lemma starts_with_take (p s : pystr) (k : nat) :
  starts_with p (take k s) = true → starts_with p s = true.
Proof.
  revert s k. induction p as [|a p IH]; intros s k H; [reflexivity|].
  destruct s as [|b s]; [destruct k; discriminate|].
  destruct k as [|k]; [discriminate|]. cbn [take starts_with] in *.
  apply andb_true_iff in H as [Hab H]. rewrite Hab. exact (IH s k H).
Qed.

Lemma find_at_unfold (sub s : pystr) :
  find_at sub s
  = if starts_with sub s then Some 0
    else match s with [] => None | _ :: s' => S <$> find_at sub s' end.
Proof. destruct s; reflexivity. Qed.

(** An occurrence of [sep] within the first [k] characters: [after_first]
    cuts at the first occurrence, which ends within them. *)
Lemma occurs_early (sep s : pystr) (k : nat) :
  py_in sep (take k s) = true →
  ∃ pre r, after_first sep s = Some r ∧ s = pre ++ sep ++ r
           ∧ find_at sep s = Some (length pre) ∧ length pre + length sep ≤ k.
Proof.
  revert k. induction s as [|c s IH]; intros k H.
  - pose proof (py_in_length _ _ H) as Hlen. rewrite take_nil in Hlen.
    destruct sep; [|cbn in Hlen; lia]. exists [], []. cbn. repeat split. lia.
  - pose proof (py_in_length _ _ H) as Hlen. rewrite length_take in Hlen.
    rewrite after_first_unfold, find_at_unfold.
    destruct (starts_with sep (c :: s)) eqn:Hs.
    + exists [], (drop (length sep) (c :: s)). split; [reflexivity|].
      split; [apply starts_with_split, Hs|]. split; [reflexivity|cbn; lia].
    + destruct k as [|k].
      { destruct sep; [discriminate Hs|cbn in Hlen; lia]. }
      rewrite py_in_unfold in H. cbn [take] in H.
      apply orb_true_iff in H as [H|H].
      { apply (starts_with_take sep (c :: s) (S k)) in H. congruence. }
      destruct (IH k H) as (pre & r & Hafter & -> & Hfind & Hk).
      exists (c :: pre), r. split; [exact Hafter|]. split; [reflexivity|].
      split; [rewrite Hfind; reflexivity|cbn; lia].
Qed.

(** X15. Every fact that [extract_facts_claude] takes from a line of the
    reply is what follows the first [". "] of the stripped line: the
    numbering before it is where [". "] occurs first; that numbering has at
    most three characters, and the stripped line has more than three
    characters and begins with a digit. *)
Theorem extracted_fact_follows_short_numbering (env : Env) (line fact : pystr) :
  fact_of_line env line = Some fact →
  ∃ numbering,
    py_strip line = numbering ++ u ". " ++ fact
    ∧ find_at (u ". ") (py_strip line) = Some (length numbering)
    ∧ length numbering ≤ 3
    ∧ 3 < length (py_strip line)
    ∧ ∃ c rest, py_strip line = c :: rest ∧ py_isdigit env c = true.
Proof.
  unfold fact_of_line. destruct (py_strip line) as [|c rest] eqn:Hline; [discriminate|].
  destruct (3 <? length (c :: rest)) eqn:Hlen; [|discriminate].
  destruct (py_isdigit env c) eqn:Hdigit; [|discriminate].
  destruct (py_in (u ". ") (take 5 (c :: rest))) eqn:Hin; [|discriminate].
  cbn [andb]. destruct (occurs_early _ _ _ Hin) as (pre & r & -> & Hsplit & Hfind & Hk).
  intros [= <-]. exists pre. split; [exact Hsplit|]. split; [exact Hfind|].
  split; [change (length (u ". ")) with 2 in Hk; lia|].
  split; [apply Nat.ltb_lt, Hlen|]. exists c, rest. auto.
Qed.

Lemma extracted_fact_witness :
  ∃ numbering,
    py_strip (u " 1. . xy ") = numbering ++ u ". " ++ u ". xy"
    ∧ find_at (u ". ") (py_strip (u " 1. . xy ")) = Some (length numbering)
    ∧ numbering = u "1".
Proof.
  destruct (extracted_fact_follows_short_numbering (sample_env (u "supported") (Raise OSError))
              (u " 1. . xy ") (u ". xy"))
    as (numbering & Hsplit & Hfind & Hlen & _).
  - vm_compute. reflexivity.
  - exists numbering. split; [exact Hsplit|]. split; [exact Hfind|].
    assert (Hone : Some 1 = Some (length numbering))
      by (rewrite <- Hfind; vm_compute; reflexivity).
    injection Hone as Hone.
    destruct numbering as [|a [|b more]]; try discriminate Hone.
    vm_compute in Hsplit. injection Hsplit as <-. reflexivity.
Defined.

(** X16. A line whose numbering has four or more characters without a dot is
    not taken as a fact: of a numbered list, the entries from the 1000th on
    are dropped. *)
Theorem long_numbering_is_dropped (env : Env) (line numbering rest : pystr) :
  py_strip line = numbering ++ rest →
  4 ≤ length numbering →
  46%N ∉ numbering →
  fact_of_line env line = None.
Proof.
  intros Hline Hlen Hdot. unfold fact_of_line. rewrite Hline.
  destruct numbering as [|a [|b [|c [|d more]]]]; cbn [length] in Hlen; try lia.
  repeat (apply not_elem_of_cons in Hdot as [? Hdot]).
  cbn [app]. change (take 5 (a :: b :: c :: d :: more ++ rest))
    with (a :: b :: c :: d :: take 1 (more ++ rest)).
  assert (Hno : py_in (u ". ") (a :: b :: c :: d :: take 1 (more ++ rest)) = false).
  { change (u ". ") with [46%N; 32%N]. cbn [py_in starts_with].
    repeat match goal with
           | H : 46%N ≠ ?x |- context [(46 =? ?x)%N] =>
               rewrite (proj2 (N.eqb_neq 46 x) H)
           end.
    cbn [andb orb]. destruct (more ++ rest) as [|e t]; [reflexivity|].
    cbn [take py_in starts_with]. rewrite !andb_false_r. reflexivity. }
  rewrite Hno, andb_false_r. reflexivity.
Qed.

Lemma long_numbering_witness :
  fact_of_line (sample_env (u "supported") (Raise OSError)) (u "1000. The moon is a planet.")
  = None.
Proof.
  apply (long_numbering_is_dropped (sample_env (u "supported") (Raise OSError))
           (u "1000. The moon is a planet.") (u "1000") (u ". The moon is a planet.")).
  - vm_compute. reflexivity.
  - vm_compute. lia.
  - refine (bool_decide_eq_true_1 _ _). vm_compute. reflexivity.
Defined.

(** ** When the extraction fails *)

Lemma extract_on_unusable_reply (env : Env) (text url : pystr) (w : World)
  (response : gmap pystr pystr) :
  extraction_answer env text = Ok response →
  unusable_reply response →
  ∃ ev,
    extract_facts_claude env text url w
    = (Ok (Triple 0 false (u "N/A")),
       mkWorld (ledger w)
         (trace w ++ [ev; EvGenerate claude_model (extract_system_prompt env)
                            (take 15000 text)]))
    ∧ oracle_queries [ev] = [].
Proof.
  intros Hans Hbad.
  destruct (save_website_content_run env (u "facts") w) as (ev & Hrun & Hev).
  exists ev. split; [|exact Hev].
  unfold extract_facts_claude, try_except. unfold bind at 1. rewrite Hrun.
  unfold bind at 1. unfold generate at 1. unfold bind at 1. unfold emit, lift.
  cbn [ledger trace]. unfold extraction_answer, claude_model in Hans. rewrite Hans.
  unfold facts_from_reply, ret. rewrite <- app_assoc. cbn [app].
  destruct Hbad as [[x Hx]|Hblank]; [rewrite Hx; reflexivity|].
  destruct (response !! u "error"); [reflexivity|]. rewrite Hblank. reflexivity.
Qed.

(** X17. When the extraction oracle raises, reports an error or returns a
    blank result, [extract_facts_claude] stops there: it wrote its log file
    and sent the one request, no fact check takes place, and it returns
    [(0, error_result)] in the first case and the triple [(0, False, "N/A")]
    in the other two. *)
Theorem failed_extraction_skips_the_check (env : Env) (text url : pystr) (w : World) :
  match extraction_answer env text with
  | Raise _ => True
  | Ok response => unusable_reply response
  end →
  ∃ ev,
    extract_facts_claude env text url w
    = (Ok match extraction_answer env text with
          | Raise _ => Pair 0 error_result
          | Ok _ => Triple 0 false (u "N/A")
          end,
       mkWorld (ledger w)
         (trace w ++ [ev; EvGenerate claude_model (extract_system_prompt env)
                            (take 15000 text)]))
    ∧ oracle_queries [ev] = [].
Proof.
  destruct (extraction_answer env text) as [response|e] eqn:Hans.
  - intros Hbad. apply (extract_on_unusable_reply env text url w response Hans Hbad).
  - intros _. destruct (save_website_content_run env (u "facts") w) as (ev & Hrun & Hev).
    exists ev. split; [|exact Hev].
    unfold extract_facts_claude, try_except. unfold bind at 1. rewrite Hrun.
    unfold bind at 1. unfold generate at 1. unfold bind at 1. unfold emit, lift.
    cbn [ledger trace]. unfold extraction_answer, claude_model in Hans. rewrite Hans.
    unfold ret. rewrite <- app_assoc. reflexivity.
Qed.

Lemma failed_extraction_witness :
  ∃ ev,
    extract_facts_claude erring_extraction_env long_page [] fresh_world
    = (Ok (Triple 0 false (u "N/A")),
       mkWorld (Some user_feedback_header)
         [ev; EvGenerate claude_model (u "extract") (take 15000 long_page)])
    ∧ oracle_queries [ev] = [].
Proof.
  apply (failed_extraction_skips_the_check erring_extraction_env long_page [] fresh_world).
  left. eexists. apply lookup_insert_eq.
Defined.

(** ** The text the court hears *)

Lemma py_split_join (ls : list pystr) :
  ls ≠ [] → Forall (fun l => NL ∉ l) ls → py_split NL (py_join [NL] ls) = ls.
Proof.
  intros Hne Hall. induction Hall as [|x ls Hx Hall IH]; [congruence|].
  destruct ls as [|y ls]; [apply py_split_line, Hx|].
  change (py_join [NL] (x :: y :: ls)) with (x ++ NL :: py_join [NL] (y :: ls)).
  rewrite py_split_app_sep, (py_split_line NL x Hx), IH by discriminate. reflexivity.
Qed.

Lemma py_str_nat_is_a_line (n : nat) : NL ∉ py_str_nat n.
Proof.
  unfold py_str_nat. generalize (Nat.to_uint n). intros d.
  induction d; unfold u in *; cbn [NilEmpty.string_of_uint list_ascii_of_string map];
    [apply not_elem_of_nil|..]; apply not_elem_of_cons; (split; [discriminate|assumption]).
Qed.

Lemma facts_text_is_join (facts : list pystr) :
  facts_text facts = py_join [NL] (map numbered (enumerate1 facts)).
Proof.
  unfold facts_text. f_equal. apply map_ext. intros [i fact]. reflexivity.
Qed.

(** The lines of the beginning of a text: some of its first lines, then
    the beginning of the line that follows them. *)
Lemma py_split_take (sep : N) (n : nat) (s : pystr) :
  ∃ k last l,
    py_split sep (take n s) = take k (py_split sep s) ++ [last]
    ∧ py_split sep s !! k = Some l
    ∧ last `prefix_of` l.
Proof.
  revert n. induction s as [|c s IH]; intros n.
  - exists 0, [], []. rewrite take_nil. split; [reflexivity|]. split; reflexivity.
  - destruct n as [|n].
    + pose proof (py_split_nonempty sep (c :: s)) as Hne.
      destruct (py_split sep (c :: s)) as [|l ls] eqn:Hs; [congruence|].
      exists 0, [], l. split; [reflexivity|]. split; [reflexivity|apply prefix_nil].
    + destruct (IH n) as (k & last & l & Hcut & Hl & Hpre).
      cbn [take py_split]. rewrite Hcut. destruct (c =? sep)%N.
      * exists (S k), last, l. split; [reflexivity|]. split; [exact Hl|exact Hpre].
      * destruct (py_split sep s) as [|h t] eqn:Hs; [discriminate Hl|].
        destruct k as [|k]; cbn [take app].
        -- injection Hl as <-. exists 0, (c :: last), (c :: h).
           split; [reflexivity|]. split; [reflexivity|]. apply prefix_cons, Hpre.
        -- exists (S k), last, l. split; [reflexivity|]. split; [exact Hl|exact Hpre].
Qed.

(** X18. For a non-empty list of facts that hold no newline, the text that
    [call_factcheck_service] hands to [verify_text] has exactly one line per
    fact, in order, each the fact's number (from 1) followed by a dot, a
    blank and the fact. The court hears the first 12000 characters of that
    text: all of it when it is no longer, and otherwise some of the first
    numbered lines followed by the beginning of the next one. *)
Theorem facts_text_has_one_numbered_line_per_fact
  (env : Env) (facts : list pystr) (url : pystr) (w : World) (L : pystr) :
  facts ≠ [] →
  Forall (fun fact => NL ∉ fact) facts →
  disk_ok env (trace w) = true →
  ledger w = Some L →
  py_split NL (facts_text facts) = map numbered (enumerate1 facts)
  ∧ length (py_split NL (facts_text facts)) = length facts
  ∧ (∃ rest,
        trace (snd (call_factcheck_service env facts url w))
        = trace w ++ [EvWriteFile (u "fact_list"); EvReadLedger;
                      EvCourtHear (assemble_court (universal_newlines L))
                        (take 12000 (facts_text facts))] ++ rest)
  ∧ (length (facts_text facts) ≤ 12000 → take 12000 (facts_text facts) = facts_text facts)
  ∧ (∃ k last l,
        py_split NL (take 12000 (facts_text facts))
        = take k (map numbered (enumerate1 facts)) ++ [last]
        ∧ map numbered (enumerate1 facts) !! k = Some l
        ∧ last `prefix_of` l).
Proof.
  intros Hne Hall Hdisk HL.
  assert (Hlen : length (map numbered (enumerate1 facts)) = length facts).
  { unfold enumerate1. rewrite length_map, length_zip, length_seq. lia. }
  assert (Hsplit : py_split NL (facts_text facts) = map numbered (enumerate1 facts)).
  { rewrite facts_text_is_join. apply py_split_join.
    - intros Hnil. rewrite Hnil in Hlen. destruct facts; [congruence|discriminate].
    - apply Forall_forall. intros l Hl. apply list_elem_of_fmap in Hl as ([i fact] & -> & Hin).
      unfold numbered. cbn [fst snd].
      apply not_elem_of_app. split; [apply py_str_nat_is_a_line|].
      apply not_elem_of_app. split; [apply literal_line; vm_compute; reflexivity|].
      unfold enumerate1 in Hin. apply elem_of_zip_r in Hin.
      rewrite Forall_forall in Hall. apply Hall, Hin. }
  split; [exact Hsplit|]. split; [rewrite Hsplit; exact Hlen|]. split; [|split].
  - rewrite call_factcheck_service_run, Hdisk. destruct facts as [|f fs]; [congruence|].
    rewrite verify_text_run. cbn [logged ledger]. rewrite HL.
    destruct (court_hear env _ _) as [report|e].
    + assert (Hconv : ∀ cr,
                ∃ rest,
                  trace (snd (convert_court_result_to_user_format env cr (length (f :: fs))
                                url (heard L (facts_text (f :: fs)) (logged w))))
                  = trace w ++ [EvWriteFile (u "fact_list"); EvReadLedger;
                                EvCourtHear (assemble_court (universal_newlines L))
                                  (take 12000 (facts_text (f :: fs)))] ++ rest).
      { intros cr. destruct (convert_run env cr (length (f :: fs)) url
                               (heard L (facts_text (f :: fs)) (logged w))) as (v & -> & _).
        eexists. cbn [snd asked heard logged trace]. rewrite <- !app_assoc. reflexivity. }
      destruct (claims report); apply Hconv.
    + exists []. cbn [snd heard logged trace]. rewrite <- !app_assoc. reflexivity.
  - intros Hshort. apply take_ge. exact Hshort.
  - rewrite <- Hsplit. apply py_split_take.
Qed.

Lemma facts_text_witness :
  py_split NL (facts_text [u "The moon is a planet."; u "Water is wet."])
  = [u "1. The moon is a planet."; u "2. Water is wet."]
  ∧ take 12000 (facts_text [u "The moon is a planet."; u "Water is wet."])
    = facts_text [u "The moon is a planet."; u "Water is wet."].
Proof.
  destruct (facts_text_has_one_numbered_line_per_fact
              (sample_env (u "supported") (Raise OSError))
              [u "The moon is a planet."; u "Water is wet."] [] fresh_world
              user_feedback_header)
    as (Hsplit & _ & _ & Hwhole & _).
  - discriminate.
  - repeat constructor; refine (bool_decide_eq_true_1 _ _); vm_compute; reflexivity.
  - reflexivity.
  - reflexivity.
  - split; [rewrite Hsplit; vm_compute; reflexivity|]. apply Hwhole. vm_compute. lia.
Defined.

(** ** The summary path *)

Import Summary.

(** X19. [generate_summary_gpt] never raises. It writes its log file
    (a failure there is ignored) and sends one request with the first 3000
    characters of the text; it returns the stripped result of the reply, and
    the fixed text [Summary generation failed.] when the proxy raises or its
    reply has no result. *)
Theorem summary_is_the_reply_or_the_failure_text
  (env : Env) (system_prompt text url : pystr) (w : World) :
  ∃ ev,
    generate_summary_gpt env system_prompt text url w
    = (Ok match client_generate env (u "4o-mini") system_prompt (take 3000 text) with
          | Ok response =>
              match response !! u "result" with
              | Some r => py_strip r
              | None => summary_failed
              end
          | Raise _ => summary_failed
          end,
       mkWorld (ledger w)
         (trace w ++ [ev; EvGenerate (u "4o-mini") system_prompt (take 3000 text)]))
    ∧ oracle_queries [ev] = [].
Proof.
  destruct (save_website_content_run env (u "summary") w) as (ev & Hrun & Hev).
  exists ev. split; [|exact Hev].
  unfold generate_summary_gpt, try_except. unfold bind at 1. rewrite Hrun.
  unfold bind at 1. unfold generate at 1. unfold bind at 1. unfold emit, lift.
  cbn [ledger trace]. rewrite <- app_assoc. cbn [app].
  destruct (client_generate env _ _ _) as [response|e]; [|reflexivity].
  destruct (response !! u "result"); reflexivity.
Qed.

(** X20. When the extraction oracle reports an error or returns a blank
    result for a page of at least 50 characters, the answer of
    [/api/summary] is the failure answer, whatever summary was generated:
    the triple that [extract_facts_claude] returns cannot be unpacked by
    [analyze_content], whose own failure triple cannot be unpacked by
    [get_summary]. *)
Theorem unusable_extraction_loses_the_summary
  (env : Env) (unpack_error page_url page_content summary : pystr) (w : World)
  (response : gmap pystr pystr) :
  50 ≤ length page_content →
  extraction_answer env page_content = Ok response →
  unusable_reply response →
  ∃ facts w',
    extract_facts_claude env page_content page_url w = (Ok facts, w')
    ∧ get_summary unpack_error page_url page_content (analyze_content_results summary facts)
      = mkSummaryJson (Some unpack_error) (u "Analysis failed") (u "N/A")
          (u "Analysis incomplete.") None.
Proof.
  intros Hlen Hans Hbad.
  destruct (extract_on_unusable_reply env page_content page_url w response Hans Hbad)
    as (ev & Hrun & _).
  eexists _, _. split; [exact Hrun|]. unfold get_summary, analyze_content_results.
  destruct page_content as [|c page]; [cbn in Hlen; lia|]. cbn [py_not orb].
  destruct (Nat.ltb_spec (length (c :: page)) 50); [lia|reflexivity].
Qed.

Lemma unusable_extraction_witness :
  ∃ facts w',
    extract_facts_claude erring_extraction_env long_page [] fresh_world = (Ok facts, w')
    ∧ get_summary (u "too many values to unpack (expected 2)") [] long_page
        (analyze_content_results (u "A page about the moon.") facts)
      = mkSummaryJson (Some (u "too many values to unpack (expected 2)"))
          (u "Analysis failed") (u "N/A") (u "Analysis incomplete.") None.
Proof.
  apply (unusable_extraction_loses_the_summary erring_extraction_env
           (u "too many values to unpack (expected 2)") [] long_page
           (u "A page about the moon.") fresh_world (<[u "error" := u "rate limited"]> ∅)).
  - vm_compute. lia.
  - reflexivity.
  - left. eexists. apply lookup_insert_eq.
Defined.

(** ** The URL inside the injected script *)

Import Inject.

Lemma py_replace_single (c : N) (new s : pystr) :
  py_replace [c] new s = flat_map (fun x => if (x =? c)%N then new else [x]) s.
Proof.
  unfold py_replace. induction s as [|x s IH]; [reflexivity|].
  cbn [replace_from flat_map starts_with length pred]. rewrite IH, (N.eqb_sym c x).
  destruct (x =? c)%N; reflexivity.
Qed.

Lemma safe_url_cons (c : N) (s : pystr) : safe_url (c :: s) = escape_char c ++ safe_url s.
Proof.
  unfold safe_url. rewrite !py_replace_single. cbn [flat_map]. rewrite !flat_map_app.
  f_equal. unfold escape_char.
  destruct (N.eqb_spec c BACKSLASH) as [->|H1]; [reflexivity|].
  cbn [flat_map app].
  destruct (N.eqb_spec c APOSTROPHE) as [->|H2]; [reflexivity|].
  cbn [flat_map app].
  destruct (N.eqb_spec c QUOTE) as [->|H3]; [reflexivity|].
  cbn [flat_map app].
  destruct (N.eqb_spec c NL) as [->|H4]; [reflexivity|].
  cbn [flat_map app].
  destruct (N.eqb_spec c CR) as [->|H5]; reflexivity.
Qed.

Lemma js_read_escape (c : N) (rest : pystr) :
  js_read (escape_char c ++ rest) = cons c <$> js_read rest.
Proof.
  unfold escape_char.
  destruct (N.eqb_spec c BACKSLASH) as [->|H1]; [reflexivity|].
  destruct (N.eqb_spec c APOSTROPHE) as [->|H2]; [reflexivity|].
  destruct (N.eqb_spec c QUOTE) as [->|H3]; [reflexivity|].
  destruct (N.eqb_spec c NL) as [->|H4]; [reflexivity|].
  destruct (N.eqb_spec c CR) as [->|H5]; [reflexivity|].
  cbn [app js_read].
  apply N.eqb_neq in H1, H2, H3, H4, H5. rewrite H1, H2, H3, H4, H5. reflexivity.
Qed.

Lemma escape_char_is_plain (c x : N) : x = NL ∨ x = CR → x ∉ escape_char c.
Proof.
  intros Hx. unfold escape_char.
  destruct (N.eqb_spec c BACKSLASH); [|destruct (N.eqb_spec c APOSTROPHE);
    [|destruct (N.eqb_spec c QUOTE); [|destruct (N.eqb_spec c NL);
      [|destruct (N.eqb_spec c CR)]]]];
    destruct Hx as [Hx|Hx]; subst x;
    repeat (apply not_elem_of_cons; split); try apply not_elem_of_nil;
    try discriminate; congruence.
Qed.

(** X21. The five [replace] calls that make [safe_url] amount to escaping
    the URL character by character; the result holds no raw newline or
    carriage return, and read back as the body of a quoted JavaScript string
    it is never cut short by a quote and gives the URL again. *)
Theorem safe_url_reads_back_as_the_url (page_url : pystr) :
  safe_url page_url = flat_map escape_char page_url
  ∧ js_read (safe_url page_url) = Some page_url
  ∧ (NL ∉ safe_url page_url) ∧ (CR ∉ safe_url page_url).
Proof.
  induction page_url as [|c s (Hmap & Hread & Hnl & Hcr)].
  - repeat split; try reflexivity; apply not_elem_of_nil.
  - rewrite safe_url_cons. split; [cbn [flat_map]; rewrite Hmap; reflexivity|].
    split; [rewrite js_read_escape, Hread; reflexivity|].
    split; apply not_elem_of_app; (split; [apply escape_char_is_plain; auto|assumption]).
Qed.

(** ** Where the script goes *)

Section Injection.
Context (script_head script_middle script_tail : pystr).


Lemma insert_after_tag_cuts (tag html page sc : pystr) :
  insert_after_tag tag html sc = Some page →
  ∃ n, page = take n html ++ sc ++ drop n html.
Proof.
  unfold insert_after_tag. destruct (py_find tag html 0) as [pos|]; [|discriminate].
  destruct (py_find (u ">") html pos) as [tag_end|]; [|discriminate].
  intros [= <-]. eexists. reflexivity.
Qed.

(** X22. The injection only adds the script: the page that
    [inject_async_summary_script] returns is the given page cut in two at
    some position with the script in between, so nothing of the page is
    lost, changed or moved. *)
Theorem injection_keeps_the_page (html_content page_url : pystr) :
  ∃ n, inject_async_summary_script script_head script_middle script_tail html_content page_url
       = take n html_content
         ++ async_script script_head script_middle script_tail page_url
         ++ drop n html_content.
Proof.
  unfold inject_async_summary_script.
  destruct (insert_after_tag (u "<body") html_content _) as [page|] eqn:Hbody;
    [apply (insert_after_tag_cuts _ _ _ _ Hbody)|].
  destruct (insert_after_tag (u "<html") html_content _) as [page|] eqn:Hhtml;
    [apply (insert_after_tag_cuts _ _ _ _ Hhtml)|].
  exists 0. reflexivity.
Qed.

Lemma find_at_char (c : N) (a b : pystr) : c ∉ a → find_at [c] (a ++ c :: b) = Some (length a).
Proof.
  induction a as [|x a IH]; intros Ha.
  - cbn [app find_at starts_with]. rewrite N.eqb_refl. reflexivity.
  - apply not_elem_of_cons in Ha as [Hx Ha]. cbn [app find_at starts_with].
    rewrite (proj2 (N.eqb_neq c x) Hx), (IH Ha). reflexivity.
Qed.

Lemma find_at_char_none (c : N) (s : pystr) : c ∉ s → find_at [c] s = None.
Proof.
  induction s as [|x s IH]; intros Hs; [reflexivity|].
  apply not_elem_of_cons in Hs as [Hx Hs]. cbn [find_at starts_with].
  rewrite (proj2 (N.eqb_neq c x) Hx), (IH Hs). reflexivity.
Qed.

Lemma find_at_none (sub s : pystr) : py_in sub s = false → find_at sub s = None.
Proof.
  induction s as [|x s IH]; rewrite py_in_unfold, find_at_unfold; intros H;
    apply orb_false_iff in H as [-> H]; [reflexivity|]. rewrite (IH H). reflexivity.
Qed.

(** X23. When the first [<body] of the page is followed by a [>], the
    script is put right after the first such [>]: the text before it and the
    whole tag stay in front, the rest of the page follows the script. *)
Theorem script_goes_after_the_body_tag (html_content page_url pre attrs rest : pystr) :
  html_content = pre ++ u "<body" ++ attrs ++ [62%N] ++ rest →
  py_find (u "<body") html_content 0 = Some (length pre) →
  62%N ∉ attrs →
  inject_async_summary_script script_head script_middle script_tail html_content page_url
  = pre ++ u "<body" ++ attrs ++ [62%N]
    ++ async_script script_head script_middle script_tail page_url ++ rest.
Proof.
  intros Hpage Hfind Hattrs. unfold inject_async_summary_script, insert_after_tag.
  rewrite Hfind.
  assert (Hend : py_find (u ">") html_content (length pre)
                 = Some (length pre + length (u "<body" ++ attrs))).
  { unfold py_find. rewrite Hpage, drop_app_length.
    change (u ">") with [62%N].
    replace (u "<body" ++ attrs ++ [62%N] ++ rest)
      with ((u "<body" ++ attrs) ++ 62%N :: rest) by (rewrite <- app_assoc; reflexivity).
    rewrite find_at_char; [reflexivity|].
    apply not_elem_of_app. split; [|exact Hattrs].
    refine (bool_decide_eq_true_1 _ _). vm_compute. reflexivity. }
  rewrite Hend.
  assert (Hcut : html_content = (pre ++ u "<body" ++ attrs ++ [62%N]) ++ rest)
    by (rewrite Hpage, <- !app_assoc; reflexivity).
  assert (Hlen : length pre + length (u "<body" ++ attrs) + 1
                 = length (pre ++ u "<body" ++ attrs ++ [62%N])).
  { rewrite !length_app. cbn [length]. lia. }
  rewrite Hlen. rewrite Hcut. rewrite take_app_length, drop_app_length.
  rewrite <- !app_assoc. reflexivity.
Qed.

(** X24. A page without any [>], or with neither [<body] nor [<html] in it,
    gets the script in front of everything. *)
Theorem script_goes_first_without_a_tag (html_content page_url : pystr) :
  62%N ∉ html_content
  ∨ (py_in (u "<body") html_content = false ∧ py_in (u "<html") html_content = false) →
  inject_async_summary_script script_head script_middle script_tail html_content page_url
  = async_script script_head script_middle script_tail page_url ++ html_content.
Proof.
  intros Hcase. unfold inject_async_summary_script, insert_after_tag.
  destruct Hcase as [Hno|[Hbody Hhtml]].
  - assert (Hnone : ∀ pos, py_find (u ">") html_content pos = None).
    { intros pos. unfold py_find. change (u ">") with [62%N].
      rewrite find_at_char_none; [reflexivity|].
      intros Hin. apply Hno. rewrite <- (take_drop pos html_content).
      apply elem_of_app. right. exact Hin. }
    destruct (py_find (u "<body") html_content 0); rewrite ?Hnone;
      destruct (py_find (u "<html") html_content 0); rewrite ?Hnone; reflexivity.
  - unfold py_find. rewrite drop_0, (find_at_none _ _ Hbody), (find_at_none _ _ Hhtml).
    reflexivity.
Qed.

End Injection.

Lemma script_after_body_witness :
  inject_async_summary_script (u "<script>'") (u "';'") (u "'</script>") sample_page
    (u "https://example.org/a")
  = u "<html>" ++ u "<body" ++ u " class='x'" ++ [62%N]
    ++ async_script (u "<script>'") (u "';'") (u "'</script>") (u "https://example.org/a")
    ++ u "hello</body></html>".
Proof.
  apply (script_goes_after_the_body_tag (u "<script>'") (u "';'") (u "'</script>")
           sample_page (u "https://example.org/a") (u "<html>") (u " class='x'")
           (u "hello</body></html>")).
  - vm_compute. reflexivity.
  - vm_compute. reflexivity.
  - refine (bool_decide_eq_true_1 _ _). vm_compute. reflexivity.
Defined.

Lemma script_first_witness :
  inject_async_summary_script (u "<script>'") (u "';'") (u "'</script>") (u "plain text")
    (u "https://example.org/a")
  = async_script (u "<script>'") (u "';'") (u "'</script>") (u "https://example.org/a")
    ++ u "plain text".
Proof.
  apply (script_goes_first_without_a_tag (u "<script>'") (u "';'") (u "'</script>")
           (u "plain text") (u "https://example.org/a")).
  left. refine (bool_decide_eq_true_1 _ _). vm_compute. reflexivity.
Defined.
